(** * Biome export scripts: a shallow embedding and its properties

    The repository holds two standalone scripts,
    [scripts/export_landcover.py] and [scripts/export_geodatabase.py].
    Both read tables of a geodatabase through one of two access libraries
    and write CSV, JSON and JSON-lines files into an output directory.

    The embedding follows the scripts statement by statement:
    - Python values that flow through the scripts are [pyval];
    - statements that print, touch the output directory or raise run in
      the monad [M], a state monad over [world] with exceptions;
    - the geodatabase is a read-only value of type [geodatabase];
    - each script is a module named after its file.

    Strings are [string]s whose characters stand for the code points
    0..255.  Floating point column values are outside the embedding. *)

From Stdlib Require Import ZArith Lia Bool Ascii String List Sorted Permutation.
From stdpp Require Import base option list strings gmap pretty.

(** ** Python values and built-in functions *)

Module Py.

(** The scalar values a geodatabase cell can hold. *)
Inductive pyval : Type :=
| PyNone
| PyInt (z : Z)
| PyStr (s : string).

#[global] Instance pyval_eq_dec : EqDecision pyval.
Proof. solve_decision. Defined.

(** Exceptions raised by the built-ins and the access libraries. *)
Inductive exn : Type :=
| ValueError
| TypeError
| RuntimeError
| FileNotFoundError
| FileExistsError
| IsADirectoryError
| NotADirectoryError
| SystemExit (code : Z).

(** A value taken out of a row of a pandas data frame: a scalar, or the
    float NaN by which pandas stores a null of a numeric column.
    [bool(NaN)] is true and [int(NaN)] raises [ValueError]. *)
Inductive frame_value : Type :=
| Scalar (v : pyval)
| NaN.

(** [bool(v)]: None, 0 and the empty string are false. *)
Definition truthy (v : pyval) : bool :=
  match v with
  | PyNone => false
  | PyInt z => negb (z =? 0)%Z
  | PyStr s => negb (String.eqb s "")
  end.

(** [str(z)] for an integer. *)
Definition str_of_int (z : Z) : string := pretty z.

Definition is_digit (c : ascii) : bool :=
  let n := N_of_ascii c in ((48 <=? n) && (n <=? 57))%N.

Definition digit_value (c : ascii) : Z := Z.of_N (N_of_ascii c) - 48.

(** The white space that [int] skips around a number, on the code
    points below 256: tab to carriage return, the space, the next-line
    character and the no-break space.  The separators 28 to 31, which
    [str.isspace] accepts, are no white space for [int]. *)
Definition is_space (c : ascii) : bool :=
  let n := N_of_ascii c in
  (((9 <=? n) && (n <=? 13)) || (n =? 32) || (n =? 133) || (n =? 160))%N.

Fixpoint lstrip (s : string) : string :=
  match s with
  | String c r => if is_space c then lstrip r else s
  | EmptyString => s
  end.

Fixpoint rstrip (s : string) : string :=
  match s with
  | String c r =>
      match rstrip r with
      | EmptyString => if is_space c then EmptyString else String c EmptyString
      | r' => String c r'
      end
  | EmptyString => s
  end.

Definition strip (s : string) : string := rstrip (lstrip s).

(** [s.startswith(p)]. *)
Fixpoint startswith (p s : string) : bool :=
  match p, s with
  | EmptyString, _ => true
  | String a p', String b s' => Ascii.eqb a b && startswith p' s'
  | String _ _, EmptyString => false
  end.

(** [s[n:]]. *)
Fixpoint drop_str (n : nat) (s : string) : string :=
  match n, s with
  | O, _ => s
  | S n', String _ r => drop_str n' r
  | S _, EmptyString => EmptyString
  end.

(** The digits of an integer literal: decimal digits, single underscores
    allowed between two digits. *)
Fixpoint int_digits (acc : Z) (prev_digit : bool) (s : string) : option Z :=
  match s with
  | EmptyString => if prev_digit then Some acc else None
  | String c r =>
      if is_digit c then int_digits (10 * acc + digit_value c) true r
      else if Ascii.eqb c "_" && prev_digit then int_digits acc false r
      else None
  end.

(** [int(s)] for a string, base 10.  The interpreter's guard against
    long digit strings ([sys.int_max_str_digits], 4300 by default from
    version 3.11 on, 0 to switch it off) is a setting of the interpreter
    and no part of this function: a statement that converts a text of
    unbounded length states a bound on it. *)
Definition int_of_str (s : string) : exn + Z :=
  let s := strip s in
  let body :=
    if startswith "-" s then Z.opp <$> int_digits 0 false (drop_str 1 s)
    else if startswith "+" s then int_digits 0 false (drop_str 1 s)
    else int_digits 0 false s in
  match body with
  | Some z => inr z
  | None => inl ValueError
  end.

(** [int(v)]. *)
Definition int (v : pyval) : exn + Z :=
  match v with
  | PyNone => inl TypeError
  | PyInt z => inr z
  | PyStr s => int_of_str s
  end.

End Py.

Export Py.

(** ** The process: output directory, standard output, exceptions *)

Module Proc.

(** An entry of the output directory.  The scripts write at most one
    level below it, so a sub-directory holds files only. *)
Inductive node : Type :=
| File (text : string)
| Dir (children : gmap string string).

(** The part of the world a script changes: the listing of its output
    directory and the lines printed so far.  The listing of a directory
    that does not exist yet is empty. *)
Record world : Type := World {
  fs : gmap string node;
  stdout : list string
}.

Definition M (A : Type) : Type := world -> (exn + A) * world.

Definition ret {A} (a : A) : M A := fun w => (inr a, w).

Definition bind {A B} (m : M A) (k : A -> M B) : M B :=
  fun w => match m w with
           | (inr a, w') => k a w'
           | (inl e, w') => (inl e, w')
           end.

Definition raise {A} (e : exn) : M A := fun w => (inl e, w).

(** A pure computation that may raise. *)
Definition lift {A} (r : exn + A) : M A := fun w => (r, w).

Definition print (line : string) : M unit :=
  fun w => (inr tt, World (fs w) (stdout w ++ [line])).

Definition get_fs : M (gmap string node) := fun w => (inr (fs w), w).

Definition put_fs (f : gmap string node) : M unit :=
  fun w => (inr tt, World f (stdout w)).

End Proc.

Export Proc.

Notation "x <- c ;; k" := (bind c (fun x => k))
  (at level 100, c at next level, right associativity).
Notation "c ;;; k" := (bind c (fun _ => k))
  (at level 100, right associativity).

Module ProcOps.

(** [for x in l: body x]. *)
Fixpoint for_each {A} (l : list A) (body : A -> M unit) : M unit :=
  match l with
  | [] => ret tt
  | x :: l' => body x ;;; for_each l' body
  end.

(** A loop that threads a local variable through its body. *)
Fixpoint for_fold {A S} (l : list A) (body : S -> A -> M S) (s : S) : M S :=
  match l with
  | [] => ret s
  | x :: l' => s' <- body s x ;; for_fold l' body s'
  end.

(** [os.makedirs(output_dir, exist_ok=True)] and
    [OUTPUT_DIR.mkdir(parents=True, exist_ok=True)].  The world is the
    listing of the output directory: the embedding starts where the
    output path is a directory or can be made, and there the call
    changes nothing of the listing.  Its failure, when the path is a
    regular file or a parent cannot be written, lies outside the
    embedding; a statement about a whole run names this assumption. *)
Definition makedirs_exist_ok : M unit := ret tt.

(** [Path.mkdir(exist_ok=True)] on a sub-directory of the output
    directory. *)
Definition mkdir_exist_ok (name : string) : M unit :=
  f <- get_fs ;;
  match f !! name with
  | None => put_fs (<[name := Dir ∅]> f)
  | Some (Dir _) => ret tt
  | Some (File _) => raise FileExistsError
  end.

(** [open(output_dir/name, 'w')], the writes, and the close. *)
Definition write_file (name text : string) : M unit :=
  f <- get_fs ;;
  match f !! name with
  | Some (Dir _) => raise IsADirectoryError
  | _ => put_fs (<[name := File text]> f)
  end.

(** [open(output_dir/dir/name, 'w')], the writes, and the close. *)
Definition write_file_in (dir name text : string) : M unit :=
  f <- get_fs ;;
  match f !! dir with
  | None => raise FileNotFoundError
  | Some (File _) => raise NotADirectoryError
  | Some (Dir ch) => put_fs (<[dir := Dir (<[name := text]> ch)]> f)
  end.

(** The exit status of the interpreter after running the script body:
    0 on normal completion, the code of an uncaught [SystemExit], 1 for
    any other uncaught exception. *)
Definition exit_status {A} (r : exn + A) : Z :=
  match r with
  | inr _ => 0
  | inl (SystemExit code) => code
  | inl _ => 1
  end.

End ProcOps.

Export ProcOps.

(** ** Text: lines, CSV rows *)

Module Text.

Definition dquote : ascii := "034"%char.
Definition backslash : ascii := "092"%char.
Definition LF : ascii := "010"%char.
Definition CR : ascii := "013"%char.

Definition str1 (c : ascii) : string := String c EmptyString.

(** [sep.join(l)]. *)
Definition join (sep : string) (l : list string) : string := String.concat sep l.

(** [c in s] for a character. *)
Fixpoint contains_char (c : ascii) (s : string) : bool :=
  match s with
  | EmptyString => false
  | String d r => Ascii.eqb c d || contains_char c r
  end.

(** The lines a text-mode file object yields when iterated, with
    universal newlines: a line ends at LF, CR LF or CR, each read as LF;
    a last line without terminator is yielded when it is not empty. *)
Fixpoint file_lines_go (cur : string) (s : string) : list string :=
  match s with
  | EmptyString => if String.eqb cur "" then [] else [cur]
  | String c r =>
      if Ascii.eqb c LF then (cur +:+ str1 LF) :: file_lines_go "" r
      else if Ascii.eqb c CR then
        match r with
        | String d r' =>
            if Ascii.eqb d LF then (cur +:+ str1 LF) :: file_lines_go "" r'
            else (cur +:+ str1 LF) :: file_lines_go "" r
        | EmptyString => (cur +:+ str1 LF) :: file_lines_go "" r
        end
      else file_lines_go (cur +:+ str1 c) r
  end.

Definition file_lines (text : string) : list string := file_lines_go "" text.

(** The [csv] module's writer, [QUOTE_MINIMAL]: a field is quoted when it
    holds the delimiter, the quote character or a character of the line
    terminator; quotes inside are doubled.  A row made of one empty
    field is written as a pair of quotes. *)
Definition csv_needs_quote (lineterminator : string) (s : string) : bool :=
  existsb (fun c => Ascii.eqb c "," || Ascii.eqb c dquote
                    || contains_char c lineterminator)
          (list_ascii_of_string s).

Fixpoint csv_double_quotes (s : string) : string :=
  match s with
  | EmptyString => EmptyString
  | String c r =>
      if Ascii.eqb c dquote then String dquote (String dquote (csv_double_quotes r))
      else String c (csv_double_quotes r)
  end.

Definition csv_field (lineterminator : string) (s : string) : string :=
  if csv_needs_quote lineterminator s
  then str1 dquote +:+ csv_double_quotes s +:+ str1 dquote
  else s.

Definition csv_row (lineterminator : string) (fields : list string) : string :=
  match fields with
  | [EmptyString] => str1 dquote +:+ str1 dquote +:+ lineterminator
  | _ => join "," (map (csv_field lineterminator) fields) +:+ lineterminator
  end.

(** How the writers print a cell: None as the empty string. *)
Definition cell_str (v : pyval) : string :=
  match v with
  | PyNone => ""
  | PyInt z => str_of_int z
  | PyStr s => s
  end.

End Text.

Export Text.

(** ** JSON encoding, as [json.dump] does it *)

Module Json.

#[warnings="-register-all"] Inductive json : Type :=
| JNull
| JInt (z : Z)
| JStr (s : string)
| JList (items : list json)
| JDict (items : list (string * json)).

Definition hex_digit (n : N) : ascii :=
  if (n <? 10)%N then ascii_of_N (48 + n) else ascii_of_N (87 + n).

(** One character of a string literal under [ensure_ascii=True]. *)
Definition escape_char (c : ascii) : string :=
  let n := N_of_ascii c in
  if Ascii.eqb c dquote then String backslash (str1 dquote)
  else if Ascii.eqb c backslash then String backslash (str1 backslash)
  else if (n =? 8)%N then String backslash "b"
  else if (n =? 12)%N then String backslash "f"
  else if (n =? 10)%N then String backslash "n"
  else if (n =? 13)%N then String backslash "r"
  else if (n =? 9)%N then String backslash "t"
  else if ((32 <=? n) && (n <=? 126))%N then str1 c
  else String backslash
         (String "u" (String "0" (String "0"
           (String (hex_digit (n / 16)) (str1 (hex_digit (n mod 16))))))).

Fixpoint escape (s : string) : string :=
  match s with
  | EmptyString => EmptyString
  | String c r => escape_char c +:+ escape r
  end.

Definition encode_str (s : string) : string :=
  str1 dquote +:+ escape s +:+ str1 dquote.

Fixpoint spaces (n : nat) : string :=
  match n with
  | O => EmptyString
  | S n' => String " " (spaces n')
  end.

(** [indent = None] is the compact single-line form with the separators
    [", "] and [": "]; [indent = Some k] puts every item on a line of
    its own, with the separators [","] and [": "]. *)
Definition newline_indent (indent : option nat) (level : nat) : string :=
  match indent with
  | None => ""
  | Some k => String LF (spaces (k * level))
  end.

Definition item_separator (indent : option nat) (level : nat) : string :=
  match indent with
  | None => ", "
  | Some _ => "," +:+ newline_indent indent level
  end.

Fixpoint dumps_at (indent : option nat) (level : nat) (v : json) : string :=
  match v with
  | JNull => "null"
  | JInt z => str_of_int z
  | JStr s => encode_str s
  | JList [] => "[]"
  | JList items =>
      "[" +:+ newline_indent indent (S level)
      +:+ join (item_separator indent (S level))
               (map (dumps_at indent (S level)) items)
      +:+ newline_indent indent level +:+ "]"
  | JDict [] => "{}"
  | JDict items =>
      "{" +:+ newline_indent indent (S level)
      +:+ join (item_separator indent (S level))
               (map (fun kv => encode_str (fst kv) +:+ ": "
                               +:+ dumps_at indent (S level) (snd kv)) items)
      +:+ newline_indent indent level +:+ "}"
  end.

(** [json.dumps(v)] and [json.dumps(v, indent=k)]. *)
Definition dumps (v : json) : string := dumps_at None 0 v.
Definition dumps_indent (k : nat) (v : json) : string := dumps_at (Some k) 0 v.

Definition json_of_pyval (v : pyval) : json :=
  match v with
  | PyNone => JNull
  | PyInt z => JInt z
  | PyStr s => JStr s
  end.

End Json.

Export Json.

(** ** The geodatabase and its two access libraries *)

Module Gdb.

(** A table or feature class: its name, its field names and its rows,
    each row aligned with the fields. *)
Record table : Type := Table {
  tbl_name : string;
  tbl_fields : list string;
  tbl_rows : list (list pyval)
}.

Record geodatabase : Type := Geodatabase {
  gdb_tables : list table;
  gdb_feature_classes : list table
}.

Definition layers (g : geodatabase) : list table :=
  gdb_tables g ++ gdb_feature_classes g.

Definition find_layer (g : geodatabase) (name : string) : option table :=
  List.find (fun t => String.eqb (tbl_name t) name) (layers g).

(** [x in l] for strings. *)
Definition mem (x : string) (l : list string) : bool :=
  existsb (String.eqb x) l.

(** [l.index(x)]. *)
Fixpoint index (x : string) (l : list string) : option nat :=
  match l with
  | [] => None
  | y :: l' => if String.eqb x y then Some O else S <$> index x l'
  end.

(** The value of field [f] in a row aligned with [fields]. *)
Definition cell (fields : list string) (row : list pyval) (f : string) : pyval :=
  match index f fields with
  | Some i => nth i row PyNone
  | None => PyNone
  end.

Definition lower (c : ascii) : ascii :=
  let n := N_of_ascii c in
  if ((65 <=? n) && (n <=? 90))%N then ascii_of_N (n + 32) else c.

(** The wild card of [arcpy.ListTables] and [arcpy.ListFeatureClasses]:
    the asterisk stands for any run of characters, letter case is
    ignored. *)
Fixpoint wild_card (p : string) : string -> bool :=
  match p with
  | EmptyString => fun s => String.eqb s ""
  | String c p' =>
      if Ascii.eqb c "*" then
        fix star (s : string) : bool :=
          wild_card p' s ||
          match s with
          | EmptyString => false
          | String _ s' => star s'
          end
      else fun s =>
        match s with
        | EmptyString => false
        | String d s' => Ascii.eqb (lower c) (lower d) && wild_card p' s'
        end
  end.

(** [fnmatch.fnmatch(s, p)] for patterns of literal characters, [*] and
    [?], on a case-sensitive file system. *)
Fixpoint fnmatch (p : string) : string -> bool :=
  match p with
  | EmptyString => fun s => String.eqb s ""
  | String c p' =>
      if Ascii.eqb c "*" then
        fix star (s : string) : bool :=
          fnmatch p' s ||
          match s with
          | EmptyString => false
          | String _ s' => star s'
          end
      else if Ascii.eqb c "?" then fun s =>
        match s with
        | EmptyString => false
        | String _ s' => fnmatch p' s'
        end
      else fun s =>
        match s with
        | EmptyString => false
        | String d s' => Ascii.eqb c d && fnmatch p' s'
        end
  end.

(** *** arcpy *)

Definition ListTables (g : geodatabase) : list string :=
  map tbl_name (gdb_tables g).

Definition ListTables_matching (g : geodatabase) (pattern : string) : list string :=
  filter (fun n => wild_card pattern n = true) (map tbl_name (gdb_tables g)).

Definition ListFeatureClasses_matching (g : geodatabase) (pattern : string) : list string :=
  filter (fun n => wild_card pattern n = true) (map tbl_name (gdb_feature_classes g)).

(** [arcpy.ListFields(table)], the names only. *)
Definition ListFields (g : geodatabase) (table_name : string) : exn + list string :=
  match find_layer g table_name with
  | Some t => inr (tbl_fields t)
  | None => inl RuntimeError
  end.

(** [arcpy.da.SearchCursor(table, fields)]: the rows as tuples of the
    requested fields; a missing table or field is a [RuntimeError]. *)
Definition SearchCursor (g : geodatabase) (table_name : string)
    (fields : list string) : exn + list (list pyval) :=
  match find_layer g table_name with
  | Some t =>
      if forallb (fun f => mem f (tbl_fields t)) fields
      then inr (map (fun row => map (cell (tbl_fields t) row) fields) (tbl_rows t))
      else inl RuntimeError
  | None => inl RuntimeError
  end.

(** *** fiona and geopandas *)

Definition listlayers (g : geodatabase) : list string :=
  map tbl_name (layers g).

(** [gpd.read_file(gdb, layer=name)] and [fiona.open(gdb, layer=name)]. *)
Definition read_layer (g : geodatabase) (name : string) : exn + table :=
  match find_layer g name with
  | Some t => inr t
  | None => inl ValueError
  end.

(** Whether the frame that [gpd.read_file] builds of the layer holds
    column [f] as numbers: the column then has a number and no text.
    The nulls of such a column are NaN in the frame; the nulls of every
    other column stay [None]. *)
Definition numeric_column (t : table) (f : string) : bool :=
  existsb (fun row => match cell (tbl_fields t) row f with
                      | PyInt _ => true
                      | _ => false
                      end) (tbl_rows t)
  && forallb (fun row => match cell (tbl_fields t) row f with
                         | PyStr _ => false
                         | _ => true
                         end) (tbl_rows t).

(** [row.get(f)] on a row of that frame. *)
Definition row_get (t : table) (row : list pyval) (f : string) : frame_value :=
  match cell (tbl_fields t) row f with
  | PyNone => if numeric_column t f then NaN else Scalar PyNone
  | v => Scalar v
  end.

End Gdb.

Export Gdb.

(** ** Python dictionaries: insertion-ordered, later writes replace in place *)

Module Dict.

Section dict.
Context {K V : Type} `{EqDecision K}.

Definition dict : Type := list (K * V).

(** [d.get(k)]. *)
Fixpoint get (d : dict) (k : K) : option V :=
  match d with
  | [] => None
  | (k', v) :: d' => if decide (k = k') then Some v else get d' k
  end.

(** [d[k] = v]. *)
Fixpoint set (d : dict) (k : K) (v : V) : dict :=
  match d with
  | [] => [(k, v)]
  | (k', v') :: d' =>
      if decide (k = k') then (k, v) :: d' else (k', v') :: set d' k v
  end.

(** [d.get(k, default)]. *)
Definition get_default (d : dict) (k : K) (default : V) : V :=
  match get d k with
  | Some v => v
  | None => default
  end.

(** [d.values()]. *)
Definition values (d : dict) : list V := map snd d.

(** [{key x: value x for x in l}]. *)
Definition comprehension {A} (key : A -> K) (value : A -> V) (l : list A) : dict :=
  fold_left (fun d x => set d (key x) (value x)) l [].
End dict.

Arguments dict : clear implicits.

End Dict.

(** A pure computation that may raise: sequencing. *)
Definition rbind {A B} (r : exn + A) (k : A -> exn + B) : exn + B :=
  match r with
  | inr a => k a
  | inl e => inl e
  end.

Notation "x <~ c ;; k" := (rbind c (fun x => k))
  (at level 100, c at next level, right associativity).

(** ** scripts/export_landcover.py *)

Module export_landcover.

Record class_info : Type := ClassInfo {
  cls_name : string;
  cls_color : string;
  cls_biome : string
}.

Definition LANDCOVER_CLASSES : Dict.dict Z class_info :=
  [ (0,   ClassInfo "unknown" "#808080" "unknown");
    (20,  ClassInfo "shrubs" "#ccb35c" "shrubland");
    (30,  ClassInfo "herbaceous" "#b8e05c" "grassland");
    (40,  ClassInfo "cultivated" "#e9d35f" "agricultural");
    (50,  ClassInfo "urban" "#e60000" "urban");
    (60,  ClassInfo "bare_sparse" "#c4b79f" "desert");
    (70,  ClassInfo "snow_ice" "#f0f0f0" "polar");
    (80,  ClassInfo "water" "#0064c8" "freshwater");
    (90,  ClassInfo "wetland" "#009696" "wetland");
    (100, ClassInfo "moss_lichen" "#7dd67d" "tundra");
    (111, ClassInfo "forest_evergreen_needle" "#006400" "forest");
    (112, ClassInfo "forest_evergreen_broad" "#00a000" "forest");
    (113, ClassInfo "forest_deciduous_needle" "#aac800" "forest");
    (114, ClassInfo "forest_deciduous_broad" "#68c800" "forest");
    (115, ClassInfo "forest_mixed" "#00c800" "forest");
    (116, ClassInfo "forest_unknown" "#32c832" "forest");
    (121, ClassInfo "forest_open_evergreen_needle" "#88a000" "woodland");
    (122, ClassInfo "forest_open_evergreen_broad" "#78c800" "woodland");
    (123, ClassInfo "forest_open_deciduous_needle" "#a0c000" "woodland");
    (124, ClassInfo "forest_open_deciduous_broad" "#90c800" "woodland");
    (125, ClassInfo "forest_open_mixed" "#78c864" "woodland");
    (126, ClassInfo "forest_open_unknown" "#6bc864" "woodland");
    (200, ClassInfo "ocean" "#000080" "ocean") ]%Z.

(** [LANDCOVER_CLASSES[0]]: the entry declared for code 0. *)
Definition class_0 : class_info :=
  Dict.get_default LANDCOVER_CLASSES 0%Z (ClassInfo "" "" "").

(** [int(majority) if majority else 0]. *)
Definition code_of (majority : pyval) : exn + Z :=
  if truthy majority then int majority else inr 0%Z.

Definition get_biome_info (majority_code : pyval) : exn + class_info :=
  code <~ code_of majority_code ;;
  inr (Dict.get_default LANDCOVER_CLASSES code class_0).

(** An output record, [{"h3": .., "code": .., "biome": ..}]. *)
Record record : Type := Record_ {
  h3 : pyval;
  code : Z;
  biome : string
}.

(** The body of the row loop, the same in both table exporters. *)
Definition append_row (records : list record) (h3_index majority : pyval)
    : exn + list record :=
  if truthy h3_index then
    biome_info <~ get_biome_info majority ;;
    c <~ code_of majority ;;
    inr (records ++ [Record_ h3_index c (cls_biome biome_info)])
  else inr records.

Fixpoint row_loop (records : list record) (rows : list (pyval * pyval))
    : exn + list record :=
  match rows with
  | [] => inr records
  | (h3_index, majority) :: rows' =>
      records' <~ append_row records h3_index majority ;;
      row_loop records' rows'
  end.

Definition export_table_arcpy (gdb : geodatabase) (table_name : string)
    (output_file : option string) : exn + list record :=
  let fields := ["h3_index"; "MAJORITY"] in
  cursor <~ SearchCursor gdb table_name fields ;;
  row_loop [] (map (fun row => (nth 0 row PyNone, nth 1 row PyNone)) cursor).

(** The body of the row loop of [export_table_geopandas], where
    [majority] comes out of the frame.  On NaN, which is true,
    [get_biome_info] raises at [int(majority_code)]. *)
Definition append_row_frame (records : list record) (h3_index : pyval)
    (majority : frame_value) : exn + list record :=
  match majority with
  | Scalar majority => append_row records h3_index majority
  | NaN => if truthy h3_index then inl ValueError else inr records
  end.

Fixpoint row_loop_frame (records : list record) (rows : list (pyval * frame_value))
    : exn + list record :=
  match rows with
  | [] => inr records
  | (h3_index, majority) :: rows' =>
      records' <~ append_row_frame records h3_index majority ;;
      row_loop_frame records' rows'
  end.

(** [h3_index] is a text column, an H3 index being a hexadecimal text:
    the frame holds it as objects and its nulls stay [None].  [MAJORITY]
    is read as the frame holds it. *)
Definition export_table_geopandas (gdb : geodatabase) (table_name : string)
    (output_file : option string) : M (list record) :=
  let layers := listlayers gdb in
  if negb (mem table_name layers) then
    print ("  Warning: " +:+ table_name +:+ " not found in geodatabase") ;;;
    ret []
  else
    gdf <- lift (read_layer gdb table_name) ;;
    lift (row_loop_frame []
            (map (fun row => (cell (tbl_fields gdf) row "h3_index",
                              row_get gdf row "MAJORITY"))
                 (tbl_rows gdf))).

Definition find_tables (USE_ARCPY : bool) (gdb : geodatabase) (pattern : string)
    : list string :=
  if USE_ARCPY then
    let tables := ListTables_matching gdb pattern in
    let feature_classes := ListFeatureClasses_matching gdb pattern in
    tables ++ feature_classes
  else
    let layers := listlayers gdb in
    filter (fun l => fnmatch pattern l = true) layers.

Definition len {A} (l : list A) : string := str_of_int (Z.of_nat (length l)).

(** [{info["biome"]: info["color"] for info in LANDCOVER_CLASSES.values()}]. *)
Definition biome_colors : Dict.dict string string :=
  Dict.comprehension cls_biome cls_color (Dict.values LANDCOVER_CLASSES).

Definition record_json (r : record) : json :=
  JDict [("h3", json_of_pyval (h3 r)); ("code", JInt (code r)); ("biome", JStr (biome r))].

Definition colors_json (d : Dict.dict string string) : json :=
  JDict (map (fun kv => (fst kv, JStr (snd kv))) d).

Definition jsonl_text (all_records : list record) : string :=
  join "" (map (fun r => dumps (record_json r) +:+ str1 LF) all_records).

Definition jsonl_name (resolution : Z) : string :=
  "landcover_res" +:+ str_of_int resolution +:+ ".jsonl".

Definition summary_name (resolution : Z) : string :=
  "landcover_res" +:+ str_of_int resolution +:+ "_summary.json".

Definition summary_json (resolution : Z) (all_records : list record) : json :=
  JDict [("resolution", JInt resolution);
         ("total_tiles", JInt (Z.of_nat (length all_records)));
         ("biome_colors", colors_json biome_colors)].

(** [os.path.join(a, b)] with the separator [/]. *)
Definition path_join (a b : string) : string :=
  if startswith "/" b then b
  else if String.eqb a "" then b
  else if String.eqb (drop_str (String.length a - 1) a) "/" then a +:+ b
  else a +:+ "/" +:+ b.

(** The body of the loop over the tables; [i] is the index that
    [enumerate] supplies. *)
Definition process_table (USE_ARCPY : bool) (gdb : geodatabase)
    (tables : list string) (st : nat * list record) (table_name : string)
    : M (nat * list record) :=
  let '(i, all_records) := st in
  print ("  Processing " +:+ table_name +:+ " ("
         +:+ str_of_int (Z.of_nat (i + 1)) +:+ "/" +:+ len tables +:+ ")...") ;;;
  records <- (if USE_ARCPY then lift (export_table_arcpy gdb table_name None)
              else export_table_geopandas gdb table_name None) ;;
  let all_records := all_records ++ records in
  print ("    Extracted " +:+ len records +:+ " records (total: "
         +:+ len all_records +:+ ")") ;;;
  ret (S i, all_records).

Definition table_loop (USE_ARCPY : bool) (gdb : geodatabase) (tables : list string)
    : M (list record) :=
  st <- for_fold tables (process_table USE_ARCPY gdb tables) (O, []) ;;
  ret (snd st).

(** [export_resolution] returns [None] when it returns early and the
    aggregated records otherwise. *)
Definition export_resolution (USE_ARCPY : bool) (gdb : geodatabase)
    (output_dir : string) (resolution : Z) (pattern : string)
    : M (option (list record)) :=
  print (str1 LF +:+ "Exporting resolution " +:+ str_of_int resolution
         +:+ " tables matching '" +:+ pattern +:+ "'...") ;;;
  let tables := find_tables USE_ARCPY gdb pattern in
  print ("  Found " +:+ len tables +:+ " tables") ;;;
  match tables with
  | [] =>
      print ("  Warning: No tables found matching pattern '" +:+ pattern +:+ "'") ;;;
      ret None
  | _ =>
      all_records <- table_loop USE_ARCPY gdb tables ;;
      let output_file := path_join output_dir (jsonl_name resolution) in
      write_file (jsonl_name resolution) (jsonl_text all_records) ;;;
      print ("  Wrote " +:+ len all_records +:+ " records to " +:+ output_file) ;;;
      write_file (summary_name resolution)
                 (dumps_indent 2 (summary_json resolution all_records)) ;;;
      ret (Some all_records)
  end.

Definition class_json (info : class_info) : json :=
  JDict [("name", JStr (cls_name info)); ("color", JStr (cls_color info));
         ("biome", JStr (cls_biome info))].

Definition biome_colors_json : json :=
  JDict [("classes",
          JDict (map (fun kv => (str_of_int (fst kv), class_json (snd kv)))
                     LANDCOVER_CLASSES));
         ("biome_to_color", colors_json biome_colors)].

Definition main (USE_ARCPY : bool) (argv : list string) (gdb : geodatabase)
    : M unit :=
  if (length argv <? 3)%nat then
    print "Usage: python export_landcover.py <gdb_path> <output_dir>" ;;;
    print (str1 LF +:+ "Example:") ;;;
    print ("  python export_landcover.py " +:+ str1 dquote
           +:+ "C:\Users\mmulq\Projects\Biome\Biome.gdb" +:+ str1 dquote
           +:+ " " +:+ str1 dquote +:+ "./landcover_export" +:+ str1 dquote) ;;;
    raise (SystemExit 1)
  else
    let gdb_path := nth 1 argv "" in
    let output_dir := nth 2 argv "" in
    makedirs_exist_ok ;;;
    print ("Geodatabase: " +:+ gdb_path) ;;;
    print ("Output directory: " +:+ output_dir) ;;;
    export_resolution USE_ARCPY gdb output_dir 3 "ZStatsAsTable_h3_res3_part*" ;;;
    export_resolution USE_ARCPY gdb output_dir 5 "ZStatsTable_h3_res5_part*" ;;;
    export_resolution USE_ARCPY gdb output_dir 7 "*h3_res7_chunk*" ;;;
    let biome_colors_file := path_join output_dir "biome_colors.json" in
    write_file "biome_colors.json" (dumps_indent 2 biome_colors_json) ;;;
    print (str1 LF +:+ "Done! Files written to " +:+ output_dir) ;;;
    print ("Biome color mapping: " +:+ biome_colors_file) ;;;
    print (str1 LF +:+ "Next steps:") ;;;
    print "1. Upload the .jsonl files to your server or Cloudflare R2" ;;;
    print "2. Run the D1 import script to populate the tile_biomes table".

(** Which access libraries can be imported. *)
Record imports : Type := Imports {
  arcpy : bool;
  geopandas : bool;
  fiona : bool
}.

(** The import block at the top of the module; its value is
    [USE_ARCPY]. *)
Definition import_backend (imp : imports) : M bool :=
  if arcpy imp then
    print "Using arcpy for geodatabase access" ;;;
    ret true
  else if geopandas imp && fiona imp then
    print "Using geopandas/fiona for geodatabase access" ;;;
    ret false
  else
    print "ERROR: Neither arcpy nor geopandas available." ;;;
    print "Install with: pip install geopandas fiona" ;;;
    raise (SystemExit 1).

(** Running the script: the import block, then [main]. *)
Definition script (imp : imports) (argv : list string) (gdb : geodatabase)
    : M unit :=
  USE_ARCPY <- import_backend imp ;;
  main USE_ARCPY argv gdb.

End export_landcover.

(** ** Sorting and regular-expression helpers *)

Module Seq.

Section sorted.
Context {A : Type} (key : A -> Z).

Fixpoint insert_by (x : A) (l : list A) : list A :=
  match l with
  | [] => [x]
  | y :: l' => if (key x <=? key y)%Z then x :: l else y :: insert_by x l'
  end.

(** [sorted(l, key=key)]: ascending and stable. *)
Fixpoint sorted_by (l : list A) : list A :=
  match l with
  | [] => []
  | x :: l' => insert_by x (sorted_by l')
  end.
End sorted.

(** The longest prefix of decimal digits, and what follows it. *)
Fixpoint span_digits (s : string) : string * string :=
  match s with
  | String c r =>
      if is_digit c then let '(d, rest) := span_digits r in (String c d, rest)
      else (EmptyString, s)
  | EmptyString => (EmptyString, EmptyString)
  end.

(** [s] without its prefix [p], when it has it. *)
Fixpoint strip_prefix (p s : string) : option string :=
  match p, s with
  | EmptyString, _ => Some s
  | String a p', String b s' => if Ascii.eqb a b then strip_prefix p' s' else None
  | String _ _, EmptyString => None
  end.

(** [format(z, ",")]: decimal with a comma between groups of three
    digits. *)
Fixpoint group3 (s : string) : string :=
  match s with
  | EmptyString => EmptyString
  | String c r =>
      let n := String.length r in
      String c (if ((n mod 3 =? 0) && (0 <? n))%nat then String "," (group3 r)
                else group3 r)
  end.

Definition format_thousands (z : Z) : string :=
  if (z <? 0)%Z then "-" +:+ group3 (str_of_int (- z)) else group3 (str_of_int z).

End Seq.

Export Seq.

(** ** pandas data frames, as far as the exporter uses them *)

Module Pandas.

(** Columns and rows aligned with them; a missing value is [PyNone]. *)
Record DataFrame : Type := Frame {
  columns : list string;
  data : list (list pyval)
}.

(** The column names of several key lists, in order of first
    appearance. *)
Definition union_columns (ls : list (list string)) : list string :=
  fold_left (fun acc l =>
               fold_left (fun acc c => if mem c acc then acc else acc ++ [c]) l acc)
            ls [].

(** [pd.DataFrame(records)] for a list of dictionaries. *)
Definition of_records (records : list (Dict.dict string pyval)) : DataFrame :=
  let cols := union_columns (map (map fst) records) in
  Frame cols
        (map (fun r => map (fun c => Dict.get_default r c PyNone) cols) records).

(** [df[c] = v] for a scalar [v]. *)
Definition set_column (df : DataFrame) (c : string) (v : pyval) : DataFrame :=
  match index c (columns df) with
  | Some i => Frame (columns df) (map (fun row => <[i := v]> row) (data df))
  | None => Frame (columns df ++ [c]) (map (fun row => row ++ [v]) (data df))
  end.

(** [pd.concat(dfs, ignore_index=True)] for a non-empty list. *)
Definition concat (dfs : list DataFrame) : exn + DataFrame :=
  match dfs with
  | [] => inl ValueError
  | _ =>
      let cols := union_columns (map columns dfs) in
      inr (Frame cols
             (flat_map (fun df =>
                          map (fun row => map (cell (columns df) row) cols) (data df))
                       dfs))
  end.

(** [df.rename(columns=m)]. *)
Definition rename (df : DataFrame) (m : Dict.dict string string) : DataFrame :=
  Frame (map (fun c => Dict.get_default m c c) (columns df)) (data df).

(** The positions of the columns named [c]. *)
Fixpoint positions (c : string) (i : nat) (cols : list string) : list nat :=
  match cols with
  | [] => []
  | d :: cols' =>
      if String.eqb c d then i :: positions c (S i) cols' else positions c (S i) cols'
  end.

(** [df[sel]] for a list of names, each of them a column of [df]: every
    column that bears a selected name is taken. *)
Definition select (df : DataFrame) (sel : list string) : DataFrame :=
  let pos := flat_map (fun c => positions c 0 (columns df)) sel in
  Frame (map (fun i => nth i (columns df) "") pos)
        (map (fun row => map (fun i => nth i row PyNone) pos) (data df)).

(** [df.to_csv(path, index=False)]. *)
Definition to_csv (df : DataFrame) : string :=
  csv_row (str1 LF) (columns df)
  +:+ join "" (map (fun row => csv_row (str1 LF) (map cell_str row)) (data df)).

Definition escape_char_slash (c : ascii) : string :=
  if Ascii.eqb c "/" then String backslash "/" else escape_char c.

Fixpoint escape_slash (s : string) : string :=
  match s with
  | EmptyString => EmptyString
  | String c r => escape_char_slash c +:+ escape_slash r
  end.

Definition encode_str_slash (s : string) : string :=
  str1 dquote +:+ escape_slash s +:+ str1 dquote.

Definition encode_cell (v : pyval) : string :=
  match v with
  | PyNone => "null"
  | PyInt z => str_of_int z
  | PyStr s => encode_str_slash s
  end.

(** [df.to_json(path, orient='records')]: one object per row, no
    spaces; column names must be unique. *)
Definition to_json_records (df : DataFrame) : exn + string :=
  if bool_decide (NoDup (columns df)) then
    inr ("[" +:+ join ","
           (map (fun row =>
                   "{" +:+ join ","
                     (map (fun cv => encode_str_slash (fst cv) +:+ ":"
                                     +:+ encode_cell (snd cv))
                          (combine (columns df) row))
                   +:+ "}")
                (data df))
         +:+ "]")
  else inl ValueError.

End Pandas.

(** ** scripts/export_geodatabase.py *)

Module export_geodatabase.

Definition GDB_PATH : string := "C:\Users\mmulq\Projects\Biome\Biome.gdb".

(** [COLUMN_MAP]; [None] marks a column that is skipped. *)
Definition COLUMN_MAP : Dict.dict string (option string) :=
  [ ("OBJECTID", None);
    ("h3_index", Some "h3_index");
    ("ZONE_CODE", Some "zone_code");
    ("COUNT", Some "count");
    ("AREA", Some "area");
    ("MAJORITY", Some "majority") ].

(** [re.match(TABLE_PATTERN, name)] with
    [TABLE_PATTERN = r"ZStatsTable_h3_res(\d+)_part(\d+)"]: the two
    groups of a match.  The match is anchored at the start only. *)
Definition match_TABLE_PATTERN (name : string) : option (string * string) :=
  rest ← strip_prefix "ZStatsTable_h3_res" name;
  let '(g1, rest1) := span_digits rest in
  if String.eqb g1 "" then None else
  rest2 ← strip_prefix "_part" rest1;
  let '(g2, _) := span_digits rest2 in
  if String.eqb g2 "" then None else Some (g1, g2).

(** The loop that keeps the matching names, with their parsed
    resolution and part. *)
Fixpoint filter_zstats (tables : list string) : exn + list (string * Z * Z) :=
  match tables with
  | [] => inr []
  | table :: tables' =>
      match match_TABLE_PATTERN table with
      | Some (g1, g2) =>
          resolution <~ int_of_str g1 ;;
          part <~ int_of_str g2 ;;
          rest <~ filter_zstats tables' ;;
          inr ((table, resolution, part) :: rest)
      | None => filter_zstats tables'
      end
  end.

(** The loop that fills [by_resolution]. *)
Definition group_by_resolution (zstats_tables : list (string * Z * Z))
    : Dict.dict Z (list (string * Z)) :=
  fold_left
    (fun by_resolution '(table, res, part) =>
       let by_resolution :=
         match Dict.get by_resolution res with
         | None => Dict.set by_resolution res []
         | Some _ => by_resolution
         end in
       Dict.set by_resolution res
                (Dict.get_default by_resolution res [] ++ [(table, part)]))
    zstats_tables [].

(** An output record of the statistics export. *)
Record record : Type := Record_ {
  h3_index : pyval;
  zone_code : pyval;
  count : pyval;
  area : pyval;
  majority : pyval;
  source_part : string
}.

Definition fieldnames : list string :=
  ["h3_index"; "zone_code"; "count"; "area"; "majority"; "source_part"].

Definition record_values (r : record) : list pyval :=
  [h3_index r; zone_code r; count r; area r; majority r; PyStr (source_part r)].

Definition record_json (r : record) : json :=
  JDict (combine fieldnames (map json_of_pyval (record_values r))).

Definition CRLF : string := String CR (str1 LF).

(** [csv.DictWriter(f, fieldnames=..)], [writeheader()],
    [writerows(all_records)] on a file opened with [newline='']. *)
Definition csv_text (all_records : list record) : string :=
  csv_row CRLF fieldnames
  +:+ join "" (map (fun r => csv_row CRLF (map cell_str (record_values r)))
                   all_records).

Definition res_dir_name (resolution : Z) : string :=
  "res" +:+ str_of_int resolution.

Definition csv_name (resolution : Z) : string :=
  "zonal_stats_res" +:+ str_of_int resolution +:+ ".csv".

Definition json_name (resolution : Z) : string :=
  "zonal_stats_res" +:+ str_of_int resolution +:+ ".json".

Definition len {A} (l : list A) : string := str_of_int (Z.of_nat (length l)).

(** Which libraries can be imported. *)
Record imports : Type := Imports {
  arcpy : bool;
  fiona : bool;
  pandas : bool
}.

(** An entry of [manifest["resolutions"]]. *)
Record manifest_entry : Type := ManifestEntry {
  csv_file : string;
  json_file : string;
  record_count : Z
}.

Record manifest : Type := Manifest {
  exported_at : string;
  source : string;
  resolutions : Dict.dict Z manifest_entry
}.

Section script.

(** The printed form of [OUTPUT_DIR], which depends on where the script
    is stored, and the clock reading of [datetime.now().isoformat()]. *)
Variable OUTPUT_DIR : string.
Variable now : string.

Definition path2 (a b : string) : string := OUTPUT_DIR +:+ "/" +:+ a +:+ "/" +:+ b.

Definition setup_output_dirs : M unit :=
  makedirs_exist_ok ;;;
  for_each [5; 6; 7; 8; 9]%Z (fun res => mkdir_exist_ok (res_dir_name res)) ;;;
  print ("Output directory: " +:+ OUTPUT_DIR).

(** The rows of one table, appended to [all_records]. *)
Definition read_table_arcpy (gdb : geodatabase) (all_records : list record)
    (table_name : string) (part : Z) : M (list record) :=
  fields <- lift (ListFields gdb table_name) ;;
  let field_indices : Dict.dict string nat :=
    fold_left (fun d '(orig, mapped) =>
                 match mapped, index orig fields with
                 | Some m, Some i => Dict.set d m i
                 | _, _ => d
                 end) COLUMN_MAP [] in
  cursor <- lift (SearchCursor gdb table_name fields) ;;
  let records :=
    map (fun row =>
           Record_ (cell fields row "h3_index") (cell fields row "ZONE_CODE")
                   (cell fields row "COUNT") (cell fields row "AREA")
                   (cell fields row "MAJORITY") ("part" +:+ str_of_int part))
        cursor in
  print ("  " +:+ table_name +:+ ": " +:+ len records +:+ " records") ;;;
  ret (all_records ++ records).

(** The body of the loop over the resolutions, arcpy. *)
Definition export_group_arcpy (gdb : geodatabase) (resolution : Z)
    (tables_list : list (string * Z)) : M unit :=
  print (str1 LF +:+ "Processing resolution " +:+ str_of_int resolution +:+ ": "
         +:+ len tables_list +:+ " tables") ;;;
  all_records <- for_fold (sorted_by snd tables_list)
                   (fun all_records tp => read_table_arcpy gdb all_records (fst tp) (snd tp))
                   [] ;;
  write_file_in (res_dir_name resolution) (csv_name resolution) (csv_text all_records) ;;;
  print ("  Exported " +:+ len all_records +:+ " total records to "
         +:+ path2 (res_dir_name resolution) (csv_name resolution)) ;;;
  write_file_in (res_dir_name resolution) (json_name resolution)
                (dumps (JList (map record_json all_records))) ;;;
  print ("  Also exported to " +:+ path2 (res_dir_name resolution) (json_name resolution)).

Definition export_with_arcpy (imp : imports) (gdb : geodatabase) : M bool :=
  if negb (arcpy imp) then
    print "arcpy not available. Try running in ArcGIS Pro Python environment." ;;;
    ret false
  else
    let tables := ListTables gdb in
    match tables with
    | [] =>
        print ("No tables found in " +:+ GDB_PATH) ;;;
        ret false
    | _ =>
        zstats_tables <- lift (filter_zstats tables) ;;
        print ("Found " +:+ len zstats_tables +:+ " zonal statistics tables") ;;;
        let by_resolution := group_by_resolution zstats_tables in
        for_each (sorted_by fst by_resolution)
                 (fun g => export_group_arcpy gdb (fst g) (snd g)) ;;;
        ret true
    end.

(** [dict(rec['properties'])]: the fields of a row with their values. *)
Definition properties (t : table) (row : list pyval) : Dict.dict string pyval :=
  fold_left (fun d kv => Dict.set d (fst kv) (snd kv))
            (combine (tbl_fields t) row) [].

(** The frame of one layer, appended to [all_dfs]. *)
Definition read_layer_fiona (gdb : geodatabase) (all_dfs : list Pandas.DataFrame)
    (layer_name : string) (part : Z) : M (list Pandas.DataFrame) :=
  src <- lift (read_layer gdb layer_name) ;;
  let records := map (properties src) (tbl_rows src) in
  let df := Pandas.of_records records in
  let df := Pandas.set_column df "source_part" (PyStr ("part" +:+ str_of_int part)) in
  print ("  " +:+ layer_name +:+ ": " +:+ len (Pandas.data df) +:+ " records") ;;;
  ret (all_dfs ++ [df]).

Definition rename_map : Dict.dict string string :=
  [ ("ZONE_CODE", "zone_code"); ("COUNT", "count");
    ("AREA", "area"); ("MAJORITY", "majority") ].

(** The frame that is written: all parts, renamed, restricted to the
    declared columns that are present. *)
Definition combined_frame (all_dfs : list Pandas.DataFrame) : exn + Pandas.DataFrame :=
  combined <~ Pandas.concat all_dfs ;;
  let combined := Pandas.rename combined rename_map in
  let columns := fieldnames in
  inr (Pandas.select combined
         (filter (fun c => mem c (Pandas.columns combined) = true) columns)).

(** The body of the loop over the resolutions, fiona. *)
Definition export_group_fiona (gdb : geodatabase) (resolution : Z)
    (layers_list : list (string * Z)) : M unit :=
  print (str1 LF +:+ "Processing resolution " +:+ str_of_int resolution +:+ ": "
         +:+ len layers_list +:+ " tables") ;;;
  all_dfs <- for_fold (sorted_by snd layers_list)
               (fun all_dfs lp => read_layer_fiona gdb all_dfs (fst lp) (snd lp))
               [] ;;
  combined <- lift (combined_frame all_dfs) ;;
  write_file_in (res_dir_name resolution) (csv_name resolution) (Pandas.to_csv combined) ;;;
  print ("  Exported " +:+ len (Pandas.data combined) +:+ " total records to "
         +:+ path2 (res_dir_name resolution) (csv_name resolution)) ;;;
  json_text <- lift (Pandas.to_json_records combined) ;;
  write_file_in (res_dir_name resolution) (json_name resolution) json_text ;;;
  print ("  Also exported to " +:+ path2 (res_dir_name resolution) (json_name resolution)).

Definition export_with_fiona (imp : imports) (gdb : geodatabase) : M bool :=
  if negb (fiona imp && pandas imp) then
    print "fiona/pandas not available. Install with: pip install fiona pandas" ;;;
    ret false
  else
    print "Note: fiona has limited support for .gdb files. arcpy is recommended." ;;;
    let layers := listlayers gdb in
    print ("Found " +:+ len layers +:+ " layers") ;;;
    zstats_layers <- lift (filter_zstats layers) ;;
    print ("Found " +:+ len zstats_layers +:+ " zonal statistics tables") ;;;
    let by_resolution := group_by_resolution zstats_layers in
    for_each (sorted_by fst by_resolution)
             (fun g => export_group_fiona gdb (fst g) (snd g)) ;;;
    ret true.

(** [OUTPUT_DIR.iterdir()]: the entries of the output directory, in the
    order the file system lists them. *)
Definition iterdir (f : gmap string node) : list (string * node) := map_to_list f.

(** The body of the loop of [generate_manifest]. *)
Definition manifest_step (resolutions : Dict.dict Z manifest_entry)
    (entry : string * node) : exn + Dict.dict Z manifest_entry :=
  let '(name, nd) := entry in
  match nd with
  | Dir children =>
      if startswith "res" name then
        res <~ int_of_str (drop_str 3 name) ;;
        match children !! csv_name res with
        | Some text =>
            let record_count := (Z.of_nat (length (file_lines text)) - 1)%Z in
            inr (Dict.set resolutions res
                   (ManifestEntry (path2 name (csv_name res))
                                  (path2 name (json_name res))
                                  record_count))
        | None => inr resolutions
        end
      else inr resolutions
  | File _ => inr resolutions
  end.

Fixpoint manifest_loop (resolutions : Dict.dict Z manifest_entry)
    (entries : list (string * node)) : exn + Dict.dict Z manifest_entry :=
  match entries with
  | [] => inr resolutions
  | entry :: entries' =>
      resolutions' <~ manifest_step resolutions entry ;;
      manifest_loop resolutions' entries'
  end.

Definition entry_json (e : manifest_entry) : json :=
  JDict [("csv_file", JStr (csv_file e)); ("json_file", JStr (json_file e));
         ("record_count", JInt (record_count e))].

Definition manifest_json (m : manifest) : json :=
  JDict [("exported_at", JStr (exported_at m)); ("source", JStr (source m));
         ("resolutions",
          JDict (map (fun kv => (str_of_int (fst kv), entry_json (snd kv)))
                     (resolutions m)))].

Definition generate_manifest : M manifest :=
  f <- get_fs ;;
  resolutions <- lift (manifest_loop [] (iterdir f)) ;;
  let manifest := Manifest now GDB_PATH resolutions in
  write_file "manifest.json" (dumps_indent 2 (manifest_json manifest)) ;;;
  print (str1 LF +:+ "Manifest written to " +:+ OUTPUT_DIR +:+ "/manifest.json") ;;;
  ret manifest.

Definition rule : string := join "" (repeat "=" 60).

Definition main (imp : imports) (gdb : geodatabase) : M unit :=
  print rule ;;;
  print "Biome Zonal Statistics Export" ;;;
  print rule ;;;
  print ("Source: " +:+ GDB_PATH) ;;;
  print ("Output: " +:+ OUTPUT_DIR) ;;;
  print "" ;;;
  setup_output_dirs ;;;
  success <- export_with_arcpy imp gdb ;;
  success <- (if negb success then
                print (str1 LF +:+ "Trying fiona as fallback...") ;;;
                export_with_fiona imp gdb
              else ret success) ;;
  if success then
    manifest <- generate_manifest ;;
    print (str1 LF +:+ rule) ;;;
    print "Export Summary" ;;;
    print rule ;;;
    for_each (sorted_by fst (resolutions manifest))
             (fun ri => print ("Resolution " +:+ str_of_int (fst ri) +:+ ": "
                               +:+ format_thousands (record_count (snd ri))
                               +:+ " records")) ;;;
    print (str1 LF +:+ "Next step: Run upload_to_d1.py to push to Cloudflare D1")
  else
    print (str1 LF +:+ "Export failed. Please ensure you have either:") ;;;
    print "  1. ArcGIS Pro Python environment (for arcpy)" ;;;
    print "  2. fiona and pandas installed (pip install fiona pandas)".

End script.

End export_geodatabase.

(** ** Reading a JSON-lines file back

    The consumer of the [.jsonl] files reads them line by line and
    decodes every line with [json.loads].  The decoder below covers the
    documents the exporter writes: one object per line whose values are
    strings, integers or null. *)

Module JsonRead.

Definition hex_value (c : ascii) : option N :=
  let n := N_of_ascii c in
  if ((48 <=? n) && (n <=? 57))%N then Some (n - 48)%N
  else if ((97 <=? n) && (n <=? 102))%N then Some (n - 87)%N
  else if ((65 <=? n) && (n <=? 70))%N then Some (n - 55)%N
  else None.

Definition hex4 (h1 h2 h3 h4 : ascii) : option N :=
  a ← hex_value h1; b ← hex_value h2; c ← hex_value h3; d ← hex_value h4;
  Some (((a * 16 + b) * 16 + c) * 16 + d)%N.

(** The character a backslash escape of one letter stands for. *)
Definition unescape_simple (e : ascii) : option ascii :=
  if Ascii.eqb e dquote then Some dquote
  else if Ascii.eqb e backslash then Some backslash
  else if Ascii.eqb e "/" then Some "/"%char
  else if Ascii.eqb e "b" then Some "008"%char
  else if Ascii.eqb e "f" then Some "012"%char
  else if Ascii.eqb e "n" then Some LF
  else if Ascii.eqb e "r" then Some CR
  else if Ascii.eqb e "t" then Some "009"%char
  else None.

(** A string literal after its opening quote: the decoded string and
    the text after the closing quote.  Raw control characters are
    refused, and so are code points above 255. *)
Fixpoint scan_string (s : string) : option (string * string) :=
  match s with
  | EmptyString => None
  | String c r =>
      if Ascii.eqb c dquote then Some (EmptyString, r)
      else if Ascii.eqb c backslash then
        match r with
        | EmptyString => None
        | String e r1 =>
            if Ascii.eqb e "u" then
              match r1 with
              | String h1 (String h2 (String h3 (String h4 r2))) =>
                  match hex4 h1 h2 h3 h4 with
                  | Some n =>
                      if (n <? 256)%N then
                        match scan_string r2 with
                        | Some (t, rest) => Some (String (ascii_of_N n) t, rest)
                        | None => None
                        end
                      else None
                  | None => None
                  end
              | _ => None
              end
            else
              match unescape_simple e with
              | Some ch =>
                  match scan_string r1 with
                  | Some (t, rest) => Some (String ch t, rest)
                  | None => None
                  end
              | None => None
              end
        end
      else if (N_of_ascii c <? 32)%N then None
      else
        match scan_string r with
        | Some (t, rest) => Some (String c t, rest)
        | None => None
        end
  end.

Definition is_json_space (c : ascii) : bool :=
  Ascii.eqb c " " || Ascii.eqb c "009" || Ascii.eqb c LF || Ascii.eqb c CR.

Fixpoint skip_ws (s : string) : string :=
  match s with
  | String c r => if is_json_space c then skip_ws r else s
  | EmptyString => s
  end.

(** An integer literal; a fraction or an exponent makes a float, which
    is refused. *)
Definition scan_int (s : string) : option (Z * string) :=
  let neg := startswith "-" s in
  let s1 := if neg then drop_str 1 s else s in
  let '(ds, rest) := span_digits s1 in
  if String.eqb ds "" then None
  else if startswith "0" ds && negb (String.eqb ds "0") then None
  else if startswith "." rest || startswith "e" rest || startswith "E" rest then None
  else z ← int_digits 0 false ds; Some (if neg then (- z)%Z else z, rest).

Definition scan_value (s : string) : option (json * string) :=
  match s with
  | String c r =>
      if Ascii.eqb c dquote then
        '(t, rest) ← scan_string r; Some (JStr t, rest)
      else if startswith "null" s then Some (JNull, drop_str 4 s)
      else '(z, rest) ← scan_int s; Some (JInt z, rest)
  | EmptyString => None
  end.

(** The members of an object, from the opening quote of a key to the
    closing brace. *)
Fixpoint scan_members (fuel : nat) (s : string)
    : option (list (string * json) * string) :=
  match fuel with
  | O => None
  | S fuel' =>
      match s with
      | String c r =>
          if Ascii.eqb c dquote then
            '(k, s1) ← scan_string r;
            match skip_ws s1 with
            | String ":" s2 =>
                '(v, s3) ← scan_value (skip_ws s2);
                match skip_ws s3 with
                | String "," s4 =>
                    '(items, s5) ← scan_members fuel' (skip_ws s4);
                    Some ((k, v) :: items, s5)
                | String "}" s4 => Some ([(k, v)], s4)
                | _ => None
                end
            | _ => None
            end
          else None
      | EmptyString => None
      end
  end.

(** [json.loads(line)] for a line that holds one object; the result is
    the dictionary that was decoded. *)
Definition loads (line : string) : option (Dict.dict string json) :=
  let s := skip_ws line in
  if startswith "{" s then
    let r := skip_ws (drop_str 1 s) in
    '(items, rest) ←
      (if startswith "}" r then Some ([], drop_str 1 r)
       else scan_members (String.length line) r);
    if String.eqb (skip_ws rest) ""
    then Some (fold_left (fun d kv => Dict.set d (fst kv) (snd kv)) items [])
    else None
  else None.

(** [[json.loads(line) for line in open(path)]]. *)
Definition read_jsonl (text : string) : list (option (Dict.dict string json)) :=
  map loads (file_lines text).

End JsonRead.

(** ** Notions used to state the properties *)

Module Stated.



(** The dictionary [json.loads] gives back for a written record. *)
Definition record_items (r : export_landcover.record) : Dict.dict string json :=
  [("h3", json_of_pyval (export_landcover.h3 r));
   ("code", JInt (export_landcover.code r));
   ("biome", JStr (export_landcover.biome r))].

(** Every character is a decimal digit. *)
Fixpoint all_digits (s : string) : bool :=
  match s with
  | EmptyString => true
  | String c r => is_digit c && all_digits r
  end.

(** The value of a digit string read after [acc]. *)
Fixpoint digits_value (acc : Z) (s : string) : Z :=
  match s with
  | EmptyString => acc
  | String c r => digits_value (10 * acc + digit_value c) r
  end.

(** What may follow an integer literal: not a digit, and nothing that
    would make the literal a float. *)
Definition int_follow (rest : string) : bool :=
  match rest with
  | EmptyString => true
  | String c _ =>
      negb (is_digit c || Ascii.eqb c "." || Ascii.eqb c "e" || Ascii.eqb c "E")
  end.

(** No character is white space. *)
Fixpoint no_space (s : string) : bool :=
  match s with
  | EmptyString => true
  | String c r => negb (is_space c) && no_space r
  end.

(** No line terminator occurs in the string. *)
Fixpoint no_eol (s : string) : bool :=
  match s with
  | EmptyString => true
  | String c r => negb (Ascii.eqb c LF) && negb (Ascii.eqb c CR) && no_eol r
  end.

(** The text of one member of a single-line object: the quoted key, a
    colon, a space, the text of the value, and what follows. *)
Definition member_text (key value_text tail : string) : string :=
  String dquote (escape key +:+ String dquote
    (String ":" (String " " (value_text +:+ tail)))).

(** [f'] differs from [f] at most in the contents of directories whose
    name satisfies [P]. *)
Definition touches (P : string -> Prop) (f f' : gmap string node) : Prop :=
  forall name,
    f' !! name = f !! name \/
    (P name /\ exists ch ch', f !! name = Some (Dir ch) /\ f' !! name = Some (Dir ch')).

(** In the listing [f], the directory [name] stands for resolution [r]
    and holds the CSV file of that resolution, with content [text]. *)
Definition csv_of_resolution (f : gmap string node) (r : Z) (name text : string)
    : Prop :=
  exists ch, f !! name = Some (Dir ch) /\
    startswith "res" name = true /\
    int_of_str (drop_str 3 name) = inr r /\
    ch !! export_geodatabase.csv_name r = Some text.

(** [f'] is [f] with some empty directories added. *)
Definition only_new_dirs (f f' : gmap string node) : Prop :=
  forall n, f' !! n = f !! n \/ (f !! n = None /\ f' !! n = Some (Dir ∅)).

(** No entry named in [names] is a regular file. *)
Definition no_file_at (f : gmap string node) (names : list string) : Prop :=
  forall n text, In n names -> f !! n <> Some (File text).

(** The frame the fiona exporter makes of one layer. *)
Definition layer_frame (t : table) (part : Z) : Pandas.DataFrame :=
  Pandas.set_column
    (Pandas.of_records (map (export_geodatabase.properties t) (tbl_rows t)))
    "source_part" (PyStr ("part" +:+ str_of_int part)).

(** The fields a row has a cell for. *)
Definition row_fields (t : table) (row : list pyval) : list string :=
  map fst (combine (tbl_fields t) row).

(** The name of a column after [rename]. *)
Definition renamed (c : string) : string :=
  Dict.get_default export_geodatabase.rename_map c c.

(** [f'] is [f] with empty directories added at some of [names] that
    were absent: nothing else is added, changed or removed. *)
Definition makes_dirs (names : list string) (f f' : gmap string node) : Prop :=
  forall n, f' !! n = f !! n \/ (In n names /\ f !! n = None /\ f' !! n = Some (Dir ∅)).

(** Every name of [names] is a directory of the listing. *)
Definition all_dirs (names : list string) (f : gmap string node) : Prop :=
  forall n, In n names -> exists ch, f !! n = Some (Dir ch).

End Stated.

Export Stated.

(** ** Example inputs *)

Module Examples.

Definition empty_world : world := World ∅ [].

(** One table of resolution 5 whose majority values are 111, null, 999
    and -1. *)
Definition gdb_majorities : geodatabase :=
  Geodatabase
    [Table "ZStatsTable_h3_res5_part001" ["h3_index"; "MAJORITY"]
       [[PyStr "85283473fffffff"; PyInt 111];
        [PyStr "85283447fffffff"; PyNone];
        [PyStr "8528340bfffffff"; PyInt 999];
        [PyStr "85283443fffffff"; PyInt (-1)]]]
    [].

(** One table of resolution 5 without an [h3_index] column. *)
Definition gdb_no_h3 : geodatabase :=
  Geodatabase
    [Table "ZStatsTable_h3_res5_part001" ["OBJECTID"; "COUNT"; "MAJORITY"]
       [[PyInt 1; PyInt 12; PyInt 111]]]
    [].

(** A resolution-3 table without a [MAJORITY] column, which the arcpy
    cursor refuses, next to a sound resolution-5 table. *)
Definition gdb_bad_res3 : geodatabase :=
  Geodatabase
    [Table "ZStatsAsTable_h3_res3_part01" ["h3_index"]
       [[PyStr "830000fffffffff"]];
     Table "ZStatsTable_h3_res5_part001" ["h3_index"; "MAJORITY"]
       [[PyStr "85283473fffffff"; PyInt 111]]]
    [].

(** Statistics tables of resolution 4, for which the exporter makes no
    directory, and of resolution 5. *)
Definition gdb_res4_res5 : geodatabase :=
  Geodatabase
    [Table "ZStatsTable_h3_res5_part1" ["h3_index"; "COUNT"]
       [[PyStr "85283473fffffff"; PyInt 3]];
     Table "ZStatsTable_h3_res4_part1" ["h3_index"; "COUNT"]
       [[PyStr "8428347ffffffff"; PyInt 9]]]
    [].

(** Two parts of resolution 5, listed with part 2 before part 1. *)
Definition gdb_parts : geodatabase :=
  Geodatabase
    [Table "ZStatsTable_h3_res5_part002" ["h3_index"; "MAJORITY"]
       [[PyStr "85283447fffffff"; PyInt 20]];
     Table "ZStatsTable_h3_res5_part001" ["h3_index"; "MAJORITY"]
       [[PyStr "85283473fffffff"; PyInt 111]]]
    [].

(** An output directory that holds the empty directory [res5]. *)
Definition world_res5 : world := World {[ "res5" := Dir ∅ ]} [].

(** One layer of resolution 5 without a [ZONE_CODE] column. *)
Definition gdb_no_zone_code : geodatabase :=
  Geodatabase
    [Table "ZStatsTable_h3_res5_part001" ["h3_index"; "COUNT"; "AREA"; "MAJORITY"]
       [[PyStr "85283473fffffff"; PyInt 12; PyInt 2520; PyInt 111]]]
    [].

(** An output directory left by an earlier run: [res6] holds a CSV of
    two records, [res5] is empty. *)
Definition old_res6_csv : string :=
  "h3_index,zone_code,count,area,majority,source_part"
  +:+ String CR (String LF
    ("86283470fffffff,1,2,3,4,part1"
     +:+ String CR (String LF
       ("86283471fffffff,5,6,7,8,part1" +:+ String CR (String LF ""))))).

Definition world_old_res6 : world :=
  World {[ "res5" := Dir ∅;
           "res6" := Dir {[ "zonal_stats_res6.csv" := old_res6_csv ]} ]} [].

End Examples.

(** ** Notions used to state the further properties *)

Module Further.

(** Every run of [m], whatever its outcome, leaves the listing of the
    output directory related by [R]. *)
Definition keeps (R : gmap string node -> gmap string node -> Prop) {A} (m : M A)
    : Prop :=
  forall w r w', m w = (r, w') -> R (fs w) (fs w').

(** [f'] has the entries of [f] at every name outside [P]. *)
Definition agree_outside (P : string -> Prop) (f f' : gmap string node) : Prop :=
  forall name, ~ P name -> f' !! name = f !! name.

(** Whether the name matches [TABLE_PATTERN]. *)
Definition matches_TABLE_PATTERN (name : string) : bool :=
  match export_geodatabase.match_TABLE_PATTERN name with
  | Some _ => true
  | None => false
  end.

(** The tables of one resolution, with their parts, in listing order. *)
Definition tables_of_resolution (zstats_tables : list (string * Z * Z)) (res : Z)
    : list (string * Z) :=
  map (fun x => (fst (fst x), snd x))
      (List.filter (fun x => (snd (fst x) =? res)%Z) zstats_tables).

(** No string cell of the record holds a line terminator. *)
Definition cells_no_eol (r : export_geodatabase.record) : bool :=
  forallb (fun v => match v with PyStr s => no_eol s | _ => true end)
          (export_geodatabase.record_values r).

(** Every name of [names] is a directory of the listing. *)
Definition dirs_exist (names : list string) (f : gmap string node) : Prop :=
  forall n, In n names -> exists ch, f !! n = Some (Dir ch).

(** From a listing that satisfies [I] the computation returns normally,
    in a listing that satisfies [I]. *)
Definition completes {A} (I : gmap string node -> Prop) (m : M A) : Prop :=
  forall w, I (fs w) -> exists a w', m w = (inr a, w') /\ I (fs w').

(** The directory of resolution [res] holds its CSV and JSON files. *)
Definition has_files (res : Z) (f : gmap string node) : Prop :=
  exists ch csv json,
    f !! export_geodatabase.res_dir_name res = Some (Dir ch) /\
    ch !! export_geodatabase.csv_name res = Some csv /\
    ch !! export_geodatabase.json_name res = Some json.

(** What the statistics exporter needs of the output directory once its
    directories are made: [res5] to [res9] are directories, the name of
    every directory that starts with "res" goes on with an integer, and
    [manifest.json] is not a directory. *)
Definition export_ready (f : gmap string node) : Prop :=
  dirs_exist (map export_geodatabase.res_dir_name [5; 6; 7; 8; 9]%Z) f /\
  (forall name ch, f !! name = Some (Dir ch) -> startswith "res" name = true ->
                   exists r, int_of_str (drop_str 3 name) = inr r) /\
  (forall ch, f !! "manifest.json" <> Some (Dir ch)).

(** No [h3_index] cell of the table is a number: the column holds text,
    as H3 indexes are, and a frame keeps its nulls as [None]. *)
Definition text_h3_index (t : table) : bool :=
  forallb (fun row => match cell (tbl_fields t) row "h3_index" with
                      | PyInt _ => false
                      | _ => true
                      end)
          (tbl_rows t).

(** The table has both columns the land-cover exporter reads; no
    [h3_index] cell of it is a number; no [MAJORITY] cell of it is a
    string, and none is a null next to numbers, which a frame holds as
    NaN. *)
Definition table_ok (t : table) : bool :=
  mem "h3_index" (tbl_fields t) && mem "MAJORITY" (tbl_fields t)
  && text_h3_index t
  && forallb (fun row => match cell (tbl_fields t) row "MAJORITY" with
                         | PyStr _ => false
                         | PyNone => negb (numeric_column t "MAJORITY")
                         | PyInt _ => true
                         end)
             (tbl_rows t).

(** The names the land-cover script writes to. *)
Definition landcover_outputs : list string :=
  [export_landcover.jsonl_name 3; export_landcover.summary_name 3;
   export_landcover.jsonl_name 5; export_landcover.summary_name 5;
   export_landcover.jsonl_name 7; export_landcover.summary_name 7;
   "biome_colors.json"].

(** No entry named in [names] is a directory. *)
Definition no_dir_at (names : list string) (f : gmap string node) : Prop :=
  forall n ch, In n names -> f !! n <> Some (Dir ch).

(** Both files of a land-cover resolution are there. *)
Definition has_landcover_files (resolution : Z) (f : gmap string node) : Prop :=
  exists jsonl summary,
    f !! export_landcover.jsonl_name resolution = Some (File jsonl) /\
    f !! export_landcover.summary_name resolution = Some (File summary).

End Further.

Export Further.

(** * Properties *)

(** ** Dictionaries *)

Section dict_facts.
Context {K V : Type} `{EqDecision K}.
Implicit Types (d : Dict.dict K V) (k : K) (v : V).

Lemma dict_get_set_eq d k v : Dict.get (Dict.set d k v) k = Some v.
Proof.
  induction d as [|[k' v'] d IH]; simpl.
  - by rewrite decide_True.
  - destruct (decide (k = k')) as [->|Hne]; simpl.
    + by rewrite decide_True.
    + by rewrite decide_False.
Qed.

Lemma dict_get_set_ne d k k' v :
  k <> k' -> Dict.get (Dict.set d k v) k' = Dict.get d k'.
Proof.
  intros Hne. induction d as [|[k0 v0] d IH]; simpl.
  - by rewrite decide_False.
  - destruct (decide (k = k0)) as [->|Hk]; simpl.
    + by rewrite !decide_False.
    + destruct (decide (k' = k0)); auto.
Qed.

Lemma dict_get_set d k k' v :
  Dict.get (Dict.set d k v) k' = if decide (k = k') then Some v else Dict.get d k'.
Proof.
  destruct (decide (k = k')) as [->|Hne].
  - apply dict_get_set_eq.
  - by apply dict_get_set_ne.
Qed.


End dict_facts.

Import export_landcover.

(** ** Sequencing in the two monads *)

Lemma rbind_inr {A B} (r : exn + A) (k : A -> exn + B) b :
  rbind r k = inr b -> exists a, r = inr a /\ k a = inr b.
Proof. destruct r as [e|a]; simpl; [discriminate|eauto]. Qed.

Lemma bind_inr {A B} (m : M A) (k : A -> M B) w b w' :
  bind m k w = (inr b, w') ->
  exists a w1, m w = (inr a, w1) /\ k a w1 = (inr b, w').
Proof.
  unfold bind. destruct (m w) as [[e|a] w1]; [discriminate|eauto].
Qed.

Lemma bind_run_inr {A B} (m : M A) (k : A -> M B) w a w1 :
  m w = (inr a, w1) -> bind m k w = k a w1.
Proof. unfold bind. by intros ->. Qed.

Lemma bind_run_inl {A B} (m : M A) (k : A -> M B) w e w1 :
  m w = (inl e, w1) -> bind m k w = (inl e, w1).
Proof. unfold bind. by intros ->. Qed.

Lemma lift_inr {A} (r : exn + A) w a w' :
  lift r w = (inr a, w') -> r = inr a /\ w' = w.
Proof. unfold lift. by intros [= -> ->]. Qed.

(** ** Land cover: the fields of an output record *)

Lemma dict_get_In {K V} `{EqDecision K} (d : Dict.dict K V) k v :
  Dict.get d k = Some v -> In (k, v) d.
Proof.
  induction d as [|[k' v'] d IH]; simpl; [discriminate|].
  destruct (decide (k = k')) as [->|]; [intros [= ->]; by left|].
  intros. right. auto.
Qed.

Lemma mem_In x l : mem x l = true <-> In x l.
Proof.
  unfold mem. rewrite existsb_exists. split.
  - intros (y & Hy & Heq). by apply String.eqb_eq in Heq as ->.
  - intros Hx. exists x. split; [done|apply String.eqb_refl].
Qed.

Lemma find_layer_mem gdb name t :
  find_layer gdb name = Some t -> mem name (listlayers gdb) = true.
Proof.
  unfold find_layer, listlayers. intros Hfind.
  destruct (find_some _ _ Hfind) as [Hin Heq]. apply String.eqb_eq in Heq as <-.
  apply mem_In, in_map_iff. by exists t.
Qed.

Lemma find_layer_none gdb name :
  find_layer gdb name = None -> mem name (listlayers gdb) = false.
Proof.
  unfold find_layer, listlayers. intros Hfind.
  destruct (mem name (map tbl_name (layers gdb))) eqn:Hmem; [|done].
  apply mem_In, in_map_iff in Hmem as (t & Hname & Hin).
  pose proof (find_none _ _ Hfind t Hin) as Hne. cbn beta in Hne.
  rewrite Hname, String.eqb_refl in Hne. discriminate.
Qed.




(** What the row loop appends: one record for every row whose
    [h3_index] is true, in row order. *)
Lemma row_loop_spec rows : forall recs recs',
  row_loop recs rows = inr recs' ->
  exists new, recs' = recs ++ new /\
    forall r, In r new ->
      exists h m, In (h, m) rows /\ truthy h = true /\ h3 r = h /\
        code_of m = inr (code r) /\
        biome r = cls_biome (Dict.get_default LANDCOVER_CLASSES (code r) class_0).
Proof.
  induction rows as [|[h m] rows IH]; intros recs recs' Hrun; simpl in Hrun.
  - injection Hrun as <-. exists []. split; [by rewrite app_nil_r|]. intros r [].
  - apply rbind_inr in Hrun as (recs1 & Hrow & Hrun).
    apply IH in Hrun as (new & -> & Hnew).
    unfold append_row in Hrow. destruct (truthy h) eqn:Hh.
    + unfold get_biome_info in Hrow.
      destruct (code_of m) as [e|c] eqn:Hc; simpl in Hrow; [discriminate|].
      injection Hrow as <-.
      exists (Record_ h c (cls_biome (Dict.get_default LANDCOVER_CLASSES c class_0)) :: new).
      split; [by rewrite <- app_assoc|].
      intros r [<-|Hin].
      * exists h, m. simpl. repeat split; auto.
      * destruct (Hnew r Hin) as (h' & m' & ? & ?). exists h', m'. split; [by right|done].
    + injection Hrow as <-. exists new. split; [done|].
      intros r Hin. destruct (Hnew r Hin) as (h' & m' & ? & ?).
      exists h', m'. split; [by right|done].
Qed.

(** When the loop over a frame returns, no row with a true [h3_index]
    had NaN as its majority, and the loop did what the loop over the
    cells does. *)
Lemma row_loop_frame_cells t rows : forall recs recs',
  row_loop_frame recs (map (fun row => (cell (tbl_fields t) row "h3_index",
                                        row_get t row "MAJORITY")) rows) = inr recs' ->
  row_loop recs (map (fun row => (cell (tbl_fields t) row "h3_index",
                                  cell (tbl_fields t) row "MAJORITY")) rows) = inr recs'.
Proof.
  induction rows as [|row rows IH]; intros recs recs' Hrun; [done|].
  cbn [map row_loop_frame row_loop] in Hrun |- *.
  apply rbind_inr in Hrun as (recs1 & Hrow & Hrun).
  assert (append_row recs (cell (tbl_fields t) row "h3_index")
                     (cell (tbl_fields t) row "MAJORITY") = inr recs1) as ->.
  { unfold append_row_frame, row_get in Hrow.
    destruct (cell (tbl_fields t) row "MAJORITY") as [|z|m]; [|done..].
    destruct (numeric_column t "MAJORITY"); [|done].
    unfold append_row. by destruct (truthy (cell (tbl_fields t) row "h3_index")). }
  cbn [rbind]. by apply IH.
Qed.

(** The records of one table, under either backend, come from rows of
    that table. *)
Lemma export_table_rows (USE_ARCPY : bool) gdb table_name w recs w' :
  (if USE_ARCPY then lift (export_table_arcpy gdb table_name None)
   else export_table_geopandas gdb table_name None) w = (inr recs, w') ->
  forall r, In r recs ->
    exists t row, find_layer gdb table_name = Some t /\ In row (tbl_rows t) /\
      truthy (cell (tbl_fields t) row "h3_index") = true /\
      h3 r = cell (tbl_fields t) row "h3_index" /\
      code_of (cell (tbl_fields t) row "MAJORITY") = inr (code r) /\
      biome r = cls_biome (Dict.get_default LANDCOVER_CLASSES (code r) class_0).
Proof.
  intros Hrun r Hr.
  assert (exists t, find_layer gdb table_name = Some t /\
            row_loop [] (map (fun row => (cell (tbl_fields t) row "h3_index",
                                          cell (tbl_fields t) row "MAJORITY"))
                             (tbl_rows t)) = inr recs) as (t & Ht & Hloop).
  { destruct USE_ARCPY.
    - apply lift_inr in Hrun as [Hrun _]. unfold export_table_arcpy in Hrun.
      apply rbind_inr in Hrun as (cursor & Hcur & Hrun).
      unfold SearchCursor in Hcur.
      destruct (find_layer gdb table_name) as [t|]; [|discriminate].
      destruct (forallb _ _); [|discriminate].
      injection Hcur as <-. exists t. split; [done|].
      rewrite map_map in Hrun. exact Hrun.
    - unfold export_table_geopandas in Hrun.
      destruct (negb (mem table_name (listlayers gdb))).
      + apply bind_inr in Hrun as (? & ? & _ & Hrun).
        injection Hrun as <- _. destruct Hr.
      + apply bind_inr in Hrun as (gdf & w1 & Hread & Hrun).
        apply lift_inr in Hread as [Hread ->]. apply lift_inr in Hrun as [Hrun _].
        unfold read_layer in Hread.
        destruct (find_layer gdb table_name) as [t|]; [|discriminate].
        injection Hread as <-. exists t. split; [done|].
        by apply row_loop_frame_cells. }
  apply row_loop_spec in Hloop as (new & -> & Hnew). simpl in Hr.
  destruct (Hnew r Hr) as (h & m & Hin & Hh & Hh3 & Hcode & Hbiome).
  apply in_map_iff in Hin as (row & [= <- <-] & Hrow).
  exists t, row. repeat split; auto.
Qed.

(** What the row loop appends, row by row: one record for every row
    whose [h3_index] is true, in row order, made of the cells of that
    row. *)
Lemma row_loop_rows {A} (h3_index majority : A -> pyval) rows : forall recs recs',
  row_loop recs (map (fun row => (h3_index row, majority row)) rows) = inr recs' ->
  exists new, recs' = recs ++ new /\
    Forall2 (fun row r =>
               h3 r = h3_index row /\ code_of (majority row) = inr (code r) /\
               biome r = cls_biome (Dict.get_default LANDCOVER_CLASSES (code r) class_0))
            (List.filter (fun row => truthy (h3_index row)) rows) new.
Proof.
  induction rows as [|row rows IH]; intros recs recs' Hrun;
    cbn [map row_loop List.filter] in Hrun |- *.
  - injection Hrun as <-. exists []. split; [by rewrite app_nil_r|constructor].
  - apply rbind_inr in Hrun as (recs1 & Hrow & Hrun).
    apply IH in Hrun as (new & -> & Hnew).
    unfold append_row in Hrow. destruct (truthy (h3_index row)).
    + unfold get_biome_info in Hrow.
      destruct (code_of (majority row)) as [e|c] eqn:Hc; cbn [rbind] in Hrow;
        [discriminate|].
      injection Hrow as <-. eexists (_ :: new). split; [by rewrite <- app_assoc|].
      by constructor.
    + injection Hrow as <-. by exists new.
Qed.


Lemma code_of_error majority e : code_of majority = inl e -> e = ValueError.
Proof.
  unfold code_of. destruct majority as [|z|text]; cbn [truthy int]; [done| |].
  - by destruct (negb _).
  - destruct (negb _); [|done]. unfold int_of_str.
    destruct (if startswith "-" (strip text) then _ else _); [done|]. by intros [= <-].
Qed.

Lemma append_row_frame_error records h3_index majority e :
  append_row_frame records h3_index majority = inl e -> e = ValueError.
Proof.
  unfold append_row_frame, append_row, get_biome_info.
  destruct majority as [majority|].
  - destruct (truthy h3_index); [|done].
    destruct (code_of majority) as [e'|c] eqn:Hc; cbn [rbind]; [|done].
    intros [= <-]. by apply code_of_error in Hc.
  - destruct (truthy h3_index); [|done]. by intros [= <-].
Qed.

(** A row with a true [h3_index] and NaN as its majority makes the loop
    over the frame raise. *)
Lemma row_loop_frame_nan rows : forall recs h3_index,
  In (h3_index, NaN) rows -> truthy h3_index = true ->
  row_loop_frame recs rows = inl ValueError.
Proof.
  induction rows as [|[h m] rows IH]; intros recs h3_index Hin Hh3; [destruct Hin|].
  cbn [row_loop_frame].
  destruct (append_row_frame recs h m) as [e|recs1] eqn:Hrow.
  - by rewrite (append_row_frame_error _ _ _ _ Hrow).
  - cbn [rbind]. destruct Hin as [[= -> ->]|Hin]; [|by eapply IH].
    unfold append_row_frame in Hrow. by rewrite Hh3 in Hrow.
Qed.




(** ** The [h3] field *)

Lemma truthy_nonempty v : truthy v = true -> v <> PyNone /\ v <> PyStr "".
Proof. destruct v as [|z|s]; simpl; [discriminate|done|]. by destruct s. Qed.

Lemma index_Some_nth {B} (g : string -> B) (d : B) f : forall l i,
  index f l = Some i -> nth i (map g l) d = g f.
Proof.
  induction l as [|y l IH]; intros i; simpl; [discriminate|].
  destruct (String.eqb f y) eqn:Hfy.
  - apply String.eqb_eq in Hfy as ->. by intros [= <-].
  - destruct (index f l) as [j|]; simpl; [|discriminate].
    intros [= <-]. by apply IH.
Qed.

Lemma index_not_mem f l : mem f l = false -> index f l = None.
Proof.
  unfold mem. induction l as [|y l IH]; [done|].
  cbn [existsb index]. destruct (String.eqb f y); [discriminate|].
  intros Hl. by rewrite IH.
Qed.

(** Reading all fields of a row through the cursor and then picking one
    of them gives the cell of the source row. *)
Lemma cell_project fields row f :
  cell fields (map (cell fields row) fields) f = cell fields row f.
Proof.
  unfold cell at 1. destruct (index f fields) as [i|] eqn:Hi.
  - by apply index_Some_nth.
  - unfold cell. by rewrite Hi.
Qed.

Lemma forallb_mem_self (l : list string) : forallb (fun f => mem f l) l = true.
Proof.
  apply forallb_forall. intros f Hf. unfold mem.
  apply existsb_exists. exists f. split; [done|apply String.eqb_refl].
Qed.

(** The statistics exporter under arcpy turns every row of the table
    into one record, copying the cells. *)
Lemma read_table_arcpy_spec gdb all_records table_name part w recs w' :
  export_geodatabase.read_table_arcpy gdb all_records table_name part w = (inr recs, w') ->
  exists t, find_layer gdb table_name = Some t /\
    recs = all_records ++
      map (fun row =>
             export_geodatabase.Record_
               (cell (tbl_fields t) row "h3_index") (cell (tbl_fields t) row "ZONE_CODE")
               (cell (tbl_fields t) row "COUNT") (cell (tbl_fields t) row "AREA")
               (cell (tbl_fields t) row "MAJORITY") ("part" +:+ str_of_int part))
          (tbl_rows t).
Proof.
  unfold export_geodatabase.read_table_arcpy. intros Hrun.
  apply bind_inr in Hrun as (fields & w1 & Hf & Hrun).
  apply lift_inr in Hf as [Hf ->].
  apply bind_inr in Hrun as (cursor & w1 & Hc & Hrun).
  apply lift_inr in Hc as [Hc ->].
  apply bind_inr in Hrun as ([] & w1 & _ & Hrun).
  injection Hrun as <- _.
  unfold ListFields in Hf. unfold SearchCursor in Hc.
  destruct (find_layer gdb table_name) as [t|]; [|discriminate].
  injection Hf as <-. rewrite forallb_mem_self in Hc. injection Hc as <-.
  exists t. split; [done|]. f_equal. rewrite map_map.
  apply map_ext. intros row. by rewrite !cell_project.
Qed.

(** C3, as the code has it: under either backend every output record of
    the land-cover pipeline has an [h3] that is neither null nor the
    empty string.  The statistics exporter under arcpy makes one record
    of every source row and copies the [h3_index] cell as it is, null
    when the table has no such column. *)
Theorem h3_nonempty_in_landcover :
  (forall (USE_ARCPY : bool) gdb table_name w recs w',
     (if USE_ARCPY then lift (export_table_arcpy gdb table_name None)
      else export_table_geopandas gdb table_name None) w = (inr recs, w') ->
     forall r, In r recs ->
       truthy (h3 r) = true /\ h3 r <> PyNone /\ h3 r <> PyStr "")
  /\ (forall gdb all_records table_name part w recs w',
        export_geodatabase.read_table_arcpy gdb all_records table_name part w
          = (inr recs, w') ->
        exists t, find_layer gdb table_name = Some t /\
          map export_geodatabase.h3_index recs =
            map export_geodatabase.h3_index all_records ++
            map (fun row => cell (tbl_fields t) row "h3_index") (tbl_rows t) /\
          (mem "h3_index" (tbl_fields t) = false ->
           forall row, cell (tbl_fields t) row "h3_index" = PyNone)).
Proof.
  split.
  - intros USE_ARCPY gdb table_name w recs w' Hrun r Hr.
    destruct (export_table_rows _ _ _ _ _ _ Hrun r Hr)
      as (t & row & _ & _ & Htrue & Hh3 & _).
    rewrite Hh3. split; [done|]. by apply truthy_nonempty.
  - intros gdb all_records table_name part w recs w' Hrun.
    apply read_table_arcpy_spec in Hrun as (t & Ht & ->).
    exists t. split; [done|]. split.
    + by rewrite map_app, map_map.
    + intros Hmem row. unfold cell. by rewrite (index_not_mem _ _ Hmem).
Qed.

Lemma h3_nonempty_in_landcover_witness :
  let recs := [Record_ (PyStr "85283473fffffff") 111 "forest"] in
  export_table_geopandas Examples.gdb_parts "ZStatsTable_h3_res5_part001" None
       Examples.empty_world = (inr recs, Examples.empty_world) /\
  forall r, In r recs -> truthy (h3 r) = true /\ h3 r <> PyNone /\ h3 r <> PyStr "".
Proof.
  intros recs. split; [vm_compute; reflexivity|].
  apply (proj1 h3_nonempty_in_landcover false Examples.gdb_parts
           "ZStatsTable_h3_res5_part001" Examples.empty_world recs Examples.empty_world).
  vm_compute. reflexivity.
Defined.

(** C3 as stated fails for the statistics exporter: a table without an
    [h3_index] column gives a record whose [h3_index] is null. *)
Lemma statistics_h3_index_null_counterexample :
  exists r w',
    export_geodatabase.read_table_arcpy Examples.gdb_no_h3 []
      "ZStatsTable_h3_res5_part001" 1 Examples.empty_world = (inr [r], w') /\
    export_geodatabase.h3_index r = PyNone.
Proof. eexists _, _. split; [vm_compute; reflexivity|reflexivity]. Qed.

(** ** Land cover: a resolution group without tables *)

(** C1, as the code has it: when the pattern of a resolution group
    matches no table, [export_resolution] prints a warning and returns
    at once; it writes no file for the group, neither the JSON-lines file
    nor the summary, and the run goes on with the next statement. *)
Theorem export_resolution_no_tables (USE_ARCPY : bool) gdb output_dir resolution pattern w :
  find_tables USE_ARCPY gdb pattern = [] ->
  export_resolution USE_ARCPY gdb output_dir resolution pattern w =
    (inr None,
     World (fs w)
           (stdout w ++
            [str1 LF +:+ "Exporting resolution " +:+ str_of_int resolution
               +:+ " tables matching '" +:+ pattern +:+ "'...";
             "  Found 0 tables";
             "  Warning: No tables found matching pattern '" +:+ pattern +:+ "'"])).
Proof.
  intros Hnone. unfold export_resolution. rewrite Hnone.
  unfold bind, print, ret. simpl. by rewrite <- !app_assoc.
Qed.

Lemma export_resolution_no_tables_witness :
  find_tables true Examples.gdb_majorities "*h3_res7_chunk*" = [] /\
  export_resolution true Examples.gdb_majorities "out" 7 "*h3_res7_chunk*"
                    Examples.empty_world =
    (inr None,
     World ∅ [str1 LF +:+ "Exporting resolution 7 tables matching '*h3_res7_chunk*'...";
              "  Found 0 tables";
              "  Warning: No tables found matching pattern '*h3_res7_chunk*'"]).
Proof.
  split; [vm_compute; reflexivity|].
  apply (export_resolution_no_tables true Examples.gdb_majorities "out" 7
           "*h3_res7_chunk*" Examples.empty_world).
  vm_compute. reflexivity.
Defined.

(** C1 as stated fails: in a run over a geodatabase without tables of
    resolution 7 the exit status is 0, the files of resolution 5 are
    written, and no summary file of resolution 7 exists afterwards. *)
Lemma no_summary_for_empty_group_counterexample :
  let run := script (Imports true false false)
                    ["export_landcover.py"; "Biome.gdb"; "out"]
                    Examples.gdb_majorities Examples.empty_world in
  find_tables true Examples.gdb_majorities "*h3_res7_chunk*" = [] /\
  exit_status (fst run) = 0%Z /\
  is_Some (fs (snd run) !! summary_name 5) /\
  fs (snd run) !! summary_name 7 = None.
Proof.
  split; [vm_compute; reflexivity|]. split; [vm_compute; reflexivity|].
  split; [|vm_compute; reflexivity].
  eexists. vm_compute. reflexivity.
Qed.

(** ** Neither access library can be imported *)

Lemma bind_print {B} line (k : unit -> M B) f out :
  bind (print line) k (World f out) = k tt (World f (out ++ [line])).
Proof. reflexivity. Qed.

Lemma bind_ret {A B} (a : A) (k : A -> M B) w : bind (ret a) k w = k a w.
Proof. reflexivity. Qed.

Lemma bind_lift {A B} (a : A) (k : A -> M B) w : bind (lift (inr a)) k w = k a w.
Proof. reflexivity. Qed.

Lemma bind_assoc {A B C} (m : M A) (k : A -> M B) (h : B -> M C) w :
  bind (bind m k) h w = bind m (fun a => bind (k a) h) w.
Proof. unfold bind. by destruct (m w) as [[e|a] w1]. Qed.

(** Runs the prints and returns at the head of a sequence. *)
Ltac run_prints :=
  repeat match goal with
  | |- context [bind (print _) _ _] => rewrite bind_print
  | |- context [bind (ret _) _ _] => rewrite bind_ret
  | |- context [bind (bind _ _) _ _] => rewrite bind_assoc
  end.

Lemma only_new_dirs_refl f : only_new_dirs f f.
Proof. intros n. by left. Qed.

Lemma only_new_dirs_trans f1 f2 f3 :
  only_new_dirs f1 f2 -> only_new_dirs f2 f3 -> only_new_dirs f1 f3.
Proof.
  intros H12 H23 n. destruct (H23 n) as [E|[E1 E2]], (H12 n) as [F|[F1 F2]].
  - left. congruence.
  - right. split; congruence.
  - right. split; congruence.
  - right. split; congruence.
Qed.

Lemma makes_dirs_refl names f : makes_dirs names f f.
Proof. intros n. by left. Qed.

Lemma makes_dirs_trans names f1 f2 f3 :
  makes_dirs names f1 f2 -> makes_dirs names f2 f3 -> makes_dirs names f1 f3.
Proof.
  intros H12 H23 n. destruct (H23 n) as [E|(Hn & E1 & E2)], (H12 n) as [F|(Hn' & F1 & F2)].
  - left. congruence.
  - right. split; [done|]. split; congruence.
  - right. split; [done|]. split; congruence.
  - congruence.
Qed.

(** The loop of [mkdir(exist_ok=True)] calls: it completes when none of
    the names is a regular file, and all of them are directories then;
    else it raises [FileExistsError].  Either way it adds nothing but
    empty directories at names of the loop. *)
Lemma for_each_mkdir_outcome {A} (g : A -> string) l : forall w,
  exists r w',
    for_each l (fun x => mkdir_exist_ok (g x)) w = (r, w') /\
    stdout w' = stdout w /\ makes_dirs (map g l) (fs w) (fs w') /\
    ((r = inr tt /\ all_dirs (map g l) (fs w') /\ no_file_at (fs w) (map g l))
     \/ (r = inl FileExistsError
         /\ exists x text, In x l /\ fs w !! g x = Some (File text))).
Proof.
  induction l as [|x0 l IH]; intros w.
  - exists (inr tt), w. split; [done|]. split; [done|].
    split; [apply makes_dirs_refl|]. left. split; [done|]. split; by intros n.
  - cbn [for_each map]. unfold bind at 1, mkdir_exist_ok at 1, bind at 1, get_fs.
    destruct (fs w !! g x0) as [[text|ch]|] eqn:Hx0; cbn beta iota.
    + exists (inl FileExistsError), w. split; [done|]. split; [done|].
      split; [apply makes_dirs_refl|]. right. split; [done|].
      exists x0, text. split; [by left|done].
    + destruct (IH w) as (r & w' & Hrun & Hout & Hmakes & Hcase).
      exists r, w'. unfold ret. cbn beta iota. split; [exact Hrun|]. split; [done|]. split.
      { intros n. destruct (Hmakes n) as [E|(Hn & E)]; [by left|right].
        split; [by right|done]. }
      destruct Hcase as [(-> & Hdirs & Hnf)|(-> & y & text & Hy & Hfile)].
      * left. split; [done|]. split.
        -- intros n [<-|Hn]; [|by apply Hdirs].
           destruct (Hmakes (g x0)) as [E|(_ & E & _)]; [|congruence].
           exists ch. congruence.
        -- intros n text [<-|Hn]; [congruence|by apply Hnf].
      * right. split; [done|]. exists y, text. split; [by right|done].
    + unfold put_fs. cbn beta iota.
      destruct (IH (World (<[g x0 := Dir ∅]> (fs w)) (stdout w)))
        as (r & w' & Hrun & Hout & Hmakes & Hcase).
      cbn [fs stdout] in Hrun, Hout, Hmakes, Hcase.
      assert (makes_dirs (g x0 :: map g l) (fs w) (<[g x0 := Dir ∅]> (fs w))) as Hfirst.
      { intros n. destruct (decide (g x0 = n)) as [<-|Hne].
        - right. split; [by left|]. split; [done|apply lookup_insert_eq].
        - left. by apply lookup_insert_ne. }
      exists r, w'. split; [exact Hrun|]. split; [done|]. split.
      { eapply makes_dirs_trans; [exact Hfirst|].
        intros n. destruct (Hmakes n) as [E|(Hn & E)]; [by left|right].
        split; [by right|done]. }
      destruct Hcase as [(-> & Hdirs & Hnf)|(-> & y & text & Hy & Hfile)].
      * left. split; [done|]. split.
        -- intros n [<-|Hn]; [|by apply Hdirs].
           destruct (Hmakes (g x0)) as [E|(_ & E & _)].
           ++ exists ∅. by rewrite E, lookup_insert_eq.
           ++ by rewrite lookup_insert_eq in E.
        -- intros n text [<-|Hn]; [congruence|].
           intros Hfile. apply (Hnf n text Hn).
           destruct (decide (g x0 = n)) as [<-|Hne]; [congruence|].
           by rewrite lookup_insert_ne.
      * right. split; [done|]. exists y, text. split; [by right|].
        destruct (decide (g x0 = g y)) as [Heq|Hne].
        -- by rewrite <- Heq, lookup_insert_eq in Hfile.
        -- by rewrite lookup_insert_ne in Hfile.
Qed.

(** C7, as the code has it: when neither access library can be
    imported, the land-cover exporter prints the error and the install
    hint and terminates with exit status 1 before it touches the output
    directory.  The statistics exporter, its output directory being
    there or made, goes on to make its directories: when none of [res5]
    to [res9] is a regular file it makes those that are missing, so that
    all five are directories, writes no file, prints its guidance and
    terminates normally, with exit status 0; when one of them is a
    regular file, [mkdir] raises [FileExistsError] and the run ends with
    exit status 1 before the guidance, having made nothing but empty
    directories. *)
Theorem no_backend_behaviour :
  (forall imp argv gdb w,
     arcpy imp = false -> geopandas imp && fiona imp = false ->
     script imp argv gdb w =
       (inl (SystemExit 1),
        World (fs w)
              (stdout w ++ ["ERROR: Neither arcpy nor geopandas available.";
                            "Install with: pip install geopandas fiona"]))
     /\ exit_status (fst (script imp argv gdb w)) = 1%Z)
  /\ (forall OUTPUT_DIR now imp gdb w,
        export_geodatabase.arcpy imp = false ->
        export_geodatabase.fiona imp && export_geodatabase.pandas imp = false ->
        let names := map export_geodatabase.res_dir_name [5; 6; 7; 8; 9]%Z in
        let banner :=
          [export_geodatabase.rule; "Biome Zonal Statistics Export";
           export_geodatabase.rule; "Source: " +:+ export_geodatabase.GDB_PATH;
           "Output: " +:+ OUTPUT_DIR; ""] in
        let run := export_geodatabase.main OUTPUT_DIR now imp gdb w in
        makes_dirs names (fs w) (fs (snd run)) /\
        (no_file_at (fs w) names ->
           fst run = inr tt /\ exit_status (fst run) = 0%Z /\
           all_dirs names (fs (snd run)) /\
           stdout (snd run)
           = stdout w ++ banner ++
             ["Output directory: " +:+ OUTPUT_DIR;
              "arcpy not available. Try running in ArcGIS Pro Python environment.";
              str1 LF +:+ "Trying fiona as fallback...";
              "fiona/pandas not available. Install with: pip install fiona pandas";
              str1 LF +:+ "Export failed. Please ensure you have either:";
              "  1. ArcGIS Pro Python environment (for arcpy)";
              "  2. fiona and pandas installed (pip install fiona pandas)"]) /\
        (forall res text,
           In res [5; 6; 7; 8; 9]%Z ->
           fs w !! export_geodatabase.res_dir_name res = Some (File text) ->
           fst run = inl FileExistsError /\ exit_status (fst run) = 1%Z /\
           stdout (snd run) = stdout w ++ banner)).
Proof.
  split.
  - intros imp argv gdb w Ha Hg.
    assert (script imp argv gdb w =
       (inl (SystemExit 1),
        World (fs w)
              (stdout w ++ ["ERROR: Neither arcpy nor geopandas available.";
                            "Install with: pip install geopandas fiona"]))) as Hrun.
    { unfold script, import_backend. rewrite Ha, Hg.
      unfold bind, print, raise. simpl. by rewrite <- app_assoc. }
    split; [exact Hrun|]. by rewrite Hrun.
  - intros OUTPUT_DIR now imp gdb [f out] Ha Hf names banner run.
    cbn [fs stdout].
    destruct (for_each_mkdir_outcome export_geodatabase.res_dir_name [5; 6; 7; 8; 9]%Z
                (World f (out ++ banner)))
      as (r & [f1 out1] & Hloop & Hout & Hmakes & Hcase).
    cbn [fs stdout] in Hout, Hmakes, Hcase. subst out1. fold names in Hmakes, Hcase.
    assert (run =
            match r with
            | inl e => (inl e, World f1 (out ++ banner))
            | inr _ =>
                (inr tt,
                 World f1
                   (out ++ banner ++
                    ["Output directory: " +:+ OUTPUT_DIR;
                     "arcpy not available. Try running in ArcGIS Pro Python environment.";
                     str1 LF +:+ "Trying fiona as fallback...";
                     "fiona/pandas not available. Install with: pip install fiona pandas";
                     str1 LF +:+ "Export failed. Please ensure you have either:";
                     "  1. ArcGIS Pro Python environment (for arcpy)";
                     "  2. fiona and pandas installed (pip install fiona pandas)"]))
            end) as Hrun.
    { unfold run, export_geodatabase.main, export_geodatabase.setup_output_dirs.
      unfold makedirs_exist_ok. run_prints.
      replace (((((((out ++ [export_geodatabase.rule])
                    ++ ["Biome Zonal Statistics Export"])
                   ++ [export_geodatabase.rule])
                  ++ ["Source: " +:+ export_geodatabase.GDB_PATH])
                 ++ ["Output: " +:+ OUTPUT_DIR]) ++ [""]))
        with (out ++ banner) by (unfold banner; by rewrite <- !app_assoc).
      destruct r as [e|[]].
      - by rewrite (bind_run_inl _ _ _ _ _ Hloop).
      - rewrite (bind_run_inr _ _ _ _ _ Hloop).
        unfold export_geodatabase.export_with_arcpy, export_geodatabase.export_with_fiona.
        rewrite Ha, Hf. cbn [negb]. run_prints. cbn [negb]. run_prints.
        unfold print. cbn [fs stdout]. by rewrite <- !app_assoc. }
    split; [|split].
    + rewrite Hrun. by destruct r.
    + intros Hnf. destruct Hcase as [(-> & Hdirs & _)|(-> & x & text & Hx & Hfile)].
      * rewrite Hrun. by repeat split.
      * destruct (Hnf (export_geodatabase.res_dir_name x) text); [by apply in_map|done].
    + intros res text Hres Hfile.
      destruct Hcase as [(-> & _ & Hnf)|(-> & _)].
      * destruct (Hnf (export_geodatabase.res_dir_name res) text); [by apply in_map|done].
      * rewrite Hrun. by repeat split.
Qed.

Lemma no_backend_behaviour_witness :
  let names := map export_geodatabase.res_dir_name [5; 6; 7; 8; 9]%Z in
  let run := export_geodatabase.main "data/exports" "2025-01-01T00:00:00"
               (export_geodatabase.Imports false true false) Examples.gdb_majorities
               Examples.empty_world in
  (export_geodatabase.arcpy (export_geodatabase.Imports false true false) = false /\
   no_file_at (fs Examples.empty_world) names) /\
  (exit_status (fst (script (Imports false true false) ["export_landcover.py"]
                            Examples.gdb_majorities Examples.empty_world)) = 1%Z) /\
  fst run = inr tt /\ exit_status (fst run) = 0%Z /\ all_dirs names (fs (snd run)) /\
  makes_dirs names (fs Examples.empty_world) (fs (snd run)).
Proof.
  intros names run.
  assert (no_file_at (fs Examples.empty_world) names) as Hnf.
  { intros n text _. simpl. by rewrite lookup_empty. }
  split; [split; [reflexivity|exact Hnf]|]. split.
  - apply (proj1 no_backend_behaviour (Imports false true false)
             ["export_landcover.py"] Examples.gdb_majorities Examples.empty_world);
      reflexivity.
  - destruct (proj2 no_backend_behaviour "data/exports" "2025-01-01T00:00:00"
                (export_geodatabase.Imports false true false) Examples.gdb_majorities
                Examples.empty_world eq_refl eq_refl) as (Hmakes & Hok & _).
    destruct (Hok Hnf) as (Hrun & Hexit & Hdirs & _). by repeat split.
Defined.

(** C7 as stated fails for the statistics exporter: with no access
    library importable it ends with exit status 0, after creating its
    five directories. *)
Lemma statistics_no_backend_exit_0_counterexample :
  let run := export_geodatabase.main "data/exports" "2025-01-01T00:00:00"
               (export_geodatabase.Imports false false false)
               Examples.gdb_majorities Examples.empty_world in
  exit_status (fst run) = 0%Z /\
  fs (snd run) !! "res5" = Some (Dir ∅) /\
  size (fs (snd run)) = 5%nat.
Proof. repeat split; vm_compute; reflexivity. Qed.

(** ** A failure inside one resolution group *)

Lemma for_each_app_raise {A} (body : A -> M unit) before x after : forall w w1 e w2,
  for_each before body w = (inr tt, w1) ->
  body x w1 = (inl e, w2) ->
  for_each (before ++ x :: after) body w = (inl e, w2).
Proof.
  induction before as [|y before IH]; intros w w1 e w2 Hbefore Hx.
  - injection Hbefore as <-. cbn [app for_each]. by apply bind_run_inl.
  - cbn [app for_each] in *. unfold bind in Hbefore |- *.
    destruct (body y w) as [[e'|[]] w']; [discriminate|]. by eapply IH.
Qed.

Lemma main_groups (USE_ARCPY : bool) argv gdb f out :
  (3 <= length argv)%nat ->
  main USE_ARCPY argv gdb (World f out) =
  (let output_dir := nth 2 argv "" in
   export_resolution USE_ARCPY gdb output_dir 3 "ZStatsAsTable_h3_res3_part*" ;;;
   export_resolution USE_ARCPY gdb output_dir 5 "ZStatsTable_h3_res5_part*" ;;;
   export_resolution USE_ARCPY gdb output_dir 7 "*h3_res7_chunk*" ;;;
   write_file "biome_colors.json" (dumps_indent 2 biome_colors_json) ;;;
   print (str1 LF +:+ "Done! Files written to " +:+ output_dir) ;;;
   print ("Biome color mapping: " +:+ path_join output_dir "biome_colors.json") ;;;
   print (str1 LF +:+ "Next steps:") ;;;
   print "1. Upload the .jsonl files to your server or Cloudflare R2" ;;;
   print "2. Run the D1 import script to populate the tile_biomes table")
    (World f (out ++ ["Geodatabase: " +:+ nth 1 argv "";
                      "Output directory: " +:+ nth 2 argv ""])).
Proof.
  intros Hlen. unfold main.
  destruct (length argv <? 3)%nat eqn:Hlt; [apply Nat.ltb_lt in Hlt; lia|].
  unfold makedirs_exist_ok. rewrite bind_ret, !bind_print.
  by rewrite <- app_assoc.
Qed.

(** C4, as the code has it: a failure raised while a resolution group is
    exported is not caught.  It ends the run at that point: the result of
    the run is the exception, the world is left as it was when the
    exception was raised, so the files of earlier groups stay and no
    later group is processed.  This holds for the three groups of the
    land-cover [main] and for the script around it, for the group loops
    of [export_with_arcpy] and of [export_with_fiona], and for the [main]
    of the statistics exporter, which lets an exception of either
    exporter pass: after an exception of [export_with_arcpy] it neither
    tries the fallback nor writes the manifest. *)
Theorem group_failure_halts_run :
  (forall (USE_ARCPY : bool) argv gdb w e,
     (3 <= length argv)%nat ->
     let output_dir := nth 2 argv "" in
     let w0 := World (fs w) (stdout w ++ ["Geodatabase: " +:+ nth 1 argv "";
                                          "Output directory: " +:+ output_dir]) in
     let group := export_resolution USE_ARCPY gdb output_dir in
     (forall w1,
        group 3%Z "ZStatsAsTable_h3_res3_part*" w0 = (inl e, w1) ->
        main USE_ARCPY argv gdb w = (inl e, w1)) /\
     (forall o3 w1 w2,
        group 3%Z "ZStatsAsTable_h3_res3_part*" w0 = (inr o3, w1) ->
        group 5%Z "ZStatsTable_h3_res5_part*" w1 = (inl e, w2) ->
        main USE_ARCPY argv gdb w = (inl e, w2)) /\
     (forall o3 o5 w1 w2 w3,
        group 3%Z "ZStatsAsTable_h3_res3_part*" w0 = (inr o3, w1) ->
        group 5%Z "ZStatsTable_h3_res5_part*" w1 = (inr o5, w2) ->
        group 7%Z "*h3_res7_chunk*" w2 = (inl e, w3) ->
        main USE_ARCPY argv gdb w = (inl e, w3)))
  /\ (forall OUTPUT_DIR imp gdb w zstats_tables before g after w1 w2 e,
        export_geodatabase.arcpy imp = true ->
        ListTables gdb <> [] ->
        export_geodatabase.filter_zstats (ListTables gdb) = inr zstats_tables ->
        sorted_by fst (export_geodatabase.group_by_resolution zstats_tables)
          = before ++ g :: after ->
        let w0 := World (fs w)
                    (stdout w ++ ["Found " +:+ export_geodatabase.len zstats_tables
                                  +:+ " zonal statistics tables"]) in
        let group := fun g => export_geodatabase.export_group_arcpy
                                OUTPUT_DIR gdb (fst g) (snd g) in
        for_each before group w0 = (inr tt, w1) ->
        group g w1 = (inl e, w2) ->
        export_geodatabase.export_with_arcpy OUTPUT_DIR imp gdb w = (inl e, w2))
  /\ (forall OUTPUT_DIR imp gdb w zstats_layers before g after w1 w2 e,
        export_geodatabase.fiona imp && export_geodatabase.pandas imp = true ->
        export_geodatabase.filter_zstats (listlayers gdb) = inr zstats_layers ->
        sorted_by fst (export_geodatabase.group_by_resolution zstats_layers)
          = before ++ g :: after ->
        let w0 := World (fs w)
                    (stdout w ++
                     ["Note: fiona has limited support for .gdb files. arcpy is recommended.";
                      "Found " +:+ export_geodatabase.len (listlayers gdb) +:+ " layers";
                      "Found " +:+ export_geodatabase.len zstats_layers
                      +:+ " zonal statistics tables"]) in
        let group := fun g => export_geodatabase.export_group_fiona
                                OUTPUT_DIR gdb (fst g) (snd g) in
        for_each before group w0 = (inr tt, w1) ->
        group g w1 = (inl e, w2) ->
        export_geodatabase.export_with_fiona OUTPUT_DIR imp gdb w = (inl e, w2))
  /\ (forall OUTPUT_DIR now imp gdb w e,
        let w0 := World (fs w)
                    (stdout w ++
                     [export_geodatabase.rule; "Biome Zonal Statistics Export";
                      export_geodatabase.rule;
                      "Source: " +:+ export_geodatabase.GDB_PATH;
                      "Output: " +:+ OUTPUT_DIR; ""]) in
        let main := export_geodatabase.main OUTPUT_DIR now imp gdb in
        (forall w1,
           export_geodatabase.setup_output_dirs OUTPUT_DIR w0 = (inl e, w1) ->
           main w = (inl e, w1)) /\
        (forall w1 w2,
           export_geodatabase.setup_output_dirs OUTPUT_DIR w0 = (inr tt, w1) ->
           export_geodatabase.export_with_arcpy OUTPUT_DIR imp gdb w1 = (inl e, w2) ->
           main w = (inl e, w2)) /\
        (forall w1 w2 w3,
           export_geodatabase.setup_output_dirs OUTPUT_DIR w0 = (inr tt, w1) ->
           export_geodatabase.export_with_arcpy OUTPUT_DIR imp gdb w1 = (inr false, w2) ->
           export_geodatabase.export_with_fiona OUTPUT_DIR imp gdb
             (World (fs w2) (stdout w2 ++ [str1 LF +:+ "Trying fiona as fallback..."]))
           = (inl e, w3) ->
           main w = (inl e, w3)))
  /\ (forall imp argv gdb w (USE_ARCPY : bool) w0 e w1,
        import_backend imp w = (inr USE_ARCPY, w0) ->
        main USE_ARCPY argv gdb w0 = (inl e, w1) ->
        script imp argv gdb w = (inl e, w1)).
Proof.
  split; [|split; [|split; [|split]]].
  - intros USE_ARCPY argv gdb [f out] e Hlen output_dir w0 group.
    rewrite (main_groups _ _ _ _ _ Hlen). fold output_dir. cbn [fs stdout] in w0.
    fold w0. fold group. repeat split.
    + intros w1 H3. by rewrite (bind_run_inl _ _ _ _ _ H3).
    + intros o3 w1 w2 H3 H5.
      by rewrite (bind_run_inr _ _ _ _ _ H3), (bind_run_inl _ _ _ _ _ H5).
    + intros o3 o5 w1 w2 w3 H3 H5 H7.
      by rewrite (bind_run_inr _ _ _ _ _ H3), (bind_run_inr _ _ _ _ _ H5),
                 (bind_run_inl _ _ _ _ _ H7).
  - intros OUTPUT_DIR imp gdb [f out] zs before g after w1 w2 e
           Ha Htables Hz Hsorted w0 group Hbefore Hg.
    unfold export_geodatabase.export_with_arcpy. rewrite Ha. cbn [negb].
    destruct (ListTables gdb) as [|t0 tables] eqn:Hlist; [done|].
    rewrite Hz, bind_lift, bind_print.
    rewrite Hsorted. cbn [fs stdout] in w0. fold w0.
    by rewrite (bind_run_inl _ _ _ _ _ (for_each_app_raise _ _ _ _ _ _ _ _ Hbefore Hg)).
  - intros OUTPUT_DIR imp gdb [f out] zs before g after w1 w2 e
           Hf Hz Hsorted w0 group Hbefore Hg.
    unfold export_geodatabase.export_with_fiona. rewrite Hf. cbn [negb].
    rewrite !bind_print, Hz, bind_lift, bind_print.
    rewrite Hsorted. cbn [fs stdout] in w0.
    replace (((out ++ ["Note: fiona has limited support for .gdb files. arcpy is recommended."])
              ++ ["Found " +:+ export_geodatabase.len (listlayers gdb) +:+ " layers"])
             ++ ["Found " +:+ export_geodatabase.len zs +:+ " zonal statistics tables"])
      with (stdout w0) by (unfold w0; cbn [stdout]; by rewrite <- !app_assoc).
    change (World f (stdout w0)) with w0.
    by rewrite (bind_run_inl _ _ _ _ _ (for_each_app_raise _ _ _ _ _ _ _ _ Hbefore Hg)).
  - intros OUTPUT_DIR now imp gdb [f out] e w0 main.
    assert (forall k : unit -> M unit,
              (print export_geodatabase.rule ;;;
               print "Biome Zonal Statistics Export" ;;;
               print export_geodatabase.rule ;;;
               print ("Source: " +:+ export_geodatabase.GDB_PATH) ;;;
               print ("Output: " +:+ OUTPUT_DIR) ;;;
               print "" ;;; k tt) (World f out) = k tt w0) as Hbanner.
    { intros k. rewrite !bind_print. unfold w0. cbn [fs stdout].
      by rewrite <- !app_assoc. }
    unfold main, export_geodatabase.main. repeat split.
    + intros w1 Hsetup.
      rewrite (Hbanner (fun _ => bind _ _)). by rewrite (bind_run_inl _ _ _ _ _ Hsetup).
    + intros w1 w2 Hsetup Harcpy.
      rewrite (Hbanner (fun _ => bind _ _)).
      by rewrite (bind_run_inr _ _ _ _ _ Hsetup), (bind_run_inl _ _ _ _ _ Harcpy).
    + intros w1 [f2 out2] w3 Hsetup Harcpy Hfiona.
      rewrite (Hbanner (fun _ => bind _ _)).
      rewrite (bind_run_inr _ _ _ _ _ Hsetup), (bind_run_inr _ _ _ _ _ Harcpy).
      cbn [negb fs stdout] in Hfiona |- *. rewrite bind_assoc, bind_print.
      by rewrite (bind_run_inl _ _ _ _ _ Hfiona).
  - intros imp argv gdb w USE_ARCPY w0 e w1 Himport Hmain. unfold script.
    by rewrite (bind_run_inr _ _ _ _ _ Himport).
Qed.

Lemma group_failure_halts_run_witness :
  let argv := ["export_landcover.py"; "Biome.gdb"; "out"] in
  let w0 := World ∅ ["Geodatabase: Biome.gdb"; "Output directory: out"] in
  let failed := export_resolution true Examples.gdb_bad_res3 "out" 3
                  "ZStatsAsTable_h3_res3_part*" w0 in
  failed = (inl RuntimeError, snd failed) /\
  main true argv Examples.gdb_bad_res3 Examples.empty_world
    = (inl RuntimeError, snd failed).
Proof.
  intros argv w0 failed.
  assert (failed = (inl RuntimeError, snd failed)) as Hfailed
    by (vm_compute; reflexivity).
  split; [exact Hfailed|].
  apply (proj1 group_failure_halts_run true argv Examples.gdb_bad_res3
           Examples.empty_world RuntimeError); [vm_compute; lia|exact Hfailed].
Defined.

(** C4 as stated fails.  Land cover: the cursor on the resolution-3
    table raises, the run ends with exit status 1, and the files of
    resolution 5 are not written although that group, run on its own,
    completes.  Statistics: the write for resolution 4 raises because no
    directory exists for it, and the CSV file of resolution 5 is not
    written. *)
Lemma later_groups_not_processed_counterexample :
  (let run := script (Imports true false false)
                     ["export_landcover.py"; "Biome.gdb"; "out"]
                     Examples.gdb_bad_res3 Examples.empty_world in
   let alone := export_resolution true Examples.gdb_bad_res3 "out" 5
                  "ZStatsTable_h3_res5_part*" Examples.empty_world in
   is_Some (fs (snd alone) !! jsonl_name 5) /\
   is_Some (fs (snd alone) !! summary_name 5) /\
   fst run = inl RuntimeError /\ exit_status (fst run) = 1%Z /\
   fs (snd run) !! jsonl_name 5 = None /\ fs (snd run) !! summary_name 5 = None)
  /\
  (let run := export_geodatabase.main "data/exports" "2025-01-01T00:00:00"
                (export_geodatabase.Imports true false false)
                Examples.gdb_res4_res5 Examples.empty_world in
   fst run = inl FileNotFoundError /\ exit_status (fst run) = 1%Z /\
   fs (snd run) !! "res5" = Some (Dir ∅)).
Proof.
  split.
  - cbv zeta. split; [eexists; vm_compute; reflexivity|].
    split; [eexists; vm_compute; reflexivity|].
    repeat split; vm_compute; reflexivity.
  - cbv zeta. repeat split; vm_compute; reflexivity.
Qed.

(** ** [sorted]: ascending, a permutation, stable *)

Section sorted_facts.
Context {A : Type} (key : A -> Z).

Lemma insert_by_perm x l : Permutation (insert_by key x l) (x :: l).
Proof.
  induction l as [|y l IH]; cbn [insert_by]; [done|].
  destruct (key x <=? key y)%Z; [done|].
  rewrite IH. apply perm_swap.
Qed.

Lemma sorted_by_perm l : Permutation (sorted_by key l) l.
Proof.
  induction l as [|x l IH]; cbn [sorted_by]; [done|].
  rewrite insert_by_perm. by constructor.
Qed.




End sorted_facts.

(** ** Writes and what they leave unchanged *)

Lemma print_inv line w w' :
  print line w = (inr tt, w') -> w' = World (fs w) (stdout w ++ [line]).
Proof. by intros [= <-]. Qed.

Lemma write_file_inv name text w w' :
  write_file name text w = (inr tt, w') ->
  w' = World (<[name := File text]> (fs w)) (stdout w).
Proof.
  unfold write_file, bind, get_fs, put_fs, raise.
  destruct (fs w !! name) as [[t|ch]|]; intros [= <-]; done.
Qed.

Lemma write_file_in_inv dir name text w w' :
  write_file_in dir name text w = (inr tt, w') ->
  exists ch, fs w !! dir = Some (Dir ch) /\
    w' = World (<[dir := Dir (<[name := text]> ch)]> (fs w)) (stdout w).
Proof.
  unfold write_file_in, bind, get_fs, put_fs, raise.
  destruct (fs w !! dir) as [[t|ch]|]; intros [= <-]; eauto.
Qed.

Lemma string_app_suffix_ne (p a b : string) : a <> b -> p +:+ a <> p +:+ b.
Proof. intros Hne Heq. by apply String.app_inj in Heq. Qed.

Lemma jsonl_summary_ne resolution : jsonl_name resolution <> summary_name resolution.
Proof.
  unfold jsonl_name, summary_name.
  apply string_app_suffix_ne, string_app_suffix_ne. discriminate.
Qed.

Lemma csv_json_ne resolution :
  export_geodatabase.csv_name resolution <> export_geodatabase.json_name resolution.
Proof.
  unfold export_geodatabase.csv_name, export_geodatabase.json_name.
  apply string_app_suffix_ne, string_app_suffix_ne. discriminate.
Qed.

(** ** The order in which tables are processed *)

Lemma export_table_fs (USE_ARCPY : bool) gdb table_name w r w' :
  (if USE_ARCPY then lift (export_table_arcpy gdb table_name None)
   else export_table_geopandas gdb table_name None) w = (r, w') ->
  fs w' = fs w.
Proof.
  destruct USE_ARCPY.
  - by intros [= _ <-].
  - unfold export_table_geopandas, bind, print, ret, lift.
    destruct (negb _); [by intros [= _ <-]|].
    destruct (read_layer gdb table_name) as [e|t]; by intros [= _ <-].
Qed.

Lemma process_table_spec (USE_ARCPY : bool) gdb tables i all_records table_name w st w' :
  process_table USE_ARCPY gdb tables (i, all_records) table_name w = (inr st, w') ->
  fs w' = fs w /\
  exists records w1 w2,
    (if USE_ARCPY then lift (export_table_arcpy gdb table_name None)
     else export_table_geopandas gdb table_name None) w1 = (inr records, w2) /\
    st = (S i, all_records ++ records).
Proof.
  unfold process_table. intros Hrun.
  apply bind_inr in Hrun as ([] & w1 & Hp1 & Hrun). apply print_inv in Hp1.
  apply bind_inr in Hrun as (records & w2 & Hexp & Hrun).
  apply bind_inr in Hrun as ([] & w3 & Hp2 & Hrun). apply print_inv in Hp2.
  injection Hrun as <- <-. split.
  - subst w3. cbn [fs]. rewrite (export_table_fs _ _ _ _ _ _ Hexp). by subst w1.
  - by exists records, w1, w2.
Qed.

Lemma table_fold_spec (USE_ARCPY : bool) gdb tables l : forall i all_records w st w',
  for_fold l (process_table USE_ARCPY gdb tables) (i, all_records) w = (inr st, w') ->
  fs w' = fs w /\
  exists per_table,
    snd st = all_records ++ concat per_table /\
    Forall2 (fun table_name records =>
               exists w1 w2,
                 (if USE_ARCPY then lift (export_table_arcpy gdb table_name None)
                  else export_table_geopandas gdb table_name None) w1 = (inr records, w2))
            l per_table.
Proof.
  induction l as [|table_name l IH]; intros i all_records w st w' Hrun;
    cbn [for_fold] in Hrun.
  - injection Hrun as <- <-. split; [done|]. exists []. split; [|constructor].
    by rewrite app_nil_r.
  - apply bind_inr in Hrun as (st1 & w1 & Hstep & Hrun).
    apply process_table_spec in Hstep as (Hfs1 & records & wa & wb & Hexp & ->).
    apply IH in Hrun as (Hfs & per_table & Hst & Hall).
    split; [congruence|]. exists (records :: per_table). split.
    + rewrite Hst. cbn [concat]. by rewrite app_assoc.
    + constructor; [by exists wa, wb|done].
Qed.

(** The statistics exporter under arcpy: the records read for a list of
    tables are the rows of these tables, table after table. *)
Lemma read_tables_arcpy_spec gdb l : forall all_records w recs w',
  for_fold l (fun all_records tp =>
                export_geodatabase.read_table_arcpy gdb all_records (fst tp) (snd tp))
           all_records w = (inr recs, w') ->
  fs w' = fs w /\
  exists per_table,
    recs = all_records ++ concat per_table /\
    Forall2 (fun tp records =>
               exists t, find_layer gdb (fst tp) = Some t /\
                 length records = length (tbl_rows t) /\
                 Forall (fun r => export_geodatabase.source_part r
                                  = "part" +:+ str_of_int (snd tp)) records)
            l per_table.
Proof.
  induction l as [|[table_name part] l IH]; intros all_records w recs w' Hrun;
    cbn [for_fold] in Hrun.
  - injection Hrun as <- <-. split; [done|]. exists []. split; [|constructor].
    by rewrite app_nil_r.
  - apply bind_inr in Hrun as (recs1 & w1 & Hstep & Hrun). cbn [fst snd] in Hstep.
    assert (fs w1 = fs w) as Hfs1.
    { unfold export_geodatabase.read_table_arcpy, bind, lift, print, ret in Hstep.
      destruct (ListFields gdb table_name); [discriminate|].
      destruct (SearchCursor gdb table_name _); [discriminate|].
      by injection Hstep as _ <-. }
    apply read_table_arcpy_spec in Hstep as (t & Ht & ->).
    apply IH in Hrun as (Hfs & per_table & -> & Hall).
    split; [congruence|]. eexists (_ :: per_table). split.
    + cbn [concat]. by rewrite app_assoc.
    + constructor; [|done]. exists t. split; [done|]. split.
      * by rewrite length_map.
      * apply Forall_forall. intros r Hr.
        apply list_elem_of_In, in_map_iff in Hr as (row & <- & _). done.
Qed.

Lemma read_layers_fiona_spec gdb l : forall all_dfs w dfs w',
  for_fold l (fun all_dfs lp =>
                export_geodatabase.read_layer_fiona gdb all_dfs (fst lp) (snd lp))
           all_dfs w = (inr dfs, w') ->
  fs w' = fs w /\
  exists frames,
    dfs = all_dfs ++ frames /\
    Forall2 (fun lp df =>
               exists t, find_layer gdb (fst lp) = Some t /\
                 df = Pandas.set_column
                        (Pandas.of_records
                           (map (export_geodatabase.properties t) (tbl_rows t)))
                        "source_part" (PyStr ("part" +:+ str_of_int (snd lp))))
            l frames.
Proof.
  induction l as [|[layer_name part] l IH]; intros all_dfs w dfs w' Hrun;
    cbn [for_fold] in Hrun.
  - injection Hrun as <- <-. split; [done|]. exists []. split; [|constructor].
    by rewrite app_nil_r.
  - apply bind_inr in Hrun as (dfs1 & w1 & Hstep & Hrun). cbn [fst snd] in Hstep.
    unfold export_geodatabase.read_layer_fiona in Hstep.
    apply bind_inr in Hstep as (src & w0 & Hsrc & Hstep).
    apply lift_inr in Hsrc as [Hsrc ->].
    apply bind_inr in Hstep as ([] & w2 & Hp & Hstep). apply print_inv in Hp.
    injection Hstep as <- <-.
    unfold read_layer in Hsrc.
    destruct (find_layer gdb layer_name) as [t|] eqn:Ht; [|discriminate].
    injection Hsrc as <-.
    apply IH in Hrun as (Hfs & frames & -> & Hall).
    split; [rewrite Hfs; by subst w2|].
    eexists (_ :: frames). split; [by rewrite <- app_assoc|].
    constructor; [|done]. exists t. by split.
Qed.

(** A completed group export of the statistics exporter under arcpy:
    the records were read from the tables in sorted order, and the CSV
    file of the resolution holds them. *)
Lemma export_group_arcpy_inv OUTPUT_DIR gdb resolution tables_list w w' :
  export_geodatabase.export_group_arcpy OUTPUT_DIR gdb resolution tables_list w
    = (inr tt, w') ->
  exists all_records w1 w2 ch,
    for_fold (sorted_by snd tables_list)
      (fun all_records tp =>
         export_geodatabase.read_table_arcpy gdb all_records (fst tp) (snd tp))
      [] w1 = (inr all_records, w2) /\
    fs w1 = fs w /\
    fs w' !! export_geodatabase.res_dir_name resolution = Some (Dir ch) /\
    ch !! export_geodatabase.csv_name resolution
      = Some (export_geodatabase.csv_text all_records).
Proof.
  intros Hrun. unfold export_geodatabase.export_group_arcpy in Hrun.
  apply bind_inr in Hrun as ([] & w1 & Hp1 & Hrun). apply print_inv in Hp1.
  apply bind_inr in Hrun as (all_records & w2 & Hread & Hrun).
  apply bind_inr in Hrun as ([] & w3 & Hcsv & Hrun).
  apply write_file_in_inv in Hcsv as (ch & Hdir & ->).
  apply bind_inr in Hrun as ([] & w4 & Hp2 & Hrun). apply print_inv in Hp2.
  apply bind_inr in Hrun as ([] & w5 & Hjson & Hrun).
  apply write_file_in_inv in Hjson as (ch' & Hdir' & ->).
  apply print_inv in Hrun. subst w' w4. cbn [fs] in *.
  rewrite lookup_insert_eq in Hdir'. injection Hdir' as <-.
  exists all_records, w1, w2. eexists. split; [exact Hread|].
  split; [by subst w1|]. split; [apply lookup_insert_eq|].
  rewrite lookup_insert_ne by (intros Heq; by apply (csv_json_ne resolution)).
  apply lookup_insert_eq.
Qed.

(** A completed export of a land-cover resolution group that found
    tables: both files are written, and the records are those of the
    tables in the order of [find_tables]. *)
Lemma export_resolution_inv (USE_ARCPY : bool) gdb output_dir resolution pattern
    w recs w' :
  export_resolution USE_ARCPY gdb output_dir resolution pattern w
    = (inr (Some recs), w') ->
  fs w' !! jsonl_name resolution = Some (File (jsonl_text recs)) /\
  fs w' !! summary_name resolution
    = Some (File (dumps_indent 2 (summary_json resolution recs))) /\
  exists per_table,
    recs = concat per_table /\
    Forall2 (fun table_name records =>
               exists w1 w2,
                 (if USE_ARCPY then lift (export_table_arcpy gdb table_name None)
                  else export_table_geopandas gdb table_name None) w1
                 = (inr records, w2))
            (find_tables USE_ARCPY gdb pattern) per_table.
Proof.
  intros Hrun. unfold export_resolution in Hrun.
  apply bind_inr in Hrun as ([] & w1 & Hp1 & Hrun).
  apply bind_inr in Hrun as ([] & w2 & Hp2 & Hrun).
  destruct (find_tables USE_ARCPY gdb pattern) as [|t0 tables] eqn:Htables.
  { apply bind_inr in Hrun as ([] & w3 & _ & Hrun). discriminate. }
  apply bind_inr in Hrun as (all_records & w3 & Hloop & Hrun).
  unfold table_loop in Hloop.
  apply bind_inr in Hloop as (st & w3' & Hfold & Hloop). injection Hloop as <- <-.
  apply table_fold_spec in Hfold as (_ & per_table & Hst & Hall). cbn [app] in Hst.
  apply bind_inr in Hrun as ([] & w4 & Hjsonl & Hrun).
  apply write_file_inv in Hjsonl as ->.
  apply bind_inr in Hrun as ([] & w5 & Hp3 & Hrun). apply print_inv in Hp3 as ->.
  apply bind_inr in Hrun as ([] & w6 & Hsum & Hrun).
  apply write_file_inv in Hsum as ->. injection Hrun as <- <-. cbn [fs].
  split; [|split].
  - rewrite lookup_insert_ne by (intros Heq; by apply (jsonl_summary_ne resolution)).
    apply lookup_insert_eq.
  - apply lookup_insert_eq.
  - by exists per_table.
Qed.

(** ** Data frames *)

Lemma positions_names c : forall cols pre,
  map (fun i => nth i (pre ++ cols) "") (Pandas.positions c (length pre) cols)
  = List.filter (String.eqb c) cols.
Proof.
  induction cols as [|d cols IH]; intros pre; cbn [Pandas.positions List.filter map];
    [done|].
  assert (map (fun i => nth i (pre ++ d :: cols) "")
              (Pandas.positions c (S (length pre)) cols)
          = List.filter (String.eqb c) cols) as Hrest.
  { specialize (IH (pre ++ [d])). rewrite <- app_assoc in IH. cbn [app] in IH.
    rewrite length_app in IH. cbn [length] in IH.
    by replace (length pre + 1)%nat with (S (length pre)) in IH by lia. }
  destruct (String.eqb c d) eqn:Hcd; cbn [map]; [|done].
  rewrite Hrest. f_equal. rewrite nth_middle. by apply String.eqb_eq in Hcd.
Qed.

Lemma select_columns df sel :
  Pandas.columns (Pandas.select df sel)
  = flat_map (fun c => List.filter (String.eqb c) (Pandas.columns df)) sel.
Proof.
  unfold Pandas.select. cbn [Pandas.columns].
  induction sel as [|c sel IH]; [done|].
  cbn [flat_map]. rewrite map_app, IH. f_equal.
  apply (positions_names c (Pandas.columns df) []).
Qed.

Lemma filter_eqb_In c cols x : In x (List.filter (String.eqb c) cols) <-> x = c /\ In c cols.
Proof.
  rewrite filter_In. split.
  - intros [Hx Heq]. apply String.eqb_eq in Heq as ->. by split.
  - intros [-> Hc]. split; [done|apply String.eqb_refl].
Qed.

Lemma index_Some_lt x l : forall i,
  index x l = Some i -> (i < length l)%nat /\ nth i l "" = x.
Proof.
  induction l as [|y l IH]; intros i; cbn [index]; [discriminate|].
  destruct (String.eqb x y) eqn:Hxy.
  - intros [= <-]. apply String.eqb_eq in Hxy as ->. cbn. split; [lia|done].
  - destruct (index x l) as [j|]; cbn; [|discriminate].
    intros [= <-]. destruct (IH j eq_refl) as [Hlt Hnth]. cbn. split; [lia|done].
Qed.

Lemma index_In x l : In x l -> exists i, index x l = Some i.
Proof.
  intros Hin. destruct (index x l) as [i|] eqn:Hi; [by eexists|].
  apply mem_In in Hin. unfold mem in Hin. exfalso. revert Hi Hin.
  induction l as [|y l IH]; cbn [index existsb]; [discriminate|].
  destruct (String.eqb x y); [discriminate|].
  destruct (index x l); [discriminate|]. intros _. by apply IH.
Qed.

Lemma index_None_not_In x l : index x l = None -> ~ In x l.
Proof. intros Hnone Hin. destruct (index_In _ _ Hin) as [i Hi]. congruence. Qed.

Lemma index_app_new x l : ~ In x l -> index x (l ++ [x]) = Some (length l).
Proof.
  induction l as [|y l IH]; intros Hx; cbn [app index length].
  - by rewrite String.eqb_refl.
  - destruct (String.eqb x y) eqn:Hxy.
    + apply String.eqb_eq in Hxy as ->. destruct Hx. by left.
    + rewrite IH; [done|]. intros Hin. apply Hx. by right.
Qed.

Lemma union_columns_fold l : forall acc,
  NoDup acc ->
  let r := fold_left (fun acc c => if mem c acc then acc else acc ++ [c]) l acc in
  NoDup r /\ forall x, In x r <-> In x acc \/ In x l.
Proof.
  induction l as [|c l IH]; intros acc Hacc; cbn [fold_left].
  - split; [done|]. intros x. cbn [In]. tauto.
  - destruct (mem c acc) eqn:Hmem.
    + destruct (IH acc Hacc) as [Hnd Hin]. split; [done|].
      intros x. rewrite Hin. cbn [In]. apply mem_In in Hmem.
      split; [tauto|]. intros [?|[<-|?]]; tauto.
    + assert (~ In c acc) as Hc by (rewrite <- mem_In; congruence).
      destruct (IH (acc ++ [c])) as [Hnd Hin].
      { apply NoDup_app. split; [done|]. split; [|apply NoDup_singleton].
        intros x Hx [->|[]]%list_elem_of_In. by apply Hc, list_elem_of_In. }
      split; [done|]. intros x. rewrite Hin, in_app_iff. cbn [In]. tauto.
Qed.

Lemma union_columns_spec ls :
  NoDup (Pandas.union_columns ls) /\
  forall x, In x (Pandas.union_columns ls) <-> exists l, In l ls /\ In x l.
Proof.
  unfold Pandas.union_columns.
  assert (forall acc, NoDup acc ->
            let r := fold_left
                       (fun acc l =>
                          fold_left (fun acc c => if mem c acc then acc else acc ++ [c])
                                    l acc) ls acc in
            NoDup r /\ forall x, In x r <-> In x acc \/ exists l, In l ls /\ In x l)
    as Hgen.
  { induction ls as [|l ls IH]; intros acc Hacc; cbn [fold_left].
    - split; [done|]. intros x. split; [by left|]. by intros [?|(? & [] & _)].
    - destruct (union_columns_fold l acc Hacc) as [Hnd Hin].
      destruct (IH _ Hnd) as [Hnd' Hin']. split; [done|].
      intros x. rewrite Hin', Hin. split.
      + intros [[?|?]|(l' & Hl' & Hx)]; [by left|right..].
        * exists l. split; [by left|done].
        * exists l'. split; [by right|done].
      + intros [?|(l' & [<-|Hl'] & Hx)]; [tauto|tauto|].
        right. by exists l'. }
  destruct (Hgen [] NoDup_nil_2) as [Hnd Hin]. split; [done|].
  intros x. rewrite Hin. split; [by intros [[]|?]|by right].
Qed.

Lemma dict_set_keys_iff {V} (d : Dict.dict string V) k v k0 :
  In k0 (map fst (Dict.set d k v)) <-> k0 = k \/ In k0 (map fst d).
Proof.
  induction d as [|[k' v'] d IH]; cbn [Dict.set map fst In].
  - split; [intros [->|[]]; by left|intros [->|[]]; by left].
  - destruct (decide (k = k')) as [->|Hne]; cbn [map fst In].
    + split; [intros [->|?]; tauto|intros [->|[->|?]]; tauto].
    + rewrite IH. split; [intros [->|[->|?]]; tauto|intros [->|[->|?]]; tauto].
Qed.

Lemma properties_keys t row d :
  In d (map fst (export_geodatabase.properties t row)) <-> In d (row_fields t row).
Proof.
  unfold export_geodatabase.properties, row_fields.
  assert (forall l (d0 : Dict.dict string pyval),
            In d (map fst (fold_left (fun d kv => Dict.set d (fst kv) (snd kv)) l d0))
            <-> In d (map fst d0) \/ In d (map fst l)) as Hgen.
  { induction l as [|[k v] l IH]; intros d0; cbn [fold_left map fst In].
    - tauto.
    - rewrite IH, dict_set_keys_iff. split; [intros [[->|?]|?]; tauto|].
      intros [?|[->|?]]; tauto. }
  rewrite Hgen. cbn [map In]. tauto.
Qed.

Lemma of_records_spec records :
  let df := Pandas.of_records records in
  NoDup (Pandas.columns df) /\
  (forall x, In x (Pandas.columns df) <-> exists r, In r records /\ In x (map fst r)) /\
  length (Pandas.data df) = length records /\
  Forall (fun row => length row = length (Pandas.columns df)) (Pandas.data df).
Proof.
  unfold Pandas.of_records. cbn [Pandas.columns Pandas.data].
  destruct (union_columns_spec (map (map fst) records)) as [Hnd Hin].
  split; [done|]. split; [|split].
  - intros x. rewrite Hin. split.
    + intros (l & (r & <- & Hr)%in_map_iff & Hx). by exists r.
    + intros (r & Hr & Hx). exists (map fst r). split; [by apply in_map|done].
  - by rewrite length_map.
  - apply Forall_forall. intros row (r & <- & _)%list_elem_of_In%in_map_iff.
    by rewrite length_map.
Qed.

Lemma set_column_spec df c v :
  NoDup (Pandas.columns df) ->
  Forall (fun row => length row = length (Pandas.columns df)) (Pandas.data df) ->
  let df' := Pandas.set_column df c v in
  NoDup (Pandas.columns df') /\
  (forall x, In x (Pandas.columns df') <-> x = c \/ In x (Pandas.columns df)) /\
  length (Pandas.data df') = length (Pandas.data df) /\
  Forall (fun row => cell (Pandas.columns df') row c = v) (Pandas.data df').
Proof.
  intros Hnd Hlen. unfold Pandas.set_column.
  destruct (index c (Pandas.columns df)) as [i|] eqn:Hi;
    cbn [Pandas.columns Pandas.data].
  - destruct (index_Some_lt _ _ _ Hi) as [Hlt Hnth].
    split; [done|]. split; [|split].
    + intros x. split; [by right|]. intros [->|?]; [|done].
      rewrite <- Hnth. apply nth_In. lia.
    + by rewrite length_map.
    + apply Forall_forall. intros row' (row & <- & Hrow)%list_elem_of_In%in_map_iff.
      rewrite Forall_forall in Hlen. apply list_elem_of_In, Hlen in Hrow.
      unfold cell. rewrite Hi. apply nth_lookup_Some, list_lookup_insert_eq. lia.
  - apply index_None_not_In in Hi. split; [|split; [|split]].
    + apply NoDup_app. split; [done|]. split; [|apply NoDup_singleton].
      intros x Hx [->|[]]%list_elem_of_In. by apply Hi, list_elem_of_In.
    + intros x. rewrite in_app_iff. cbn [In]. split; [intros [?|[->|[]]]|intros [->|?]]; tauto.
    + by rewrite length_map.
    + apply Forall_forall. intros row' (row & <- & Hrow)%list_elem_of_In%in_map_iff.
      rewrite Forall_forall in Hlen. apply list_elem_of_In, Hlen in Hrow.
      unfold cell. rewrite (index_app_new _ _ Hi), <- Hrow. apply nth_middle.
Qed.

(** The frame of a layer: its columns are the fields that some row has
    a cell for and [source_part]; it has one row for every row of the
    layer, and each holds the part in [source_part]. *)
Lemma layer_frame_spec t part :
  let df := layer_frame t part in
  NoDup (Pandas.columns df) /\
  (forall d, In d (Pandas.columns df)
             <-> d = "source_part"
                 \/ exists row, In row (tbl_rows t) /\ In d (row_fields t row)) /\
  length (Pandas.data df) = length (tbl_rows t) /\
  Forall (fun row => cell (Pandas.columns df) row "source_part"
                     = PyStr ("part" +:+ str_of_int part)) (Pandas.data df).
Proof.
  unfold layer_frame.
  destruct (of_records_spec (map (export_geodatabase.properties t) (tbl_rows t)))
    as (Hnd & Hin & Hlen & Hrows).
  destruct (set_column_spec _ "source_part" (PyStr ("part" +:+ str_of_int part))
              Hnd Hrows) as (Hnd' & Hin' & Hlen' & Hcell).
  split; [done|]. split; [|split; [|done]].
  - intros d. rewrite Hin', Hin. split.
    + intros [->|(r & (row & <- & Hrow)%in_map_iff & Hd)]; [by left|right].
      exists row. split; [done|]. by apply properties_keys.
    + intros [->|(row & Hrow & Hd)]; [by left|right].
      exists (export_geodatabase.properties t row).
      split; [by apply in_map|]. by apply properties_keys.
  - by rewrite Hlen', Hlen, length_map.
Qed.







Lemma filter_eqb_single c l :
  In c l -> NoDup (List.filter (String.eqb c) l) -> List.filter (String.eqb c) l = [c].
Proof.
  intros Hc Hnd.
  assert (forall x, In x (List.filter (String.eqb c) l) -> x = c) as Hall.
  { intros x Hx. by apply filter_eqb_In in Hx as [-> _]. }
  assert (In c (List.filter (String.eqb c) l)) as Hin by (by apply filter_eqb_In).
  destruct (List.filter (String.eqb c) l) as [|a [|b k]]; [destruct Hin|..].
  - by rewrite (Hall a (or_introl eq_refl)).
  - apply NoDup_cons in Hnd as [Hnot _]. destruct Hnot. apply list_elem_of_In.
    rewrite (Hall a (or_introl eq_refl)), (Hall b (or_intror (or_introl eq_refl))).
    by left.
Qed.

(** When the written frame has no column name twice, its columns are
    the declared columns that the renamed frame has, in declared
    order. *)
Lemma combined_frame_header all_dfs combined :
  export_geodatabase.combined_frame all_dfs = inr combined ->
  NoDup (Pandas.columns combined) ->
  Pandas.columns combined
  = filter (fun c => mem c (map renamed
                              (Pandas.union_columns (map Pandas.columns all_dfs))) = true)
           export_geodatabase.fieldnames.
Proof.
  intros Hrun. unfold export_geodatabase.combined_frame in Hrun.
  apply rbind_inr in Hrun as (df & Hconcat & Hrun). injection Hrun as <-.
  assert (Pandas.columns df = Pandas.union_columns (map Pandas.columns all_dfs)) as Hcols.
  { unfold Pandas.concat in Hconcat.
    destruct all_dfs; [discriminate|]. by injection Hconcat as <-. }
  rewrite select_columns. unfold Pandas.rename. cbn [Pandas.columns].
  rewrite Hcols.
  change (map (fun c => Dict.get_default export_geodatabase.rename_map c c)
            (Pandas.union_columns (map Pandas.columns all_dfs)))
    with (map renamed (Pandas.union_columns (map Pandas.columns all_dfs))).
  generalize (map renamed (Pandas.union_columns (map Pandas.columns all_dfs))).
  intros present.
  induction export_geodatabase.fieldnames as [|c l IH]; [done|].
  rewrite filter_cons. destruct (decide (mem c present = true)) as [Hc|Hc]; [|exact IH].
  cbn [flat_map]. intros Hnd. apply NoDup_app in Hnd as (Hnd1 & _ & Hnd2).
  rewrite (IH Hnd2). by rewrite (filter_eqb_single c present) by (by try apply mem_In).
Qed.

Lemma Forall2_In_l {A B} (R : A -> B -> Prop) l k x :
  Forall2 R l k -> In x l -> exists y, In y k /\ R x y.
Proof.
  induction 1 as [|a b l k Hab _ IH]; [intros []|].
  intros [<-|Hx]; [exists b; by split; [left|]|].
  destruct (IH Hx) as (y & Hy & HR). exists y. by split; [right|].
Qed.

Lemma Forall2_In_r {A B} (R : A -> B -> Prop) l k y :
  Forall2 R l k -> In y k -> exists x, In x l /\ R x y.
Proof.
  induction 1 as [|a b l k Hab _ IH]; [intros []|].
  intros [<-|Hy]; [exists a; by split; [left|]|].
  destruct (IH Hy) as (x & Hx & HR). exists x. by split; [right|].
Qed.


(** What a successful pass of the fiona backend over one resolution
    group has done: it has read the layers of the group in ascending
    order of their part, made one frame of each, and written the CSV of
    the combined frame, whose column names are distinct. *)
Lemma export_group_fiona_frames OUTPUT_DIR gdb resolution layers_list w w' :
  export_geodatabase.export_group_fiona OUTPUT_DIR gdb resolution layers_list w
    = (inr tt, w') ->
  exists all_dfs combined ch,
    Forall2 (fun lp df =>
               exists t, find_layer gdb (fst lp) = Some t /\
                         df = layer_frame t (snd lp))
            (sorted_by snd layers_list) all_dfs /\
    export_geodatabase.combined_frame all_dfs = inr combined /\
    NoDup (Pandas.columns combined) /\
    fs w' !! export_geodatabase.res_dir_name resolution = Some (Dir ch) /\
    ch !! export_geodatabase.csv_name resolution = Some (Pandas.to_csv combined).
Proof.
  intros Hrun. unfold export_geodatabase.export_group_fiona in Hrun.
  apply bind_inr in Hrun as ([] & w1 & Hp1 & Hrun). apply print_inv in Hp1.
  apply bind_inr in Hrun as (all_dfs & w2 & Hread & Hrun).
  apply read_layers_fiona_spec in Hread as (_ & frames & -> & Hall).
  apply bind_inr in Hrun as (combined & w3 & Hcomb & Hrun).
  apply lift_inr in Hcomb as [Hcomb ->].
  apply bind_inr in Hrun as ([] & w3 & Hcsv & Hrun).
  apply write_file_in_inv in Hcsv as (ch & Hdir & ->).
  apply bind_inr in Hrun as ([] & w4 & Hp2 & Hrun). apply print_inv in Hp2.
  apply bind_inr in Hrun as (json_text & w5 & Hjt & Hrun).
  apply lift_inr in Hjt as [Hjt ->].
  apply bind_inr in Hrun as ([] & w6 & Hjson & Hrun).
  apply write_file_in_inv in Hjson as (ch' & Hdir' & ->).
  apply print_inv in Hrun. subst w' w4. cbn [fs] in *.
  rewrite lookup_insert_eq in Hdir'. injection Hdir' as <-.
  cbn [app] in Hcomb.
  exists frames, combined. eexists. split; [exact Hall|]. split; [exact Hcomb|].
  split; [|split; [apply lookup_insert_eq|]].
  - unfold Pandas.to_json_records in Hjt.
    destruct (bool_decide (NoDup (Pandas.columns combined))) eqn:Hnd; [|discriminate].
    by apply bool_decide_eq_true in Hnd.
  - rewrite lookup_insert_ne by (intros Heq; by apply (csv_json_ne resolution)).
    apply lookup_insert_eq.
Qed.





(** ** Land cover: the biome colours in the written files *)





(** ** The header of the statistics CSV *)

(** C5, as the code has it: under arcpy the written CSV starts with the
    header line of the six declared columns, in order, whatever columns
    the source tables have.  Under fiona the header of the CSV that a
    successful [export_group_fiona] has written holds, in declared
    order and once each, the declared columns that are present, and
    only those: [source_part], and a declared column that is the
    renamed name of a field for which some row of some layer of the
    group has a cell.  A declared column that no layer supplies is
    absent from the header. *)
Theorem csv_header_columns :
  (forall OUTPUT_DIR gdb resolution tables_list w w',
     export_geodatabase.export_group_arcpy OUTPUT_DIR gdb resolution tables_list w
       = (inr tt, w') ->
     exists ch rows,
       fs w' !! export_geodatabase.res_dir_name resolution = Some (Dir ch) /\
       ch !! export_geodatabase.csv_name resolution
         = Some ("h3_index,zone_code,count,area,majority,source_part"
                 +:+ export_geodatabase.CRLF +:+ rows))
  /\ (forall OUTPUT_DIR gdb resolution layers_list w w',
        export_geodatabase.export_group_fiona OUTPUT_DIR gdb resolution layers_list w
          = (inr tt, w') ->
        exists ch header rows,
          fs w' !! export_geodatabase.res_dir_name resolution = Some (Dir ch) /\
          ch !! export_geodatabase.csv_name resolution
            = Some (csv_row (str1 LF) header +:+ rows) /\
          NoDup header /\
          (exists present,
             header = filter (fun c => mem c present = true)
                             export_geodatabase.fieldnames) /\
          forall c, In c header
                    <-> In c export_geodatabase.fieldnames /\
                        exists d, renamed d = c /\
                          (d = "source_part" \/
                           exists lp t row,
                             In lp layers_list /\
                             find_layer gdb (fst lp) = Some t /\
                             In row (tbl_rows t) /\ In d (row_fields t row))).
Proof.
  split.
  - intros OUTPUT_DIR gdb resolution tables_list w w' Hrun.
    apply export_group_arcpy_inv in Hrun
      as (all_records & w1 & w2 & ch & _ & _ & Hdir & Hcsv).
    exists ch. eexists. split; [exact Hdir|]. rewrite Hcsv. reflexivity.
  - intros OUTPUT_DIR gdb resolution layers_list w w' Hrun.
    apply export_group_fiona_frames in Hrun
      as (all_dfs & combined & ch & Hall & Hcomb & Hnd & Hdir & Hcsv).
    pose proof (combined_frame_header _ _ Hcomb Hnd) as Hheader.
    set (U := Pandas.union_columns (map Pandas.columns all_dfs)) in Hheader.
    destruct (union_columns_spec (map Pandas.columns all_dfs)) as [_ HinU]. fold U in HinU.
    exists ch, (Pandas.columns combined). eexists. split; [exact Hdir|].
    split; [exact Hcsv|]. split; [exact Hnd|].
    split; [by exists (map renamed U)|].
    assert (all_dfs <> []) as Hne.
    { intros ->. unfold export_geodatabase.combined_frame in Hcomb.
      cbn in Hcomb. discriminate. }
    intros c. rewrite Hheader. rewrite <- list_elem_of_In, list_elem_of_filter.
    rewrite list_elem_of_In.
    rewrite mem_In, in_map_iff.
    split; [intros [(d & Hd & Hsrc) Hc]|intros [Hc (d & Hd & Hsrc)]];
      (split; [|done]) || (split; [done|]); exists d; (split; [done|]).
    + apply HinU in Hsrc as (l & (df & <- & Hdf)%in_map_iff & Hdl).
      destruct (Forall2_In_r _ _ _ df Hall Hdf) as (lp & Hlp & t & Ht & ->).
      destruct (layer_frame_spec t (snd lp)) as (_ & Hin & _).
      apply Hin in Hdl as [->|(row & Hrow & Hdrow)]; [by left|right].
      exists lp, t, row. split; [|done].
      by apply (Permutation_in _ (sorted_by_perm snd layers_list)).
    + apply HinU. destruct Hsrc as [->|(lp & t & row & Hlp & Ht & Hrow & Hdrow)].
      * destruct all_dfs as [|df dfs]; [done|].
        destruct (Forall2_In_r _ _ _ df Hall (or_introl eq_refl))
          as (lp & _ & t & _ & Hdf).
        exists (Pandas.columns df). split; [by left|]. rewrite Hdf.
        destruct (layer_frame_spec t (snd lp)) as (_ & Hin & _). apply Hin. by left.
      * apply (Permutation_in _ (Permutation_sym (sorted_by_perm snd layers_list)))
          in Hlp.
        destruct (Forall2_In_l _ _ _ lp Hall Hlp) as (df & Hdf & t' & Ht' & ->).
        rewrite Ht in Ht'. injection Ht' as <-.
        exists (Pandas.columns (layer_frame t (snd lp))).
        split; [by apply in_map|].
        destruct (layer_frame_spec t (snd lp)) as (_ & Hin & _). apply Hin.
        right. by exists row.
Qed.

Lemma csv_header_columns_witness :
  let tables_list := [("ZStatsTable_h3_res5_part001", 1%Z)] in
  let run := export_geodatabase.export_group_arcpy "data/exports"
               Examples.gdb_no_zone_code 5 tables_list Examples.world_res5 in
  let run' := export_geodatabase.export_group_fiona "data/exports"
                Examples.gdb_no_zone_code 5 tables_list Examples.world_res5 in
  (run = (inr tt, snd run) /\
   exists ch rows,
     fs (snd run) !! export_geodatabase.res_dir_name 5 = Some (Dir ch) /\
     ch !! export_geodatabase.csv_name 5
       = Some ("h3_index,zone_code,count,area,majority,source_part"
               +:+ export_geodatabase.CRLF +:+ rows)) /\
  (run' = (inr tt, snd run') /\
   exists ch header rows,
     fs (snd run') !! export_geodatabase.res_dir_name 5 = Some (Dir ch) /\
     ch !! export_geodatabase.csv_name 5
       = Some (csv_row (str1 LF) header +:+ rows) /\
     NoDup header /\
     (exists present,
        header = filter (fun c => mem c present = true)
                        export_geodatabase.fieldnames) /\
     forall c, In c header
               <-> In c export_geodatabase.fieldnames /\
                   exists d, renamed d = c /\
                     (d = "source_part" \/
                      exists lp t row,
                        In lp tables_list /\
                        find_layer Examples.gdb_no_zone_code (fst lp) = Some t /\
                        In row (tbl_rows t) /\ In d (row_fields t row))).
Proof.
  intros tables_list run run'.
  assert (run = (inr tt, snd run)) as Hrun by (vm_compute; reflexivity).
  assert (run' = (inr tt, snd run')) as Hrun' by (vm_compute; reflexivity).
  split; (split; [done|]).
  - apply (proj1 csv_header_columns "data/exports" Examples.gdb_no_zone_code 5%Z
             tables_list Examples.world_res5 (snd run)).
    exact Hrun.
  - apply (proj2 csv_header_columns "data/exports" Examples.gdb_no_zone_code 5%Z
             tables_list Examples.world_res5 (snd run')).
    exact Hrun'.
Defined.

(** C5 as stated fails under fiona: a source without a [ZONE_CODE]
    column gives a CSV whose header has five columns. *)
Lemma fiona_header_counterexample :
  let run := export_geodatabase.main "data/exports" "2025-01-01T00:00:00"
               (export_geodatabase.Imports false true true)
               Examples.gdb_no_zone_code Examples.empty_world in
  exit_status (fst run) = 0%Z /\
  exists ch text,
    fs (snd run) !! "res5" = Some (Dir ch) /\
    ch !! "zonal_stats_res5.csv" = Some text /\
    hd_error (file_lines text)
      = Some ("h3_index,count,area,majority,source_part" +:+ str1 LF) /\
    hd_error (file_lines text)
      <> Some ("h3_index,zone_code,count,area,majority,source_part" +:+ str1 LF).
Proof.
  cbv zeta. split; [vm_compute; reflexivity|].
  eexists _, _. split; [vm_compute; reflexivity|].
  split; [vm_compute; reflexivity|].
  split; [vm_compute; reflexivity|]. vm_compute. discriminate.
Qed.

(** ** Decimal numerals: printing and reading back *)

Lemma str_app_cons c (a b : string) : String c a +:+ b = String c (a +:+ b).
Proof. reflexivity. Qed.

Lemma str_app_nil_l (b : string) : "" +:+ b = b.
Proof. reflexivity. Qed.

Lemma str_app_assoc (a b c : string) : (a +:+ b) +:+ c = a +:+ (b +:+ c).
Proof.
  induction a as [|x a IH]; [done|]. rewrite !str_app_cons. by rewrite IH.
Qed.

(** Brings nested appends into right-nested form. *)
Ltac str_norm :=
  repeat (rewrite str_app_assoc || rewrite str_app_cons || rewrite str_app_nil_l).

Lemma str_app_nil_r (a : string) : a +:+ "" = a.
Proof.
  induction a as [|x a IH]; [done|]. rewrite str_app_cons. by rewrite IH.
Qed.

Lemma all_digits_app a b : all_digits (a +:+ b) = all_digits a && all_digits b.
Proof.
  induction a as [|x a IH]; [done|].
  rewrite str_app_cons. cbn [all_digits]. by rewrite IH, andb_assoc.
Qed.

Lemma digits_value_app acc a b :
  digits_value acc (a +:+ b) = digits_value (digits_value acc a) b.
Proof.
  revert acc. induction a as [|x a IH]; intros acc; [done|].
  rewrite str_app_cons. cbn [digits_value]. apply IH.
Qed.

Lemma int_digits_all_digits s : forall acc,
  all_digits s = true -> int_digits acc true s = Some (digits_value acc s).
Proof.
  induction s as [|c s IH]; intros acc Hd; simpl in *; [done|].
  apply andb_true_iff in Hd as [Hc Hs]. rewrite Hc. by apply IH.
Qed.

Lemma int_digits_nonempty s acc :
  all_digits s = true -> s <> "" -> int_digits acc false s = Some (digits_value acc s).
Proof.
  destruct s as [|c s]; [done|]. simpl. intros Hd _.
  apply andb_true_iff in Hd as [Hc Hs]. rewrite Hc. by apply int_digits_all_digits.
Qed.

Lemma pretty_N_char_digit m :
  (m < 10)%N ->
  is_digit (pretty_N_char m) = true /\ digit_value (pretty_N_char m) = Z.of_N m /\
  (m <> 0%N -> pretty_N_char m <> "0"%char).
Proof.
  intros Hm.
  assert (m = 0 \/ m = 1 \/ m = 2 \/ m = 3 \/ m = 4 \/ m = 5 \/ m = 6 \/ m = 7
          \/ m = 8 \/ m = 9)%N as Hcases by lia.
  repeat (destruct Hcases as [->|Hcases]); try subst m;
    (split; [reflexivity|split; [reflexivity|]]); intros; (done || discriminate).
Qed.

(** The digits [pretty_N_go] puts in front of its accumulator. *)
Lemma pretty_N_go_digits x :
  exists ds k,
    (forall s, pretty_N_go x s = ds +:+ s) /\
    all_digits ds = true /\
    (forall acc, digits_value acc ds = acc * k + Z.of_N x)%Z /\
    ((0 < x)%N -> exists c r, ds = String c r /\ c <> "0"%char).
Proof.
  induction (N.lt_wf_0 x) as [x _ IH].
  destruct (decide (x = 0%N)) as [->|Hx].
  - exists "", 1%Z. split; [done|]. split; [done|]. split.
    + intros acc. cbn [digits_value]. lia.
    + intros Hlt. lia.
  - assert (0 < x)%N as Hpos by lia.
    destruct (IH (x / 10)%N) as (ds & k & Hgo & Hall & Hval & Hlead).
    { apply N.div_lt; lia. }
    pose proof (N.div_mod x 10 ltac:(done)) as Hdm.
    pose proof (N.mod_lt x 10 ltac:(done)) as Hlt.
    destruct (pretty_N_char_digit _ Hlt) as (Hdig & Hdv & Hnz).
    exists (ds +:+ String (pretty_N_char (x mod 10)) ""), (10 * k)%Z.
    split; [|split; [|split]].
    + intros s. rewrite pretty_N_go_step by done. by rewrite Hgo, str_app_assoc.
    + rewrite all_digits_app, Hall. simpl. by rewrite Hdig.
    + intros acc. rewrite digits_value_app, Hval. simpl. rewrite Hdv.
      revert Hdm. generalize (x / 10)%N (x mod 10)%N. intros q m ->. lia.
    + intros _. destruct (decide (x / 10 = 0)%N) as [Hq|Hq].
      * assert (ds = "") as ->.
        { specialize (Hgo ""). rewrite Hq, pretty_N_go_0, str_app_nil_r in Hgo. done. }
        eexists _, _. split; [reflexivity|]. apply Hnz.
        rewrite Hq in Hdm. lia.
      * destruct Hlead as (c & r & -> & Hc); [lia|].
        by exists c, (r +:+ String (pretty_N_char (x mod 10)) "").
Qed.

Lemma span_digits_app ds rest :
  all_digits ds = true ->
  match rest with String c _ => is_digit c = false | EmptyString => True end ->
  span_digits (ds +:+ rest) = (ds, rest).
Proof.
  intros Hds Hrest. induction ds as [|c ds IH].
  - rewrite str_app_nil_l. destruct rest as [|c r]; [done|].
    cbn [span_digits]. by rewrite Hrest.
  - cbn [all_digits] in Hds. apply andb_true_iff in Hds as [Hc Hds].
    rewrite str_app_cons. cbn [span_digits]. by rewrite Hc, IH.
Qed.

Lemma is_digit_not c d : is_digit c = true -> is_digit d = false -> Ascii.eqb d c = false.
Proof.
  intros Hc Hd. apply Ascii.eqb_neq. intros ->. congruence.
Qed.

Lemma is_digit_not_l c d : is_digit c = true -> is_digit d = false -> Ascii.eqb c d = false.
Proof. intros Hc Hd. rewrite Ascii.eqb_sym. by apply is_digit_not. Qed.

(** The shape of [str(z)]: an optional minus sign and the digits of the
    absolute value, without a leading zero unless the value is zero. *)
Lemma str_of_int_shape z :
  exists ds,
    str_of_int z = (if (z <? 0)%Z then "-" else "") +:+ ds /\
    all_digits ds = true /\ ds <> "" /\
    digits_value 0 ds = Z.abs z /\
    (startswith "0" ds && negb (String.eqb ds "0") = false).
Proof.
  assert (forall p : positive, exists ds,
            pretty (N.pos p) = ds /\ all_digits ds = true /\ ds <> "" /\
            digits_value 0 ds = Z.pos p /\
            startswith "0" ds && negb (String.eqb ds "0") = false) as Hpos.
  { intros p. destruct (pretty_N_go_digits (N.pos p)) as (ds & k & Hgo & Hall & Hval & Hlead).
    destruct Hlead as (c & r & -> & Hc); [lia|].
    exists (String c r). split.
    - unfold pretty, pretty_N. rewrite decide_False by done.
      by rewrite Hgo, str_app_nil_r.
    - split; [done|]. split; [done|]. split; [rewrite Hval; simpl; lia|].
      cbn [startswith]. apply Ascii.eqb_neq in Hc. rewrite Ascii.eqb_sym in Hc.
      by rewrite Hc. }
  destruct z as [|p|p].
  - exists "0". by repeat split.
  - destruct (Hpos p) as (ds & Hp & Hrest). exists ds. split; [|exact Hrest].
    unfold str_of_int, pretty, pretty_Z. cbn [Z.ltb Z.compare]. exact Hp.
  - destruct (Hpos p) as (ds & Hp & Hall & Hne & Hval & Hz). exists ds.
    split; [|by repeat split].
    unfold str_of_int, pretty at 1, pretty_Z. cbn [Z.ltb Z.compare]. by rewrite <- Hp.
Qed.

Lemma scan_int_str_of_int z rest :
  int_follow rest = true ->
  JsonRead.scan_int (str_of_int z +:+ rest) = Some (z, rest).
Proof.
  intros Hfollow.
  destruct (str_of_int_shape z) as (ds & -> & Hall & Hne & Hval & Hzero).
  assert (span_digits (ds +:+ rest) = (ds, rest)) as Hspan.
  { apply span_digits_app; [done|]. destruct rest as [|c r]; [done|].
    cbn [int_follow] in Hfollow. apply negb_true_iff in Hfollow.
    by repeat (apply orb_false_iff in Hfollow as [Hfollow ?]). }
  assert (startswith "." rest || startswith "e" rest || startswith "E" rest = false)
    as Hfloat.
  { destruct rest as [|c r]; [done|].
    cbn [int_follow] in Hfollow. apply negb_true_iff in Hfollow.
    apply orb_false_iff in Hfollow as [Hfollow HE].
    apply orb_false_iff in Hfollow as [Hfollow He].
    apply orb_false_iff in Hfollow as [_ Hdot].
    cbn [startswith]. rewrite !andb_true_r.
    by rewrite (Ascii.eqb_sym "." c), (Ascii.eqb_sym "e" c), (Ascii.eqb_sym "E" c),
               Hdot, He, HE. }
  assert (String.eqb ds "" = false) as Hds by (by apply String.eqb_neq).
  destruct ds as [|d ds']; [done|].
  assert (is_digit d = true) as Hd.
  { cbn [all_digits] in Hall. by apply andb_true_iff in Hall as [? _]. }
  cbn [startswith] in Hzero, Hfloat.
  unfold JsonRead.scan_int. destruct (z <? 0)%Z eqn:Hneg.
  - rewrite str_app_assoc, !str_app_cons, str_app_nil_l.
    cbn [startswith drop_str]. rewrite Ascii.eqb_refl. cbn [andb].
    rewrite <- str_app_cons, Hspan, Hds, Hzero, Hfloat.
    rewrite (int_digits_nonempty _ _ Hall) by done. rewrite Hval.
    cbn [mbind option_bind]. f_equal. f_equal. apply Z.ltb_lt in Hneg. lia.
  - rewrite str_app_nil_l, str_app_cons. cbn [startswith].
    rewrite (is_digit_not d "-" Hd) by done. cbn [andb].
    rewrite <- str_app_cons, Hspan, Hds, Hzero, Hfloat.
    rewrite (int_digits_nonempty _ _ Hall) by done. rewrite Hval.
    cbn [mbind option_bind]. f_equal. f_equal. apply Z.ltb_ge in Hneg. lia.
Qed.

(** ** String literals: escaping and reading back *)

Lemma scan_string_escape_char c tail :
  JsonRead.scan_string (escape_char c +:+ tail) =
  match JsonRead.scan_string tail with
  | Some (t, rest) => Some (String c t, rest)
  | None => None
  end.
Proof. destruct c as [[] [] [] [] [] [] [] []]; reflexivity. Qed.

Lemma scan_string_escape s rest :
  JsonRead.scan_string (escape s +:+ String dquote rest) = Some (s, rest).
Proof.
  induction s as [|c s IH]; [reflexivity|].
  cbn [escape]. rewrite str_app_assoc, scan_string_escape_char. by rewrite IH.
Qed.

(** ** One record, written and read back *)

Lemma str_of_int_head z :
  exists c r, str_of_int z = String c r /\ (is_digit c = true \/ c = "-"%char).
Proof.
  destruct (str_of_int_shape z) as (ds & -> & Hall & Hne & _).
  destruct ds as [|d ds]; [done|].
  cbn [all_digits] in Hall. apply andb_true_iff in Hall as [Hd _].
  destruct (z <? 0)%Z.
  - exists "-"%char, (String d ds). split; [reflexivity|by right].
  - exists d, ds. split; [reflexivity|by left].
Qed.

(** A scalar value, as [json.dumps] prints it, is read back. *)
Lemma scan_value_dumps v rest :
  int_follow rest = true ->
  JsonRead.scan_value (dumps_at None 1 (json_of_pyval v) +:+ rest)
    = Some (json_of_pyval v, rest)
  /\ JsonRead.skip_ws (dumps_at None 1 (json_of_pyval v) +:+ rest)
     = dumps_at None 1 (json_of_pyval v) +:+ rest.
Proof.
  intros Hfollow. destruct v as [|z|s]; cbn [json_of_pyval dumps_at].
  - split; reflexivity.
  - destruct (str_of_int_head z) as (c & r & Hz & Hc).
    assert (Ascii.eqb c dquote = false /\ Ascii.eqb "n" c = false /\
            JsonRead.is_json_space c = false) as (Hq & Hn & Hs).
    { destruct Hc as [Hd| ->]; [|by repeat split].
      split; [by apply is_digit_not_l|].
      split; [by apply is_digit_not|].
      unfold JsonRead.is_json_space.
      by rewrite !(is_digit_not_l _ _ Hd) by done. }
    split.
    + pose proof (scan_int_str_of_int z rest Hfollow) as Hint.
      rewrite Hz in Hint |- *. rewrite str_app_cons in Hint |- *.
      unfold JsonRead.scan_value. rewrite Hq. cbn [startswith]. rewrite Hn.
      cbn [andb]. by rewrite Hint.
    + rewrite Hz, str_app_cons. cbn [JsonRead.skip_ws]. by rewrite Hs.
  - unfold encode_str, str1. str_norm.
    split; [|reflexivity].
    unfold JsonRead.scan_value. rewrite Ascii.eqb_refl.
    by rewrite scan_string_escape.
Qed.

Lemma scan_members_more fuel key value_text v more :
  JsonRead.scan_value (value_text +:+ String "," (String " " more))
    = Some (v, String "," (String " " more)) ->
  JsonRead.skip_ws (value_text +:+ String "," (String " " more))
    = value_text +:+ String "," (String " " more) ->
  JsonRead.skip_ws more = more ->
  JsonRead.scan_members (S fuel) (member_text key value_text (String "," (String " " more)))
  = match JsonRead.scan_members fuel more with
    | Some (items, rest) => Some ((key, v) :: items, rest)
    | None => None
    end.
Proof.
  intros Hvalue Hws Hmore. unfold member_text. cbn [JsonRead.scan_members].
  rewrite Ascii.eqb_refl, scan_string_escape. cbn [mbind option_bind].
  change (JsonRead.skip_ws (String ":" (String " " ?x)))
    with (String ":" (String " " x)).
  cbv iota beta.
  change (JsonRead.skip_ws (String " " ?x)) with (JsonRead.skip_ws x).
  rewrite Hws, Hvalue. cbn [mbind option_bind].
  change (JsonRead.skip_ws (String "," (String " " more)))
    with (String "," (String " " more)).
  cbv iota beta.
  change (JsonRead.skip_ws (String " " more)) with (JsonRead.skip_ws more).
  rewrite Hmore. by destruct (JsonRead.scan_members fuel more) as [[items rest]|].
Qed.

Lemma scan_members_last fuel key value_text v rest :
  JsonRead.scan_value (value_text +:+ String "}" rest) = Some (v, String "}" rest) ->
  JsonRead.skip_ws (value_text +:+ String "}" rest) = value_text +:+ String "}" rest ->
  JsonRead.scan_members (S fuel) (member_text key value_text (String "}" rest))
  = Some ([(key, v)], rest).
Proof.
  intros Hvalue Hws. unfold member_text. cbn [JsonRead.scan_members].
  rewrite Ascii.eqb_refl, scan_string_escape. cbn [mbind option_bind].
  change (JsonRead.skip_ws (String ":" (String " " ?x)))
    with (String ":" (String " " x)).
  cbv iota beta.
  change (JsonRead.skip_ws (String " " ?x)) with (JsonRead.skip_ws x).
  rewrite Hws, Hvalue. cbn [mbind option_bind]. reflexivity.
Qed.

Lemma record_line r :
  dumps (record_json r) +:+ str1 LF =
  String "{"
    (member_text "h3" (dumps_at None 1 (json_of_pyval (h3 r)))
       (String "," (String " "
          (member_text "code" (dumps_at None 1 (json_of_pyval (PyInt (code r))))
             (String "," (String " "
                (member_text "biome" (dumps_at None 1 (json_of_pyval (PyStr (biome r))))
                   (String "}" (str1 LF))))))))).
Proof.
  unfold dumps, record_json, member_text.
  cbn [dumps_at map fst snd json_of_pyval].
  unfold join, newline_indent, item_separator, encode_str, str1.
  cbn [String.concat]. str_norm. reflexivity.
Qed.

Lemma record_members fuel r :
  JsonRead.scan_members (S (S (S fuel)))
    (member_text "h3" (dumps_at None 1 (json_of_pyval (h3 r)))
       (String "," (String " "
          (member_text "code" (dumps_at None 1 (json_of_pyval (PyInt (code r))))
             (String "," (String " "
                (member_text "biome" (dumps_at None 1 (json_of_pyval (PyStr (biome r))))
                   (String "}" (str1 LF)))))))))
  = Some (record_items r, str1 LF).
Proof.
  rewrite (scan_members_more _ _ _ (json_of_pyval (h3 r)));
    [|by apply scan_value_dumps|by apply scan_value_dumps|reflexivity].
  rewrite (scan_members_more _ _ _ (json_of_pyval (PyInt (code r))));
    [|by apply scan_value_dumps|by apply scan_value_dumps|reflexivity].
  rewrite (scan_members_last _ _ _ (json_of_pyval (PyStr (biome r))));
    [|by apply scan_value_dumps|by apply scan_value_dumps].
  reflexivity.
Qed.

(** [json.loads] gives back the dictionary of a written record. *)
Lemma loads_record_line r :
  JsonRead.loads (dumps (record_json r) +:+ str1 LF) = Some (record_items r).
Proof.
  assert (exists n, String.length (dumps (record_json r) +:+ str1 LF) = S (S (S n)))
    as [n Hlen].
  { rewrite record_line. unfold member_text. eexists. reflexivity. }
  unfold JsonRead.loads. rewrite Hlen. rewrite record_line.
  change (JsonRead.skip_ws (String "{" ?x)) with (String "{" x).
  cbn [startswith drop_str]. rewrite Ascii.eqb_refl. cbn [andb].
  change (JsonRead.skip_ws (member_text ?k ?v ?t)) with (member_text k v t).
  replace (Ascii.eqb "}" dquote && true) with false by reflexivity.
  rewrite record_members. reflexivity.
Qed.

(** ** Lines of a written file *)

Lemma no_eol_app a b : no_eol (a +:+ b) = no_eol a && no_eol b.
Proof.
  induction a as [|c a IH]; [done|].
  rewrite str_app_cons. cbn [no_eol]. by rewrite IH, andb_assoc.
Qed.

Lemma no_eol_escape_char c : no_eol (escape_char c) = true.
Proof. destruct c as [[] [] [] [] [] [] [] []]; reflexivity. Qed.

Lemma no_eol_escape s : no_eol (escape s) = true.
Proof.
  induction s as [|c s IH]; [done|].
  cbn [escape]. by rewrite no_eol_app, no_eol_escape_char, IH.
Qed.

Lemma no_eol_encode_str s : no_eol (encode_str s) = true.
Proof. unfold encode_str. by rewrite !no_eol_app, no_eol_escape. Qed.

Lemma no_eol_digits s : all_digits s = true -> no_eol s = true.
Proof.
  induction s as [|c s IH]; [done|]. cbn [all_digits no_eol].
  intros [Hc Hs]%andb_true_iff.
  by rewrite !(is_digit_not_l _ _ Hc), IH by done.
Qed.

Lemma no_eol_str_of_int z : no_eol (str_of_int z) = true.
Proof.
  destruct (str_of_int_shape z) as (ds & -> & Hall & _).
  rewrite no_eol_app, (no_eol_digits _ Hall). by destruct (z <? 0)%Z.
Qed.

Lemma no_eol_value v : no_eol (dumps_at None 1 (json_of_pyval v)) = true.
Proof.
  destruct v as [|z|s]; cbn [json_of_pyval dumps_at];
    [done|apply no_eol_str_of_int|apply no_eol_encode_str].
Qed.

Lemma no_eol_record r : no_eol (dumps (record_json r)) = true.
Proof.
  unfold dumps, record_json. cbn [dumps_at map fst snd].
  unfold join, newline_indent, item_separator. cbn [String.concat].
  rewrite !no_eol_app, !no_eol_encode_str, no_eol_str_of_int.
  by rewrite no_eol_value.
Qed.

(** A text without line terminator, followed by a line feed, is read as
    one line. *)
Lemma file_lines_go_line s : forall cur rest,
  no_eol s = true ->
  file_lines_go cur (s +:+ String LF rest)
  = (cur +:+ s +:+ str1 LF) :: file_lines_go "" rest.
Proof.
  induction s as [|c s IH]; intros cur rest Hs.
  - rewrite !str_app_nil_l. cbn [file_lines_go]. by rewrite Ascii.eqb_refl.
  - cbn [no_eol] in Hs. apply andb_true_iff in Hs as [Hc Hs].
    apply andb_true_iff in Hc as [Hlf Hcr].
    apply negb_true_iff in Hlf, Hcr.
    rewrite str_app_cons. cbn [file_lines_go]. rewrite Hlf, Hcr.
    rewrite IH by done. f_equal. unfold str1. by str_norm.
Qed.

Lemma join_empty_cons x xs : join "" (x :: xs) = x +:+ join "" xs.
Proof.
  unfold join. cbn [String.concat]. destruct xs as [|y xs].
  - by rewrite str_app_nil_r.
  - by rewrite str_app_nil_l.
Qed.

Lemma file_lines_jsonl all_records :
  file_lines (jsonl_text all_records)
  = map (fun r => dumps (record_json r) +:+ str1 LF) all_records.
Proof.
  unfold file_lines, jsonl_text.
  induction all_records as [|r recs IH]; [reflexivity|].
  cbn [map]. rewrite join_empty_cons. unfold str1 at 1. rewrite str_app_assoc, str_app_cons, str_app_nil_l.
  rewrite file_lines_go_line by apply no_eol_record.
  rewrite str_app_nil_l. by rewrite IH.
Qed.

(** ** Land cover: the JSON-lines round trip *)

(** C8: for every record collection of the land-cover pipeline, reading
    the written JSON-lines text back line by line, each line decoded by
    [json.loads], gives as many dictionaries as there are records, each
    with the field values of its record. *)
Theorem jsonl_round_trip :
  (forall all_records : list record,
     JsonRead.read_jsonl (jsonl_text all_records)
     = map (fun r => Some (record_items r)) all_records
     /\ length (JsonRead.read_jsonl (jsonl_text all_records)) = length all_records)
  /\ (forall (USE_ARCPY : bool) gdb output_dir resolution pattern w all_records w',
        export_resolution USE_ARCPY gdb output_dir resolution pattern w
          = (inr (Some all_records), w') ->
        exists text,
          fs w' !! jsonl_name resolution = Some (File text) /\
          JsonRead.read_jsonl text = map (fun r => Some (record_items r)) all_records).
Proof.
  assert (forall all_records : list record,
            JsonRead.read_jsonl (jsonl_text all_records)
            = map (fun r => Some (record_items r)) all_records) as Hread.
  { intros all_records. unfold JsonRead.read_jsonl.
    rewrite file_lines_jsonl, map_map.
    apply map_ext. intros r. apply loads_record_line. }
  split.
  - intros all_records. split; [apply Hread|]. by rewrite Hread, length_map.
  - intros USE_ARCPY gdb output_dir resolution pattern w all_records w' Hrun.
    apply export_resolution_inv in Hrun as (Hjsonl & _).
    exists (jsonl_text all_records). split; [exact Hjsonl|apply Hread].
Qed.

(** ** Directory names and the resolution they stand for *)

Lemma rstrip_no_space s : no_space s = true -> rstrip s = s.
Proof.
  induction s as [|c s IH]; [done|]. cbn [no_space rstrip].
  intros [Hc Hs]%andb_true_iff. apply negb_true_iff in Hc.
  rewrite IH by done. destruct s; [by rewrite Hc|done].
Qed.

Lemma lstrip_no_space s : no_space s = true -> lstrip s = s.
Proof.
  destruct s as [|c s]; [done|]. cbn [no_space lstrip].
  intros [Hc _]%andb_true_iff. apply negb_true_iff in Hc. by rewrite Hc.
Qed.

Lemma no_space_app a b : no_space (a +:+ b) = no_space a && no_space b.
Proof.
  induction a as [|c a IH]; [done|].
  rewrite str_app_cons. cbn [no_space]. by rewrite IH, andb_assoc.
Qed.

Lemma is_digit_not_space c : is_digit c = true -> is_space c = false.
Proof.
  unfold is_digit, is_space. generalize (N_of_ascii c). intros n Hn.
  apply andb_true_iff in Hn as [H1 H2]. apply N.leb_le in H1, H2.
  repeat (apply orb_false_iff; split); try apply andb_false_iff;
    rewrite ?N.leb_gt, ?N.eqb_neq; lia.
Qed.

Lemma no_space_digits s : all_digits s = true -> no_space s = true.
Proof.
  induction s as [|c s IH]; [done|]. cbn [all_digits no_space].
  intros [Hc Hs]%andb_true_iff. by rewrite (is_digit_not_space _ Hc), IH.
Qed.

(** [int(str(z)) = z]. *)
Lemma int_of_str_of_int z : int_of_str (str_of_int z) = inr z.
Proof.
  destruct (str_of_int_shape z) as (ds & Hz & Hall & Hne & Hval & _).
  assert (strip (str_of_int z) = str_of_int z) as Hstrip.
  { assert (no_space (str_of_int z) = true) as Hns.
    { rewrite Hz, no_space_app, (no_space_digits _ Hall). by destruct (z <? 0)%Z. }
    unfold strip. by rewrite lstrip_no_space, rstrip_no_space. }
  unfold int_of_str. rewrite Hstrip, Hz.
  destruct ds as [|d ds']; [done|].
  assert (is_digit d = true) as Hd.
  { cbn [all_digits] in Hall. by apply andb_true_iff in Hall as [? _]. }
  destruct (z <? 0)%Z eqn:Hneg.
  - rewrite str_app_cons, str_app_nil_l. cbn [startswith drop_str].
    rewrite Ascii.eqb_refl. cbn [andb].
    rewrite (int_digits_nonempty _ _ Hall) by done. rewrite Hval.
    cbn [fmap option_fmap option_map]. f_equal. apply Z.ltb_lt in Hneg. lia.
  - rewrite str_app_nil_l. cbn [startswith].
    rewrite !(is_digit_not d _ Hd) by done. cbn [andb].
    rewrite (int_digits_nonempty _ _ Hall) by done. rewrite Hval.
    f_equal. apply Z.ltb_ge in Hneg. lia.
Qed.

Lemma res_dir_name_inj a b :
  export_geodatabase.res_dir_name a = export_geodatabase.res_dir_name b -> a = b.
Proof.
  unfold export_geodatabase.res_dir_name, str_of_int. intros Heq.
  apply String.app_inj in Heq. by apply (inj pretty) in Heq.
Qed.

Lemma res_dir_name_parses r :
  startswith "res" (export_geodatabase.res_dir_name r) = true /\
  int_of_str (drop_str 3 (export_geodatabase.res_dir_name r)) = inr r.
Proof. split; [reflexivity|]. apply int_of_str_of_int. Qed.

(** ** What an export leaves untouched *)

Lemma touches_refl P f : touches P f f.
Proof. intros n. by left. Qed.

Lemma touches_trans P f1 f2 f3 :
  touches P f1 f2 -> touches P f2 f3 -> touches P f1 f3.
Proof.
  intros H12 H23 n.
  destruct (H23 n) as [E|(Hp & ch & ch' & E2 & E3)],
           (H12 n) as [F|(Hq & c0 & c1 & F1 & F2)].
  - left. congruence.
  - right. split; [done|]. exists c0, c1. split; congruence.
  - right. split; [done|]. exists ch, ch'. split; congruence.
  - right. split; [done|]. exists c0, ch'. split; congruence.
Qed.

Lemma touches_mono (P Q : string -> Prop) f f' :
  (forall n, P n -> Q n) -> touches P f f' -> touches Q f f'.
Proof.
  intros HPQ H n. destruct (H n) as [E|(Hp & Hrest)]; [by left|right; auto].
Qed.

Lemma write_file_in_touches dir name text w w' :
  write_file_in dir name text w = (inr tt, w') ->
  touches (eq dir) (fs w) (fs w').
Proof.
  intros Hrun. apply write_file_in_inv in Hrun as (ch & Hdir & ->). cbn [fs].
  intros n. destruct (decide (dir = n)) as [<-|Hne].
  - right. split; [done|]. eexists _, _. split; [exact Hdir|apply lookup_insert_eq].
  - left. by apply lookup_insert_ne.
Qed.

Lemma export_group_arcpy_touches OUTPUT_DIR gdb resolution tables_list w w' :
  export_geodatabase.export_group_arcpy OUTPUT_DIR gdb resolution tables_list w
    = (inr tt, w') ->
  touches (eq (export_geodatabase.res_dir_name resolution)) (fs w) (fs w').
Proof.
  intros Hrun. unfold export_geodatabase.export_group_arcpy in Hrun.
  apply bind_inr in Hrun as ([] & w1 & Hp1 & Hrun). apply print_inv in Hp1.
  apply bind_inr in Hrun as (all_records & w2 & Hread & Hrun).
  apply read_tables_arcpy_spec in Hread as (Hfs2 & _).
  apply bind_inr in Hrun as ([] & w3 & Hcsv & Hrun).
  apply write_file_in_touches in Hcsv.
  apply bind_inr in Hrun as ([] & w4 & Hp2 & Hrun). apply print_inv in Hp2.
  apply bind_inr in Hrun as ([] & w5 & Hjson & Hrun).
  apply write_file_in_touches in Hjson.
  apply print_inv in Hrun. subst w' w4 w1. cbn [fs] in *.
  rewrite Hfs2 in Hcsv. by eapply touches_trans.
Qed.

Lemma for_each_touches {A} (P : string -> Prop) (body : A -> M unit) l :
  (forall x w w', In x l -> body x w = (inr tt, w') -> touches P (fs w) (fs w')) ->
  forall w w', for_each l body w = (inr tt, w') -> touches P (fs w) (fs w').
Proof.
  induction l as [|x l IH]; intros Hbody w w' Hrun; cbn [for_each] in Hrun.
  - injection Hrun as <-. apply touches_refl.
  - apply bind_inr in Hrun as ([] & w1 & Hx & Hrun).
    eapply touches_trans.
    + apply (Hbody x w w1); [by left|done].
    + apply IH; [|done]. intros y wa wb Hy. apply Hbody. by right.
Qed.

Lemma dict_set_In {K V} `{EqDecision K} (d : Dict.dict K V) k v k' v' :
  In (k', v') (Dict.set d k v) -> k' = k \/ In (k', v') d.
Proof.
  induction d as [|[k0 v0] d IH]; cbn [Dict.set].
  - intros [[= <- <-]|[]]. by left.
  - destruct (decide (k = k0)) as [->|Hne].
    + intros [[= <- <-]|Hin]; [by left|right; by right].
    + intros [Heq|Hin]; [right; by left|].
      destruct (IH Hin) as [?|?]; [by left|right; by right].
Qed.

(** Every key of [by_resolution] is the resolution of a matching
    table. *)
Lemma group_by_resolution_keys zstats_tables res l :
  In (res, l) (export_geodatabase.group_by_resolution zstats_tables) ->
  exists table part, In (table, res, part) zstats_tables.
Proof.
  unfold export_geodatabase.group_by_resolution.
  assert (forall zs (d : Dict.dict Z (list (string * Z))),
            In (res, l)
               (fold_left
                  (fun by_resolution '(table, res, part) =>
                     let by_resolution :=
                       match Dict.get by_resolution res with
                       | None => Dict.set by_resolution res []
                       | Some _ => by_resolution
                       end in
                     Dict.set by_resolution res
                       (Dict.get_default by_resolution res [] ++ [(table, part)]))
                  zs d) ->
            (exists l0, In (res, l0) d) \/ exists table part, In (table, res, part) zs)
    as Hgen.
  { induction zs as [|[[table res'] part] zs IH]; intros d Hin; cbn [fold_left] in Hin.
    - left. by exists l.
    - apply IH in Hin as [(l0 & Hin)|(t & p & Hin)].
      + apply dict_set_In in Hin as [->|Hin].
        * right. exists table, part. by left.
        * destruct (Dict.get d res') eqn:Hget.
          -- left. by exists l0.
          -- apply dict_set_In in Hin as [->|Hin].
             ++ right. exists table, part. by left.
             ++ left. by exists l0.
      + right. exists t, p. by right. }
  intros Hin. apply Hgen in Hin as [(l0 & [])|Hin]. exact Hin.
Qed.

(** A completed statistics export under arcpy changes nothing but the
    contents of the directories of the resolutions it exported. *)
Lemma export_with_arcpy_touches OUTPUT_DIR imp gdb w w1 :
  export_geodatabase.export_with_arcpy OUTPUT_DIR imp gdb w = (inr true, w1) ->
  exists zstats_tables,
    export_geodatabase.filter_zstats (ListTables gdb) = inr zstats_tables /\
    touches (fun name => exists table res part,
               In (table, res, part) zstats_tables /\
               name = export_geodatabase.res_dir_name res)
            (fs w) (fs w1).
Proof.
  unfold export_geodatabase.export_with_arcpy. intros Hrun.
  destruct (negb (export_geodatabase.arcpy imp)).
  { apply bind_inr in Hrun as ([] & w0 & _ & Hrun). discriminate. }
  destruct (ListTables gdb) as [|t0 tables] eqn:Htables.
  { apply bind_inr in Hrun as ([] & w0 & _ & Hrun). discriminate. }
  apply bind_inr in Hrun as (zs & w0 & Hz & Hrun). apply lift_inr in Hz as [Hz ->].
  apply bind_inr in Hrun as ([] & w2 & Hp & Hrun). apply print_inv in Hp.
  apply bind_inr in Hrun as ([] & w3 & Hloop & Hrun). injection Hrun as <-.
  exists zs. split; [done|].
  replace (fs w) with (fs w2) by (by subst w2).
  eapply for_each_touches; [|exact Hloop].
  intros [res l] wa wb Hin Hbody. cbn [fst snd] in Hbody.
  apply export_group_arcpy_touches in Hbody.
  eapply touches_mono; [|exact Hbody]. intros n <-.
  apply (Permutation_in _ (sorted_by_perm fst _)) in Hin.
  apply group_by_resolution_keys in Hin as (table & part & Hin).
  by exists table, res, part.
Qed.

(** ** The manifest of the statistics exporter *)

Lemma manifest_step_inv OUTPUT_DIR acc name nd res :
  export_geodatabase.manifest_step OUTPUT_DIR acc (name, nd) = inr res ->
  (res = acc /\
   forall ch r text, nd = Dir ch -> startswith "res" name = true ->
     int_of_str (drop_str 3 name) = inr r ->
     ch !! export_geodatabase.csv_name r = Some text -> False)
  \/ exists ch r text,
       nd = Dir ch /\ startswith "res" name = true /\
       int_of_str (drop_str 3 name) = inr r /\
       ch !! export_geodatabase.csv_name r = Some text /\
       res = Dict.set acc r
               (export_geodatabase.ManifestEntry
                  (export_geodatabase.path2 OUTPUT_DIR name (export_geodatabase.csv_name r))
                  (export_geodatabase.path2 OUTPUT_DIR name (export_geodatabase.json_name r))
                  (Z.of_nat (length (file_lines text)) - 1)).
Proof.
  unfold export_geodatabase.manifest_step. destruct nd as [t|ch].
  { intros [= <-]. left. split; [done|]. intros; discriminate. }
  destruct (startswith "res" name) eqn:Hres.
  2:{ intros [= <-]. left. split; [done|]. intros; discriminate. }
  destruct (int_of_str (drop_str 3 name)) as [e|r] eqn:Hint; [discriminate|].
  cbn [rbind]. destruct (ch !! export_geodatabase.csv_name r) as [text|] eqn:Hcsv.
  - intros [= <-]. right. by exists ch, r, text.
  - intros [= <-]. left. split; [done|].
    intros ch' r' text' [= <-] _ [= <-] Hsome. congruence.
Qed.

Lemma manifest_loop_sound OUTPUT_DIR entries : forall acc res,
  export_geodatabase.manifest_loop OUTPUT_DIR acc entries = inr res ->
  forall r e, Dict.get res r = Some e ->
    Dict.get acc r = Some e \/
    exists name ch text,
      In (name, Dir ch) entries /\ startswith "res" name = true /\
      int_of_str (drop_str 3 name) = inr r /\
      ch !! export_geodatabase.csv_name r = Some text /\
      export_geodatabase.record_count e = (Z.of_nat (length (file_lines text)) - 1)%Z.
Proof.
  induction entries as [|[name nd] entries IH]; intros acc res Hrun r e Hget;
    cbn [export_geodatabase.manifest_loop] in Hrun.
  - injection Hrun as <-. by left.
  - apply rbind_inr in Hrun as (acc1 & Hstep & Hrun).
    destruct (IH _ _ Hrun r e Hget) as [Hacc1|(n & ch & text & Hin & Hrest)].
    2:{ right. exists n, ch, text. split; [by right|done]. }
    apply manifest_step_inv in Hstep
      as [[-> _]|(ch & r0 & text & -> & Hres & Hint & Hcsv & ->)]; [by left|].
    rewrite dict_get_set in Hacc1. destruct (decide (r0 = r)) as [->|Hne]; [|by left].
    injection Hacc1 as <-. right. exists name, ch, text.
    split; [by left|]. by repeat split.
Qed.

Lemma manifest_loop_complete OUTPUT_DIR entries : forall acc res,
  export_geodatabase.manifest_loop OUTPUT_DIR acc entries = inr res ->
  forall r,
    (is_Some (Dict.get acc r) \/
     exists name ch text,
       In (name, Dir ch) entries /\ startswith "res" name = true /\
       int_of_str (drop_str 3 name) = inr r /\
       ch !! export_geodatabase.csv_name r = Some text) ->
    is_Some (Dict.get res r).
Proof.
  induction entries as [|[name nd] entries IH]; intros acc res Hrun r Hr;
    cbn [export_geodatabase.manifest_loop] in Hrun.
  - injection Hrun as <-. destruct Hr as [?|(? & ? & ? & [] & _)]. done.
  - apply rbind_inr in Hrun as (acc1 & Hstep & Hrun).
    apply (IH _ _ Hrun r).
    apply manifest_step_inv in Hstep
      as [[-> Hno]|(ch & r0 & text & -> & Hres & Hint & Hcsv & ->)].
    + destruct Hr as [?|(n & ch & text & [[= -> ->]|Hin] & Hres & Hint & Hcsv)].
      * by left.
      * destruct (Hno ch r text); done.
      * right. by exists n, ch, text.
    + rewrite dict_get_set. destruct (decide (r0 = r)) as [->|Hne]; [left; by eexists|].
      destruct Hr as [?|(n & ch' & text' & [[= <- <-]|Hin] & Hres' & Hint' & Hcsv')].
      * by left.
      * congruence.
      * right. by exists n, ch', text'.
Qed.

Lemma generate_manifest_inv OUTPUT_DIR now w m w' :
  export_geodatabase.generate_manifest OUTPUT_DIR now w = (inr m, w') ->
  export_geodatabase.manifest_loop OUTPUT_DIR [] (export_geodatabase.iterdir (fs w))
    = inr (export_geodatabase.resolutions m).
Proof.
  unfold export_geodatabase.generate_manifest. intros Hrun.
  apply bind_inr in Hrun as (f & w0 & Hf & Hrun). injection Hf as <- <-.
  apply bind_inr in Hrun as (res & w1 & Hloop & Hrun). apply lift_inr in Hloop as [Hloop ->].
  apply bind_inr in Hrun as ([] & w2 & _ & Hrun).
  apply bind_inr in Hrun as ([] & w3 & _ & Hrun).
  by injection Hrun as <- _.
Qed.

Lemma iterdir_In f name nd :
  In (name, nd) (export_geodatabase.iterdir f) <-> f !! name = Some nd.
Proof.
  unfold export_geodatabase.iterdir.
  rewrite <- list_elem_of_In. apply elem_of_map_to_list.
Qed.

Lemma manifest_resolutions OUTPUT_DIR now w m w' :
  export_geodatabase.generate_manifest OUTPUT_DIR now w = (inr m, w') ->
  forall r,
    (is_Some (Dict.get (export_geodatabase.resolutions m) r)
     <-> exists name text, csv_of_resolution (fs w) r name text) /\
    (forall e, Dict.get (export_geodatabase.resolutions m) r = Some e ->
       exists name text,
         csv_of_resolution (fs w) r name text /\
         export_geodatabase.record_count e
         = (Z.of_nat (length (file_lines text)) - 1)%Z).
Proof.
  intros Hrun r. apply generate_manifest_inv in Hrun. split; [split|].
  - intros [e He].
    destruct (manifest_loop_sound _ _ _ _ Hrun r e He)
      as [Hnil|(name & ch & text & Hin & Hres & Hint & Hcsv & _)]; [discriminate|].
    exists name, text, ch. by rewrite <- iterdir_In.
  - intros (name & text & ch & Hdir & Hres & Hint & Hcsv).
    apply (manifest_loop_complete _ _ _ _ Hrun r). right.
    exists name, ch, text. by rewrite iterdir_In.
  - intros e He.
    destruct (manifest_loop_sound _ _ _ _ Hrun r e He)
      as [Hnil|(name & ch & text & Hin & Hres & Hint & Hcsv & Hcount)]; [discriminate|].
    exists name, text. split; [|done]. exists ch. by rewrite <- iterdir_In.
Qed.

(** C10: the manifest of the statistics exporter comes from a scan of
    the output directory.  A resolution is listed exactly when some
    directory whose name starts with "res" and reads as that resolution
    holds its CSV file, and the listed record count is the number of
    lines of such a file minus one.  So a CSV that an earlier run left
    for a resolution of which the current run exports no table is listed,
    with the count taken from that file. *)
Theorem manifest_scans_output_directory :
  (forall OUTPUT_DIR now w m w',
     export_geodatabase.generate_manifest OUTPUT_DIR now w = (inr m, w') ->
     forall r,
       (is_Some (Dict.get (export_geodatabase.resolutions m) r)
        <-> exists name text, csv_of_resolution (fs w) r name text) /\
       (forall e, Dict.get (export_geodatabase.resolutions m) r = Some e ->
          exists name text,
            csv_of_resolution (fs w) r name text /\
            export_geodatabase.record_count e
            = (Z.of_nat (length (file_lines text)) - 1)%Z))
  /\ (forall OUTPUT_DIR now imp gdb w w1 m w2 zstats_tables r text,
        export_geodatabase.export_with_arcpy OUTPUT_DIR imp gdb w = (inr true, w1) ->
        export_geodatabase.generate_manifest OUTPUT_DIR now w1 = (inr m, w2) ->
        export_geodatabase.filter_zstats (ListTables gdb) = inr zstats_tables ->
        (forall table part, ~ In (table, r, part) zstats_tables) ->
        csv_of_resolution (fs w) r (export_geodatabase.res_dir_name r) text ->
        (forall name text', csv_of_resolution (fs w) r name text' ->
                            name = export_geodatabase.res_dir_name r) ->
        exists e,
          Dict.get (export_geodatabase.resolutions m) r = Some e /\
          export_geodatabase.record_count e
          = (Z.of_nat (length (file_lines text)) - 1)%Z).
Proof.
  split; [apply manifest_resolutions|].
  intros OUTPUT_DIR now imp gdb w w1 m w2 zs r text Hexport Hmanifest Hzs Hnot Hold Huniq.
  apply export_with_arcpy_touches in Hexport as (zs' & Hzs' & Htouch).
  rewrite Hzs in Hzs'. injection Hzs' as <-.
  assert (forall name, startswith "res" name = true ->
            int_of_str (drop_str 3 name) = inr r ->
            fs w1 !! name = fs w !! name) as Hsame.
  { intros name Hres Hint.
    destruct (Htouch name) as [E|((table & res & part & Hin & ->) & _)]; [done|].
    destruct (res_dir_name_parses res) as [_ Hres'].
    rewrite Hres' in Hint. injection Hint as ->. by destruct (Hnot table part). }
  assert (forall name text', csv_of_resolution (fs w1) r name text'
                             <-> csv_of_resolution (fs w) r name text') as Hcsv.
  { intros name text'. unfold csv_of_resolution. split.
    - intros (ch & Hdir & Hres & Hint & Hfile). exists ch.
      by rewrite <- (Hsame name Hres Hint).
    - intros (ch & Hdir & Hres & Hint & Hfile). exists ch.
      by rewrite (Hsame name Hres Hint). }
  destruct (manifest_resolutions _ _ _ _ _ Hmanifest r) as [Hlisted Hcount].
  assert (is_Some (Dict.get (export_geodatabase.resolutions m) r)) as [e He].
  { apply Hlisted. exists (export_geodatabase.res_dir_name r), text. by apply Hcsv. }
  exists e. split; [done|].
  destruct (Hcount e He) as (name & text' & Hfile & ->).
  apply Hcsv in Hfile. pose proof (Huniq _ _ Hfile) as ->.
  destruct Hfile as (ch & Hdir & _ & _ & Hfile), Hold as (ch' & Hdir' & _ & _ & Hfile').
  congruence.
Qed.

Lemma manifest_scans_output_directory_witness :
  let OUTPUT_DIR := "data/exports" in
  let now := "2025-01-01T00:00:00" in
  let imp := export_geodatabase.Imports true false false in
  let exported := export_geodatabase.export_with_arcpy OUTPUT_DIR imp
                    Examples.gdb_no_zone_code Examples.world_old_res6 in
  let listed := export_geodatabase.generate_manifest OUTPUT_DIR now (snd exported) in
  exported = (inr true, snd exported) /\
  export_geodatabase.filter_zstats (ListTables Examples.gdb_no_zone_code)
    = inr [("ZStatsTable_h3_res5_part001", 5%Z, 1%Z)] /\
  (Z.of_nat (length (file_lines Examples.old_res6_csv)) - 1 = 2)%Z /\
  (exists m, listed = (inr m, snd listed) /\
     exists e, Dict.get (export_geodatabase.resolutions m) 6%Z = Some e /\
               export_geodatabase.record_count e
               = (Z.of_nat (length (file_lines Examples.old_res6_csv)) - 1)%Z).
Proof.
  intros OUTPUT_DIR now imp exported listed.
  assert (exported = (inr true, snd exported)) as Hexported
    by (vm_compute; reflexivity).
  split; [exact Hexported|]. split; [vm_compute; reflexivity|].
  split; [vm_compute; reflexivity|].
  assert (exists m, listed = (inr m, snd listed)) as [m Hlisted]
    by (eexists; vm_compute; reflexivity).
  exists m. split; [exact Hlisted|].
  assert (csv_of_resolution (fs Examples.world_old_res6) 6
            (export_geodatabase.res_dir_name 6) Examples.old_res6_csv) as Hold.
  { eexists. repeat split; vm_compute; reflexivity. }
  apply (proj2 manifest_scans_output_directory OUTPUT_DIR now imp
           Examples.gdb_no_zone_code Examples.world_old_res6 (snd exported) m
           (snd listed) [("ZStatsTable_h3_res5_part001", 5%Z, 1%Z)] 6%Z
           Examples.old_res6_csv Hexported Hlisted).
  - vm_compute. reflexivity.
  - intros table part [[= _ Hres _]|[]].
  - exact Hold.
  - intros name text' (ch & Hdir & Hres & Hint & Hfile).
    unfold Examples.world_old_res6 in Hdir. cbn [fs] in Hdir.
    destruct (decide (name = "res5")) as [->|Hne5].
    { vm_compute in Hint. discriminate. }
    rewrite lookup_insert_ne in Hdir by done.
    destruct (decide (name = "res6")) as [->|Hne6]; [reflexivity|].
    by rewrite lookup_singleton_ne in Hdir.
Defined.

Lemma jsonl_round_trip_witness :
  let run := export_resolution true Examples.gdb_majorities "out" 5
               "ZStatsTable_h3_res5_part*" Examples.empty_world in
  let all_records := [Record_ (PyStr "85283473fffffff") 111 "forest";
                      Record_ (PyStr "85283447fffffff") 0 "unknown";
                      Record_ (PyStr "8528340bfffffff") 999 "unknown";
                      Record_ (PyStr "85283443fffffff") (-1) "unknown"] in
  run = (inr (Some all_records), snd run) /\
  exists text,
    fs (snd run) !! jsonl_name 5 = Some (File text) /\
    JsonRead.read_jsonl text = map (fun r => Some (record_items r)) all_records.
Proof.
  intros run all_records.
  assert (run = (inr (Some all_records), snd run)) as Hrun
    by (vm_compute; reflexivity).
  split; [exact Hrun|].
  apply (proj2 jsonl_round_trip true Examples.gdb_majorities "out" 5%Z
           "ZStatsTable_h3_res5_part*" Examples.empty_world all_records (snd run)).
  exact Hrun.
Defined.

(** * Further properties *)

(** ** What a computation leaves of the output directory *)

Section keeps_facts.
Context (R : gmap string node -> gmap string node -> Prop).
Context (R_refl : forall f, R f f) (R_trans : forall f g h, R f g -> R g h -> R f h).

Lemma keeps_ret {A} (a : A) : keeps R (ret a).
Proof. intros w r w' [= _ <-]. apply R_refl. Qed.

Lemma keeps_raise {A} e : keeps R (@raise A e).
Proof. intros w r w' [= _ <-]. apply R_refl. Qed.

Lemma keeps_lift {A} (x : exn + A) : keeps R (lift x).
Proof. intros w r w' [= _ <-]. apply R_refl. Qed.

Lemma keeps_print line : keeps R (print line).
Proof. intros w r w' [= _ <-]. apply R_refl. Qed.

Lemma keeps_bind {A B} (m : M A) (k : A -> M B) :
  keeps R m -> (forall a, keeps R (k a)) -> keeps R (bind m k).
Proof.
  intros Hm Hk w r w'. unfold bind.
  destruct (m w) as [[e|a] w1] eqn:Hrun.
  - intros [= _ <-]. by eapply Hm.
  - intros Hrest. eapply R_trans; [by eapply Hm|by eapply Hk].
Qed.

Lemma keeps_for_each {A} (l : list A) (body : A -> M unit) :
  (forall x, In x l -> keeps R (body x)) -> keeps R (for_each l body).
Proof.
  induction l as [|x l IH]; intros Hbody; cbn [for_each].
  - apply keeps_ret.
  - apply keeps_bind; [apply Hbody; by left|].
    intros _. apply IH. intros y Hy. apply Hbody. by right.
Qed.

Lemma keeps_for_fold {A S} (l : list A) (body : S -> A -> M S) :
  (forall s x, In x l -> keeps R (body s x)) -> forall s, keeps R (for_fold l body s).
Proof.
  induction l as [|x l IH]; intros Hbody s; cbn [for_fold].
  - apply keeps_ret.
  - apply keeps_bind; [apply Hbody; by left|].
    intros s'. apply IH. intros s0 y Hy. apply Hbody. by right.
Qed.
End keeps_facts.

Lemma agree_outside_refl P f : agree_outside P f f.
Proof. by intros name _. Qed.

Lemma agree_outside_trans P f g h :
  agree_outside P f g -> agree_outside P g h -> agree_outside P f h.
Proof. intros Hfg Hgh name Hn. by rewrite (Hgh name Hn), (Hfg name Hn). Qed.

Lemma keeps_write_file (P : string -> Prop) name text :
  P name -> keeps (agree_outside P) (write_file name text).
Proof.
  intros HP w r w'. unfold write_file, bind, get_fs, put_fs, raise.
  destruct (fs w !! name) as [[t|ch]|]; intros [= _ <-]; cbn [fs];
    try apply agree_outside_refl;
    intros n Hn; apply lookup_insert_ne; by intros ->.
Qed.

Lemma keeps_write_file_in (P : string -> Prop) dir name text :
  P dir -> keeps (agree_outside P) (write_file_in dir name text).
Proof.
  intros HP w r w'. unfold write_file_in, bind, get_fs, put_fs, raise.
  destruct (fs w !! dir) as [[t|ch]|]; intros [= _ <-]; cbn [fs];
    try apply agree_outside_refl.
  intros n Hn. apply lookup_insert_ne. by intros ->.
Qed.

Lemma keeps_mkdir_exist_ok (P : string -> Prop) name :
  P name -> keeps (agree_outside P) (mkdir_exist_ok name).
Proof.
  intros HP w r w'. unfold mkdir_exist_ok, bind, get_fs, put_fs, raise, ret.
  destruct (fs w !! name) as [[t|ch]|]; intros [= _ <-]; cbn [fs];
    try apply agree_outside_refl.
  intros n Hn. apply lookup_insert_ne. by intros ->.
Qed.

(** Discharges [keeps (agree_outside P)] goals on sequences of prints,
    returns and raises. *)
Ltac keeps_auto :=
  repeat first
    [ apply keeps_print; apply agree_outside_refl
    | apply keeps_ret; apply agree_outside_refl
    | apply keeps_raise; apply agree_outside_refl
    | apply keeps_lift; apply agree_outside_refl
    | apply keeps_bind; [apply agree_outside_trans| |intros ?] ].

(** ** Land cover: the files a run can change *)

Lemma keeps_export_table P (USE_ARCPY : bool) gdb table_name :
  keeps (agree_outside P)
        (if USE_ARCPY then lift (export_table_arcpy gdb table_name None)
         else export_table_geopandas gdb table_name None).
Proof.
  destruct USE_ARCPY; [keeps_auto|].
  unfold export_table_geopandas. destruct (negb _); keeps_auto.
Qed.

Lemma keeps_table_loop P (USE_ARCPY : bool) gdb tables :
  keeps (agree_outside P) (table_loop USE_ARCPY gdb tables).
Proof.
  unfold table_loop.
  apply keeps_bind; [apply agree_outside_trans| |intros st; keeps_auto].
  apply keeps_for_fold; [apply agree_outside_refl|apply agree_outside_trans|].
  intros [i all_records] table_name _. unfold process_table.
  apply keeps_bind; [apply agree_outside_trans|keeps_auto|intros _].
  apply keeps_bind; [apply agree_outside_trans|apply keeps_export_table|intros records].
  keeps_auto.
Qed.

Lemma keeps_export_resolution (P : string -> Prop) (USE_ARCPY : bool) gdb output_dir
    resolution pattern :
  P (jsonl_name resolution) -> P (summary_name resolution) ->
  keeps (agree_outside P)
        (export_resolution USE_ARCPY gdb output_dir resolution pattern).
Proof.
  intros Hjsonl Hsummary. unfold export_resolution.
  apply keeps_bind; [apply agree_outside_trans|keeps_auto|intros _].
  apply keeps_bind; [apply agree_outside_trans|keeps_auto|intros _].
  destruct (find_tables USE_ARCPY gdb pattern) as [|t0 tables]; [keeps_auto|].
  apply keeps_bind; [apply agree_outside_trans|apply keeps_table_loop|intros all_records].
  apply keeps_bind; [apply agree_outside_trans|by apply keeps_write_file|intros _].
  apply keeps_bind; [apply agree_outside_trans|keeps_auto|intros _].
  apply keeps_bind; [apply agree_outside_trans|by apply keeps_write_file|intros _].
  keeps_auto.
Qed.

(** X1: whatever its outcome, normal or an exception, a call of
    [export_resolution] changes no entry of the output directory other
    than the JSON-lines file and the summary file of its resolution, and
    a whole run of the land-cover script changes no entry other than
    these files for the resolutions 3, 5 and 7 and [biome_colors.json]. *)
Theorem landcover_changes_only_its_files :
  (forall (USE_ARCPY : bool) gdb output_dir resolution pattern w r w' name,
     export_resolution USE_ARCPY gdb output_dir resolution pattern w = (r, w') ->
     name <> jsonl_name resolution -> name <> summary_name resolution ->
     fs w' !! name = fs w !! name)
  /\ (forall imp argv gdb w r w' name,
        script imp argv gdb w = (r, w') ->
        ~ In name ["biome_colors.json";
                   jsonl_name 3; summary_name 3; jsonl_name 5; summary_name 5;
                   jsonl_name 7; summary_name 7] ->
        fs w' !! name = fs w !! name).
Proof.
  split.
  - intros USE_ARCPY gdb output_dir resolution pattern w r w' name Hrun Hj Hs.
    apply (keeps_export_resolution
             (fun n => n = jsonl_name resolution \/ n = summary_name resolution)
             USE_ARCPY gdb output_dir resolution pattern (or_introl eq_refl)
             (or_intror eq_refl) w r w' Hrun name).
    by intros [?|?].
  - intros imp argv gdb w r w' name Hrun Hname.
    set (P := fun n => In n ["biome_colors.json";
                   jsonl_name 3; summary_name 3; jsonl_name 5; summary_name 5;
                   jsonl_name 7; summary_name 7]).
    assert (keeps (agree_outside P) (script imp argv gdb)) as Hkeeps.
    { unfold script.
      apply keeps_bind; [apply agree_outside_trans| |intros USE_ARCPY].
      { unfold import_backend. destruct (arcpy imp); [keeps_auto|].
        destruct (geopandas imp && fiona imp); keeps_auto. }
      unfold main. destruct (length argv <? 3)%nat; [keeps_auto|].
      unfold makedirs_exist_ok.
      apply keeps_bind; [apply agree_outside_trans|keeps_auto|intros _].
      apply keeps_bind; [apply agree_outside_trans|keeps_auto|intros _].
      apply keeps_bind; [apply agree_outside_trans|keeps_auto|intros _].
      apply keeps_bind; [apply agree_outside_trans| |intros _].
      { apply keeps_export_resolution; unfold P; cbn [In]; tauto. }
      apply keeps_bind; [apply agree_outside_trans| |intros _].
      { apply keeps_export_resolution; unfold P; cbn [In]; tauto. }
      apply keeps_bind; [apply agree_outside_trans| |intros _].
      { apply keeps_export_resolution; unfold P; cbn [In]; tauto. }
      apply keeps_bind; [apply agree_outside_trans| |intros _].
      { apply keeps_write_file. unfold P. cbn [In]. tauto. }
      keeps_auto. }
    by apply (Hkeeps w r w' Hrun name).
Qed.

(** ** Statistics: the entries a run can change *)

Lemma keeps_export_group_arcpy (P : string -> Prop) OUTPUT_DIR gdb resolution tables_list :
  P (export_geodatabase.res_dir_name resolution) ->
  keeps (agree_outside P)
        (export_geodatabase.export_group_arcpy OUTPUT_DIR gdb resolution tables_list).
Proof.
  intros HP. unfold export_geodatabase.export_group_arcpy.
  apply keeps_bind; [apply agree_outside_trans|keeps_auto|intros _].
  apply keeps_bind; [apply agree_outside_trans| |intros all_records].
  { apply keeps_for_fold; [apply agree_outside_refl|apply agree_outside_trans|].
    intros all_records [table_name part] _.
    unfold export_geodatabase.read_table_arcpy. keeps_auto. }
  apply keeps_bind; [apply agree_outside_trans|by apply keeps_write_file_in|intros _].
  apply keeps_bind; [apply agree_outside_trans|keeps_auto|intros _].
  apply keeps_bind; [apply agree_outside_trans|by apply keeps_write_file_in|intros _].
  keeps_auto.
Qed.

Lemma keeps_export_group_fiona (P : string -> Prop) OUTPUT_DIR gdb resolution layers_list :
  P (export_geodatabase.res_dir_name resolution) ->
  keeps (agree_outside P)
        (export_geodatabase.export_group_fiona OUTPUT_DIR gdb resolution layers_list).
Proof.
  intros HP. unfold export_geodatabase.export_group_fiona.
  apply keeps_bind; [apply agree_outside_trans|keeps_auto|intros _].
  apply keeps_bind; [apply agree_outside_trans| |intros all_dfs].
  { apply keeps_for_fold; [apply agree_outside_refl|apply agree_outside_trans|].
    intros all_dfs [layer_name part] _.
    unfold export_geodatabase.read_layer_fiona. keeps_auto. }
  apply keeps_bind; [apply agree_outside_trans|keeps_auto|intros combined].
  apply keeps_bind; [apply agree_outside_trans|by apply keeps_write_file_in|intros _].
  apply keeps_bind; [apply agree_outside_trans|keeps_auto|intros _].
  apply keeps_bind; [apply agree_outside_trans|keeps_auto|intros json_text].
  apply keeps_bind; [apply agree_outside_trans|by apply keeps_write_file_in|intros _].
  keeps_auto.
Qed.

(** X2: whatever its outcome and whichever backend runs, a run of the
    statistics exporter changes no entry of the output directory other
    than [manifest.json] and entries whose name starts with "res". *)
Theorem statistics_changes_only_res_entries OUTPUT_DIR now imp gdb w r w' name :
  export_geodatabase.main OUTPUT_DIR now imp gdb w = (r, w') ->
  name <> "manifest.json" -> startswith "res" name = false ->
  fs w' !! name = fs w !! name.
Proof.
  intros Hrun Hm Hres.
  set (P := fun n : string => n = "manifest.json" \/ startswith "res" n = true).
  assert (forall res, P (export_geodatabase.res_dir_name res)) as Hdir
    by (intros res; by right).
  assert (keeps (agree_outside P) (export_geodatabase.main OUTPUT_DIR now imp gdb))
    as Hkeeps.
  { unfold export_geodatabase.main.
    do 6 (apply keeps_bind; [apply agree_outside_trans|keeps_auto|intros _]).
    apply keeps_bind; [apply agree_outside_trans| |intros _].
    { unfold export_geodatabase.setup_output_dirs, makedirs_exist_ok.
      apply keeps_bind; [apply agree_outside_trans|keeps_auto|intros _].
      apply keeps_bind; [apply agree_outside_trans| |intros _; keeps_auto].
      apply keeps_for_each; [apply agree_outside_refl|apply agree_outside_trans|].
      intros res _. by apply keeps_mkdir_exist_ok. }
    apply keeps_bind; [apply agree_outside_trans| |intros success].
    { unfold export_geodatabase.export_with_arcpy.
      destruct (negb _); [keeps_auto|].
      destruct (ListTables gdb); [keeps_auto|].
      apply keeps_bind; [apply agree_outside_trans|keeps_auto|intros zs].
      apply keeps_bind; [apply agree_outside_trans|keeps_auto|intros _].
      apply keeps_bind; [apply agree_outside_trans| |intros _; keeps_auto].
      apply keeps_for_each; [apply agree_outside_refl|apply agree_outside_trans|].
      intros g _. by apply keeps_export_group_arcpy. }
    apply keeps_bind; [apply agree_outside_trans| |intros success'].
    { destruct (negb success); [|keeps_auto].
      apply keeps_bind; [apply agree_outside_trans|keeps_auto|intros _].
      unfold export_geodatabase.export_with_fiona.
      destruct (negb _); [keeps_auto|].
      apply keeps_bind; [apply agree_outside_trans|keeps_auto|intros _].
      apply keeps_bind; [apply agree_outside_trans|keeps_auto|intros _].
      apply keeps_bind; [apply agree_outside_trans|keeps_auto|intros zs].
      apply keeps_bind; [apply agree_outside_trans|keeps_auto|intros _].
      apply keeps_bind; [apply agree_outside_trans| |intros _; keeps_auto].
      apply keeps_for_each; [apply agree_outside_refl|apply agree_outside_trans|].
      intros g _. by apply keeps_export_group_fiona. }
    destruct success'; [|keeps_auto].
    apply keeps_bind; [apply agree_outside_trans| |intros manifest].
    { unfold export_geodatabase.generate_manifest.
      apply keeps_bind; [apply agree_outside_trans| |intros f].
      { intros w0 r0 w0' [= _ <-]. apply agree_outside_refl. }
      apply keeps_bind; [apply agree_outside_trans|keeps_auto|intros resolutions].
      apply keeps_bind; [apply agree_outside_trans| |intros _; keeps_auto].
      apply keeps_write_file. by left. }
    do 3 (apply keeps_bind; [apply agree_outside_trans|keeps_auto|intros _]).
    apply keeps_bind; [apply agree_outside_trans| |intros _; keeps_auto].
    apply keeps_for_each; [apply agree_outside_refl|apply agree_outside_trans|].
    intros ri _. keeps_auto. }
  apply (Hkeeps w r w' Hrun name). intros [?|Htrue]; [done|congruence].
Qed.

(** ** Statistics: table names *)

Lemma span_digits_spec s : forall d r,
  span_digits s = (d, r) -> s = d +:+ r /\ all_digits d = true.
Proof.
  induction s as [|c s IH]; intros d r; cbn [span_digits].
  - by intros [= <- <-].
  - destruct (is_digit c) eqn:Hc.
    + destruct (span_digits s) as [d' r'] eqn:Hs. intros [= <- <-].
      destruct (IH d' r' eq_refl) as [-> Hd']. split; [done|].
      cbn [all_digits]. by rewrite Hc, Hd'.
    + by intros [= <- <-].
Qed.

Lemma strip_prefix_spec p : forall s r,
  strip_prefix p s = Some r -> s = p +:+ r /\ startswith p s = true.
Proof.
  induction p as [|a p IH]; intros s r; cbn [strip_prefix startswith].
  - by intros [= <-].
  - destruct s as [|b s]; [discriminate|].
    destruct (Ascii.eqb a b) eqn:Hab; [|discriminate].
    apply Ascii.eqb_eq in Hab as <-. intros Hr.
    destruct (IH s r Hr) as [-> Hs]. by rewrite Hs.
Qed.

Lemma strip_prefix_app p s : strip_prefix p (p +:+ s) = Some s.
Proof.
  induction p as [|a p IH]; [done|].
  rewrite str_app_cons. cbn [strip_prefix]. by rewrite Ascii.eqb_refl.
Qed.

Lemma digits_value_nonneg s : forall acc,
  (0 <= acc)%Z -> all_digits s = true -> (0 <= digits_value acc s)%Z.
Proof.
  induction s as [|c s IH]; intros acc Hacc Hs; cbn [digits_value all_digits] in *;
    [done|].
  apply andb_true_iff in Hs as [Hc Hs]. apply IH; [|done].
  unfold is_digit in Hc. unfold digit_value.
  apply andb_true_iff in Hc as [Hc _]. apply N.leb_le in Hc. lia.
Qed.

(** [int] of a non-empty string of digits is its decimal value. *)
Lemma int_of_str_digits d :
  all_digits d = true -> d <> "" -> int_of_str d = inr (digits_value 0 d).
Proof.
  intros Hd Hne. unfold int_of_str, strip.
  rewrite lstrip_no_space, rstrip_no_space by by apply no_space_digits.
  destruct d as [|c d]; [done|].
  assert (is_digit c = true) as Hc.
  { cbn [all_digits] in Hd. by apply andb_true_iff in Hd as [? _]. }
  cbn [startswith]. rewrite !(is_digit_not c _ Hc) by done. cbn [andb].
  by rewrite (int_digits_nonempty _ _ Hd).
Qed.

Lemma match_TABLE_PATTERN_inv name g1 g2 :
  export_geodatabase.match_TABLE_PATTERN name = Some (g1, g2) ->
  startswith "ZStatsTable_h3_res" name = true /\
  all_digits g1 = true /\ g1 <> "" /\ all_digits g2 = true /\ g2 <> "".
Proof.
  unfold export_geodatabase.match_TABLE_PATTERN.
  destruct (strip_prefix "ZStatsTable_h3_res" name) as [rest|] eqn:Hpre;
    [|discriminate].
  apply strip_prefix_spec in Hpre as [_ Hstart]. cbn [mbind option_bind].
  destruct (span_digits rest) as [d1 rest1] eqn:H1.
  apply span_digits_spec in H1 as [_ Hd1].
  destruct (String.eqb d1 "") eqn:Hne1; [discriminate|].
  destruct (strip_prefix "_part" rest1) as [rest2|]; [|discriminate].
  cbn [mbind option_bind].
  destruct (span_digits rest2) as [d2 rest3] eqn:H2.
  apply span_digits_spec in H2 as [_ Hd2].
  destruct (String.eqb d2 "") eqn:Hne2; [discriminate|].
  intros [= <- <-]. apply String.eqb_neq in Hne1, Hne2. by repeat split.
Qed.

(** X3: the loop that keeps the zonal-statistics tables never raises:
    [int] accepts every digit group the pattern captures (table names
    are far shorter than the length at which [int] refuses a digit
    string).  The loop keeps, in listing order, exactly the names that
    match [TABLE_PATTERN]; every kept name starts with the literal prefix
    of the pattern, and its resolution and part are non-negative. *)
Theorem filter_zstats_total tables :
  exists zstats_tables,
    export_geodatabase.filter_zstats tables = inr zstats_tables /\
    map (fun x => fst (fst x)) zstats_tables
      = List.filter matches_TABLE_PATTERN tables /\
    forall table res part, In (table, res, part) zstats_tables ->
      startswith "ZStatsTable_h3_res" table = true /\ (0 <= res)%Z /\ (0 <= part)%Z.
Proof.
  induction tables as [|table tables (zs & Hzs & Hnames & Hall)].
  - exists []. by repeat split.
  - cbn [export_geodatabase.filter_zstats List.filter].
    unfold matches_TABLE_PATTERN at 1.
    destruct (export_geodatabase.match_TABLE_PATTERN table) as [[g1 g2]|] eqn:Hm.
    + destruct (match_TABLE_PATTERN_inv _ _ _ Hm) as (Hstart & Hd1 & Hn1 & Hd2 & Hn2).
      rewrite (int_of_str_digits _ Hd1 Hn1), (int_of_str_digits _ Hd2 Hn2), Hzs.
      cbn [rbind]. eexists. split; [reflexivity|]. split.
      * cbn [map fst]. by rewrite Hnames.
      * intros t r p [[= <- <- <-]|Hin]; [|by apply Hall].
        split; [done|]. split; by apply digits_value_nonneg.
    + exists zs. split; [done|]. split; [done|exact Hall].
Qed.

Lemma table_name_digits g1 g2 suffix :
  all_digits g1 = true -> g1 <> "" -> all_digits g2 = true -> g2 <> "" ->
  match suffix with String c _ => is_digit c = false | EmptyString => True end ->
  let name := "ZStatsTable_h3_res" +:+ g1 +:+ "_part" +:+ g2 +:+ suffix in
  export_geodatabase.filter_zstats [name]
    = inr [(name, digits_value 0 g1, digits_value 0 g2)].
Proof.
  intros Hd1 Hn1 Hd2 Hn2 Hsuffix name.
  assert (export_geodatabase.match_TABLE_PATTERN name = Some (g1, g2)) as Hm.
  { unfold export_geodatabase.match_TABLE_PATTERN, name.
    rewrite strip_prefix_app. cbn [mbind option_bind].
    rewrite (span_digits_app g1) by done.
    apply String.eqb_neq in Hn1, Hn2. rewrite Hn1, strip_prefix_app.
    cbn [mbind option_bind]. rewrite (span_digits_app g2) by done. by rewrite Hn2. }
  cbn [export_geodatabase.filter_zstats]. rewrite Hm.
  by rewrite (int_of_str_digits _ Hd1 Hn1), (int_of_str_digits _ Hd2 Hn2).
Qed.

Lemma str_of_int_nonneg z :
  (0 <= z)%Z ->
  all_digits (str_of_int z) = true /\ str_of_int z <> "" /\
  digits_value 0 (str_of_int z) = z.
Proof.
  intros Hz. destruct (str_of_int_shape z) as (ds & Heq & Hall & Hne & Hval & _).
  assert ((z <? 0)%Z = false) as Hneg by (apply Z.ltb_ge; lia).
  rewrite Hneg, str_app_nil_l in Heq. rewrite Heq.
  split; [done|]. split; [done|]. lia.
Qed.

(** X4: [TABLE_PATTERN] is anchored at the start only, and its digit
    groups are read as decimal numbers: a name made of the prefix, a
    non-empty run of digits, "_part", a second non-empty run of digits
    and any text that does not go on with a digit is kept with the values
    of the two runs, leading zeros dropped.  So the name formatted from a
    resolution and a part that are not negative is parsed back to them. *)
Theorem table_name_parsed :
  (forall g1 g2 suffix,
     all_digits g1 = true -> g1 <> "" -> all_digits g2 = true -> g2 <> "" ->
     match suffix with String c _ => is_digit c = false | EmptyString => True end ->
     let name := "ZStatsTable_h3_res" +:+ g1 +:+ "_part" +:+ g2 +:+ suffix in
     export_geodatabase.filter_zstats [name]
       = inr [(name, digits_value 0 g1, digits_value 0 g2)])
  /\ (forall res part,
        (0 <= res)%Z -> (0 <= part)%Z ->
        let name := "ZStatsTable_h3_res" +:+ str_of_int res
                    +:+ "_part" +:+ str_of_int part in
        export_geodatabase.filter_zstats [name] = inr [(name, res, part)]).
Proof.
  split; [apply table_name_digits|].
  intros res part Hres Hpart name.
  destruct (str_of_int_nonneg res Hres) as (Hd1 & Hn1 & Hv1).
  destruct (str_of_int_nonneg part Hpart) as (Hd2 & Hn2 & Hv2).
  pose proof (table_name_digits _ _ "" Hd1 Hn1 Hd2 Hn2 I) as Hparsed.
  cbv zeta in Hparsed. rewrite str_app_nil_r, Hv1, Hv2 in Hparsed. exact Hparsed.
Qed.

Lemma table_name_parsed_witness :
  export_geodatabase.filter_zstats ["ZStatsTable_h3_res5_part003_old"]
    = inr [("ZStatsTable_h3_res5_part003_old", 5%Z, 3%Z)].
Proof.
  apply (proj1 table_name_parsed "5" "003" "_old"); (reflexivity || discriminate).
Defined.

(** ** Statistics: the resolution groups *)

Lemma dict_set_keys {K V} `{EqDecision K} (d : Dict.dict K V) k v k0 :
  In k0 (map fst (Dict.set d k v)) -> k0 = k \/ In k0 (map fst d).
Proof.
  intros Hin. apply in_map_iff in Hin as ([k' v'] & <- & Hin).
  apply dict_set_In in Hin as [->|Hin]; [by left|right].
  apply in_map_iff. by exists (k', v').
Qed.

Lemma dict_set_NoDup {K V} `{EqDecision K} (d : Dict.dict K V) k v :
  NoDup (map fst d) -> NoDup (map fst (Dict.set d k v)).
Proof.
  induction d as [|[k' v'] d IH]; cbn [Dict.set map fst].
  - intros _. apply NoDup_singleton.
  - intros [Hk' Hd]%NoDup_cons. destruct (decide (k = k')) as [->|Hne]; cbn [map fst].
    + by apply NoDup_cons.
    + apply NoDup_cons. split; [|by apply IH].
      intros Hin%list_elem_of_In%dict_set_keys. destruct Hin as [->|Hin]; [done|].
      by apply Hk', list_elem_of_In.
Qed.

Lemma group_by_resolution_fold_get zs : forall (d : Dict.dict Z (list (string * Z))) res,
  Dict.get
    (fold_left
       (fun by_resolution '(table, res, part) =>
          let by_resolution :=
            match Dict.get by_resolution res with
            | None => Dict.set by_resolution res []
            | Some _ => by_resolution
            end in
          Dict.set by_resolution res
            (Dict.get_default by_resolution res [] ++ [(table, part)]))
       zs d) res
  = match Dict.get d res, tables_of_resolution zs res with
    | None, [] => None
    | None, l => Some l
    | Some l0, l => Some (l0 ++ l)
    end.
Proof.
  induction zs as [|[[table r] part] zs IH]; intros d res.
  - cbn [fold_left]. unfold tables_of_resolution. cbn [List.filter map].
    destruct (Dict.get d res); [by rewrite app_nil_r|done].
  - cbn [fold_left]. rewrite IH. unfold tables_of_resolution.
    cbn [List.filter fst snd].
    destruct (Z.eqb_spec r res) as [->|Hne].
    + rewrite dict_get_set_eq. cbn [map fst snd].
      destruct (Dict.get d res) as [l0|] eqn:Hd.
      * unfold Dict.get_default. rewrite Hd. by rewrite <- app_assoc.
      * unfold Dict.get_default. by rewrite dict_get_set_eq.
    + rewrite dict_get_set_ne by done.
      destruct (Dict.get d r); [done|]. by rewrite dict_get_set_ne.
Qed.

Lemma group_by_resolution_get zstats_tables res :
  Dict.get (export_geodatabase.group_by_resolution zstats_tables) res
  = match tables_of_resolution zstats_tables res with
    | [] => None
    | l => Some l
    end.
Proof.
  unfold export_geodatabase.group_by_resolution.
  rewrite group_by_resolution_fold_get. cbn [Dict.get].
  by destruct (tables_of_resolution zstats_tables res).
Qed.

Lemma group_by_resolution_NoDup zstats_tables :
  NoDup (map fst (export_geodatabase.group_by_resolution zstats_tables)).
Proof.
  unfold export_geodatabase.group_by_resolution.
  assert (NoDup (map fst ([] : Dict.dict Z (list (string * Z))))) as Hnil
    by constructor.
  revert Hnil. generalize ([] : Dict.dict Z (list (string * Z))).
  induction zstats_tables as [|[[table r] part] zs IH]; intros d Hd; [done|].
  cbn [fold_left]. apply IH.
  apply dict_set_NoDup. destruct (Dict.get d r); [done|by apply dict_set_NoDup].
Qed.

(** X5: the resolution groups partition the matching tables.  The group
    of a resolution holds exactly the tables parsed to that resolution,
    with their parts, in listing order; a resolution without table has no
    group, and no resolution has two groups. *)
Theorem groups_partition_tables zstats_tables :
  (forall res,
     Dict.get (export_geodatabase.group_by_resolution zstats_tables) res
     = match tables_of_resolution zstats_tables res with
       | [] => None
       | l => Some l
       end)
  /\ NoDup (map fst (export_geodatabase.group_by_resolution zstats_tables)).
Proof.
  split; [intros res; apply group_by_resolution_get|apply group_by_resolution_NoDup].
Qed.

(** ** Land cover: the class lookup and the row filter *)

(** X6: [get_biome_info] never raises on a null or an integer majority:
    a code of the class table gives its entry, every other integer and
    null give the entry of code 0.  A cell that holds the decimal text of
    an integer of at most 4300 digits, the longest text that [int]
    converts under the interpreter's default setting, is classified as
    that integer. *)
Theorem get_biome_info_lookup :
  (forall c info, Dict.get LANDCOVER_CLASSES c = Some info ->
                  get_biome_info (PyInt c) = inr info)
  /\ (forall c, Dict.get LANDCOVER_CLASSES c = None ->
                get_biome_info (PyInt c) = inr (ClassInfo "unknown" "#808080" "unknown"))
  /\ get_biome_info PyNone = inr (ClassInfo "unknown" "#808080" "unknown")
  /\ (forall z, (Z.abs z < 10 ^ 4300)%Z ->
                get_biome_info (PyStr (str_of_int z)) = get_biome_info (PyInt z)).
Proof.
  assert (forall c, get_biome_info (PyInt c)
                    = inr (Dict.get_default LANDCOVER_CLASSES c class_0)) as Hint.
  { intros c. unfold get_biome_info, code_of. cbn [truthy int].
    destruct (Z.eqb_spec c 0) as [->|Hne]; reflexivity. }
  split; [|split; [|split]].
  - intros c info Hget. rewrite Hint. unfold Dict.get_default. by rewrite Hget.
  - intros c Hget. rewrite Hint. unfold Dict.get_default. by rewrite Hget.
  - reflexivity.
  - intros z _. rewrite Hint. unfold get_biome_info, code_of. cbn [truthy int].
    destruct (str_of_int_shape z) as (ds & Heq & _ & Hne & _).
    assert (String.eqb (str_of_int z) "" = false) as ->.
    { apply String.eqb_neq. rewrite Heq. destruct ds; [done|].
      by destruct (z <? 0)%Z. }
    cbn [negb]. by rewrite int_of_str_of_int.
Qed.





(** ** Land cover: the summary agrees with the JSON-lines file *)

(** X8: when [export_resolution] returns records, the [total_tiles] of
    the summary file it wrote is the number of lines of the JSON-lines
    file it wrote, and that is the number of records returned. *)
Theorem summary_counts_jsonl_lines (USE_ARCPY : bool) gdb output_dir resolution
    pattern w recs w' :
  export_resolution USE_ARCPY gdb output_dir resolution pattern w
    = (inr (Some recs), w') ->
  exists text,
    fs w' !! jsonl_name resolution = Some (File text) /\
    length (file_lines text) = length recs /\
    fs w' !! summary_name resolution
    = Some (File (dumps_indent 2
                    (JDict [("resolution", JInt resolution);
                            ("total_tiles",
                             JInt (Z.of_nat (length (file_lines text))));
                            ("biome_colors", colors_json biome_colors)]))).
Proof.
  intros Hrun. apply export_resolution_inv in Hrun as (Hjsonl & Hsummary & _).
  exists (jsonl_text recs). rewrite file_lines_jsonl, length_map.
  by repeat split.
Qed.

Lemma summary_counts_jsonl_lines_witness :
  let run := export_resolution true Examples.gdb_majorities "out" 5
               "ZStatsTable_h3_res5_part*" Examples.empty_world in
  exists text,
    fs (snd run) !! jsonl_name 5 = Some (File text) /\
    length (file_lines text) = 4%nat /\
    fs (snd run) !! summary_name 5
    = Some (File (dumps_indent 2
                    (JDict [("resolution", JInt 5);
                            ("total_tiles",
                             JInt (Z.of_nat (length (file_lines text))));
                            ("biome_colors", colors_json biome_colors)]))).
Proof.
  intros run.
  apply (summary_counts_jsonl_lines true Examples.gdb_majorities "out" 5
           "ZStatsTable_h3_res5_part*" Examples.empty_world
           [Record_ (PyStr "85283473fffffff") 111 "forest";
            Record_ (PyStr "85283447fffffff") 0 "unknown";
            Record_ (PyStr "8528340bfffffff") 999 "unknown";
            Record_ (PyStr "85283443fffffff") (-1) "unknown"] (snd run)).
  vm_compute. reflexivity.
Defined.

Lemma landcover_changes_only_its_files_witness :
  let w := World {[ "notes.txt" := File "keep" ]} [] in
  let run := export_resolution true Examples.gdb_majorities "out" 5
               "ZStatsTable_h3_res5_part*" w in
  "notes.txt" <> jsonl_name 5 /\ "notes.txt" <> summary_name 5 /\
  fs (snd run) !! "notes.txt" = Some (File "keep").
Proof.
  intros w run.
  assert ("notes.txt" <> jsonl_name 5) as Hj by (vm_compute; discriminate).
  assert ("notes.txt" <> summary_name 5) as Hs by (vm_compute; discriminate).
  split; [exact Hj|]. split; [exact Hs|].
  rewrite (proj1 landcover_changes_only_its_files true Examples.gdb_majorities
             "out" 5%Z "ZStatsTable_h3_res5_part*" w (fst run) (snd run) "notes.txt"
             (surjective_pairing run) Hj Hs).
  vm_compute. reflexivity.
Defined.

Lemma statistics_changes_only_res_entries_witness :
  let w := World {[ "notes.txt" := File "keep" ]} [] in
  let run := export_geodatabase.main "data/exports" "2024-01-01T00:00:00"
               (export_geodatabase.Imports true false false) Examples.gdb_parts w in
  fs (snd run) !! "notes.txt" = Some (File "keep").
Proof.
  intros w run.
  rewrite (statistics_changes_only_res_entries "data/exports" "2024-01-01T00:00:00"
             (export_geodatabase.Imports true false false) Examples.gdb_parts
             w (fst run) (snd run) "notes.txt" (surjective_pairing run)).
  - vm_compute. reflexivity.
  - vm_compute. discriminate.
  - vm_compute. reflexivity.
Defined.

(** ** Statistics: the output directories *)

Lemma mkdir_exist_ok_any name w r w' :
  mkdir_exist_ok name w = (r, w') ->
  only_new_dirs (fs w) (fs w') /\ stdout w' = stdout w /\
  ((r = inr tt /\ exists ch, fs w' !! name = Some (Dir ch))
   \/ (r = inl FileExistsError /\ exists text, fs w !! name = Some (File text))).
Proof.
  unfold mkdir_exist_ok, bind, get_fs, put_fs, ret, raise.
  destruct (fs w !! name) as [[text|ch]|] eqn:Hn; intros [= <- <-]; cbn [fs stdout].
  - split; [apply only_new_dirs_refl|]. split; [done|]. right. by eauto.
  - split; [apply only_new_dirs_refl|]. split; [done|]. left. by eauto.
  - split; [|split; [done|]].
    + intros n. destruct (decide (name = n)) as [<-|Hne].
      * right. by rewrite lookup_insert_eq.
      * left. by rewrite lookup_insert_ne.
    + left. split; [done|]. exists ∅. apply lookup_insert_eq.
Qed.

Lemma for_each_mkdir_any {A} (g : A -> string) l : forall w r w',
  for_each l (fun x => mkdir_exist_ok (g x)) w = (r, w') ->
  only_new_dirs (fs w) (fs w') /\ stdout w' = stdout w /\
  ((r = inr tt /\ forall x, In x l -> exists ch, fs w' !! g x = Some (Dir ch))
   \/ (r = inl FileExistsError
       /\ exists x text, In x l /\ fs w !! g x = Some (File text))).
Proof.
  induction l as [|x0 l IH]; intros w r w' Hrun; cbn [for_each] in Hrun.
  - injection Hrun as <- <-. split; [apply only_new_dirs_refl|]. split; [done|].
    left. split; [done|]. by intros x [].
  - unfold bind in Hrun at 1.
    destruct (mkdir_exist_ok (g x0) w) as [[e|[]] w1] eqn:Hhead;
      apply mkdir_exist_ok_any in Hhead as (Hnew & Hout & Hcase).
    + injection Hrun as <- <-. destruct Hcase as [[[=] _]|[[= ->] (text & Hfile)]].
      split; [done|]. split; [done|]. right. split; [done|].
      exists x0, text. split; [by left|done].
    + destruct Hcase as [[_ (ch0 & Hdir0)]|[[=] _]].
      apply IH in Hrun as (Hnew' & Hout' & Hcase).
      split; [by eapply only_new_dirs_trans|]. split; [congruence|].
      destruct Hcase as [[-> Hdirs]|[-> (x & text & Hin & Hfile)]].
      * left. split; [done|]. intros x [<-|Hin]; [|by apply Hdirs].
        destruct (Hnew' (g x0)) as [E|[E _]]; [|congruence].
        exists ch0. congruence.
      * right. split; [done|]. exists x, text. split; [by right|].
        destruct (Hnew (g x)) as [E|[_ E]]; congruence.
Qed.

Lemma for_each_mkdir_again {A} (g : A -> string) l w :
  (forall x, In x l -> exists ch, fs w !! g x = Some (Dir ch)) ->
  for_each l (fun x => mkdir_exist_ok (g x)) w = (inr tt, w).
Proof.
  intros Hdirs. induction l as [|x0 l IH]; [done|].
  cbn [for_each]. destruct (Hdirs x0) as (ch & Hdir); [by left|].
  assert (mkdir_exist_ok (g x0) w = (inr tt, w)) as Hhead.
  { unfold mkdir_exist_ok, bind, get_fs. by rewrite Hdir. }
  rewrite (bind_run_inr _ _ _ _ _ Hhead). apply IH. intros x Hin. apply Hdirs. by right.
Qed.

(** X9: [setup_output_dirs] only adds empty directories, whatever its
    outcome.  It either completes, and then none of [res5] to [res9] was
    a regular file, all five are directories afterwards, the output
    directory is printed, and a second call changes nothing more; or it
    raises [FileExistsError] without printing, and then one of [res5] to
    [res9] was a regular file. *)
Theorem setup_output_dirs_outcome OUTPUT_DIR w r w' :
  export_geodatabase.setup_output_dirs OUTPUT_DIR w = (r, w') ->
  only_new_dirs (fs w) (fs w') /\
  ((r = inr tt
    /\ no_file_at (fs w) (map export_geodatabase.res_dir_name [5; 6; 7; 8; 9]%Z)
    /\ (forall res, In res [5; 6; 7; 8; 9]%Z ->
          exists ch, fs w' !! export_geodatabase.res_dir_name res = Some (Dir ch))
    /\ stdout w' = stdout w ++ ["Output directory: " +:+ OUTPUT_DIR]
    /\ export_geodatabase.setup_output_dirs OUTPUT_DIR w'
       = (inr tt, World (fs w') (stdout w' ++ ["Output directory: " +:+ OUTPUT_DIR])))
   \/ (r = inl FileExistsError /\ stdout w' = stdout w
       /\ exists res text, In res [5; 6; 7; 8; 9]%Z
            /\ fs w !! export_geodatabase.res_dir_name res = Some (File text))).
Proof.
  unfold export_geodatabase.setup_output_dirs, makedirs_exist_ok.
  rewrite bind_ret. intros Hrun. unfold bind in Hrun at 1.
  destruct (for_each _ _ w) as [[e|[]] w1] eqn:Hloop;
    apply for_each_mkdir_any in Hloop as (Hnew & Hout & Hcase).
  - injection Hrun as <- <-. split; [done|]. right.
    destruct Hcase as [[[=] _]|[[= ->] Hfile]]. by repeat split.
  - destruct Hcase as [[_ Hdirs]|[[=] _]].
    destruct w1 as [f1 out1]. unfold print in Hrun. injection Hrun as <- <-.
    cbn [fs stdout] in *. split; [done|]. left. split; [done|].
    split; [|split; [done|split; [by rewrite Hout|]]].
    + intros n text (res & <- & Hin)%in_map_iff Hfile.
      destruct (Hdirs res Hin) as (ch & Hdir).
      destruct (Hnew (export_geodatabase.res_dir_name res)) as [E|[E _]]; congruence.
    + rewrite bind_ret.
      rewrite (bind_run_inr _ _ _ _ _
                 (for_each_mkdir_again export_geodatabase.res_dir_name _
                    (World f1 (out1 ++ ["Output directory: " +:+ OUTPUT_DIR])) Hdirs)).
      reflexivity.
Qed.

Lemma setup_output_dirs_outcome_witness :
  let w := World {[ "res6" := File "not a directory" ]} [] in
  let run := export_geodatabase.setup_output_dirs "data/exports" w in
  run = (inl FileExistsError, World {[ "res5" := Dir ∅;
                                        "res6" := File "not a directory" ]} [])
  /\ only_new_dirs (fs w) (fs (snd run)).
Proof.
  intros w run. split; [vm_compute; reflexivity|].
  apply (setup_output_dirs_outcome "data/exports" w (fst run) (snd run)
           (surjective_pairing run)).
Defined.

(** ** Statistics: the manifest counts the records of a CSV file *)

Lemma no_eol_csv_double_quotes s :
  no_eol s = true -> no_eol (csv_double_quotes s) = true.
Proof.
  induction s as [|c s IH]; [done|]. cbn [no_eol csv_double_quotes].
  intros [Hc Hs]%andb_true_iff. destruct (Ascii.eqb c dquote).
  - cbn [no_eol]. by rewrite IH.
  - cbn [no_eol]. by rewrite Hc, IH.
Qed.

Lemma no_eol_csv_field lineterminator s :
  no_eol s = true -> no_eol (csv_field lineterminator s) = true.
Proof.
  intros Hs. unfold csv_field. destruct (csv_needs_quote lineterminator s); [|done].
  rewrite !no_eol_app. by rewrite no_eol_csv_double_quotes.
Qed.

Lemma no_eol_join_comma l :
  forallb no_eol l = true -> no_eol (join "," l) = true.
Proof.
  unfold join. induction l as [|x l IH]; [done|]. cbn [forallb String.concat].
  intros [Hx Hl]%andb_true_iff. destruct l as [|y l]; [done|].
  rewrite !no_eol_app, Hx. by rewrite IH.
Qed.

Lemma file_lines_go_crlf s : forall cur rest,
  no_eol s = true ->
  file_lines_go cur (s +:+ export_geodatabase.CRLF +:+ rest)
  = (cur +:+ s +:+ str1 LF) :: file_lines_go "" rest.
Proof.
  induction s as [|c s IH]; intros cur rest Hs.
  - by rewrite !str_app_nil_l.
  - cbn [no_eol] in Hs. apply andb_true_iff in Hs as [Hc Hs].
    apply andb_true_iff in Hc as [Hlf Hcr]. apply negb_true_iff in Hlf, Hcr.
    rewrite str_app_cons. cbn [file_lines_go]. rewrite Hlf, Hcr.
    rewrite IH by done. f_equal. unfold str1. by str_norm.
Qed.

Lemma csv_row_one_line a b fields rest :
  forallb no_eol (a :: b :: fields) = true ->
  length (file_lines_go "" (csv_row export_geodatabase.CRLF (a :: b :: fields) +:+ rest))
  = S (length (file_lines_go "" rest)).
Proof.
  intros Hall.
  assert (csv_row export_geodatabase.CRLF (a :: b :: fields)
          = join "," (map (csv_field export_geodatabase.CRLF) (a :: b :: fields))
            +:+ export_geodatabase.CRLF) as -> by (by destruct a).
  rewrite str_app_assoc, file_lines_go_crlf; [done|].
  apply no_eol_join_comma. rewrite forallb_forall in Hall.
  apply forallb_forall. intros x (y & <- & Hin)%in_map_iff.
  by apply no_eol_csv_field, Hall.
Qed.

Lemma cells_no_eol_fields r :
  cells_no_eol r = true ->
  forallb no_eol (map cell_str (export_geodatabase.record_values r)) = true.
Proof.
  unfold cells_no_eol. rewrite !forallb_forall.
  intros Hall x (v & <- & Hin)%in_map_iff. specialize (Hall v Hin).
  destruct v as [|z|s]; [done|apply no_eol_str_of_int|done].
Qed.

(** X10: for records whose cells hold no line break, the text of the CSV
    file has one line per record after the header line, so the count that
    [generate_manifest] takes from a directory holding this file is the
    number of records. *)
Theorem manifest_counts_csv_records all_records :
  forallb cells_no_eol all_records = true ->
  length (file_lines (export_geodatabase.csv_text all_records))
  = S (length all_records)
  /\ forall OUTPUT_DIR resolutions res children,
       children !! export_geodatabase.csv_name res
       = Some (export_geodatabase.csv_text all_records) ->
       export_geodatabase.manifest_step OUTPUT_DIR resolutions
         (export_geodatabase.res_dir_name res, Dir children)
       = inr (Dict.set resolutions res
                (export_geodatabase.ManifestEntry
                   (export_geodatabase.path2 OUTPUT_DIR
                      (export_geodatabase.res_dir_name res)
                      (export_geodatabase.csv_name res))
                   (export_geodatabase.path2 OUTPUT_DIR
                      (export_geodatabase.res_dir_name res)
                      (export_geodatabase.json_name res))
                   (Z.of_nat (length all_records)))).
Proof.
  intros Hall.
  assert (length (file_lines (export_geodatabase.csv_text all_records))
          = S (length all_records)) as Hlines.
  { unfold file_lines, export_geodatabase.csv_text, export_geodatabase.fieldnames.
    rewrite csv_row_one_line by reflexivity. f_equal.
    induction all_records as [|r recs IH]; [reflexivity|].
    cbn [forallb] in Hall. apply andb_true_iff in Hall as [Hr Hall].
    cbn [map]. rewrite join_empty_cons. cbn [length].
    pose proof (cells_no_eol_fields r Hr) as Hfields.
    unfold export_geodatabase.record_values in Hfields. cbn [map] in Hfields.
    etrans; [exact (csv_row_one_line _ _ _ _ Hfields)|]. by rewrite IH. }
  split; [exact Hlines|].
  intros OUTPUT_DIR resolutions res children Hcsv.
  unfold export_geodatabase.manifest_step.
  destruct (res_dir_name_parses res) as [-> ->]. cbn [rbind].
  rewrite Hcsv, Hlines. do 3 f_equal. lia.
Qed.

Lemma manifest_counts_csv_records_witness :
  length (file_lines (export_geodatabase.csv_text
            [export_geodatabase.Record_ (PyStr "85283473fffffff") PyNone (PyInt 12)
               (PyInt 2520) (PyInt 111) "part1";
             export_geodatabase.Record_ (PyStr "85283447fffffff") (PyInt 1) (PyInt 7)
               PyNone (PyStr "a,b") "part2"]))
  = 3%nat.
Proof.
  apply (proj1 (manifest_counts_csv_records
           [export_geodatabase.Record_ (PyStr "85283473fffffff") PyNone (PyInt 12)
              (PyInt 2520) (PyInt 111) "part1";
            export_geodatabase.Record_ (PyStr "85283447fffffff") (PyInt 1) (PyInt 7)
              PyNone (PyStr "a,b") "part2"] eq_refl)).
Defined.

(** ** Statistics: when the manifest is written *)

Lemma manifest_step_raises OUTPUT_DIR acc name ch :
  startswith "res" name = true ->
  int_of_str (drop_str 3 name) = inl ValueError ->
  export_geodatabase.manifest_step OUTPUT_DIR acc (name, Dir ch) = inl ValueError.
Proof. intros Hres Hint. unfold export_geodatabase.manifest_step. by rewrite Hres, Hint. Qed.

Lemma manifest_step_error OUTPUT_DIR acc entry e :
  export_geodatabase.manifest_step OUTPUT_DIR acc entry = inl e -> e = ValueError.
Proof.
  destruct entry as [name [text|ch]]; unfold export_geodatabase.manifest_step;
    [discriminate|].
  destruct (startswith "res" name); [|discriminate].
  unfold int_of_str.
  destruct (if startswith "-" (strip (drop_str 3 name)) then _ else _) as [z|];
    cbn [rbind].
  - by destruct (ch !! export_geodatabase.csv_name z).
  - by intros [= <-].
Qed.

Lemma manifest_loop_raises OUTPUT_DIR entries : forall acc name ch,
  In (name, Dir ch) entries -> startswith "res" name = true ->
  int_of_str (drop_str 3 name) = inl ValueError ->
  export_geodatabase.manifest_loop OUTPUT_DIR acc entries = inl ValueError.
Proof.
  induction entries as [|entry entries IH]; intros acc name ch Hin Hres Hint; [done|].
  cbn [export_geodatabase.manifest_loop].
  destruct (export_geodatabase.manifest_step OUTPUT_DIR acc entry) as [e|acc1] eqn:Hstep.
  - by rewrite (manifest_step_error _ _ _ _ Hstep).
  - cbn [rbind]. destruct Hin as [->|Hin]; [|by eapply IH].
    by rewrite manifest_step_raises in Hstep.
Qed.

Lemma manifest_loop_returns OUTPUT_DIR entries : forall acc,
  (forall name ch, In (name, Dir ch) entries -> startswith "res" name = true ->
                   exists r, int_of_str (drop_str 3 name) = inr r) ->
  exists resolutions,
    export_geodatabase.manifest_loop OUTPUT_DIR acc entries = inr resolutions.
Proof.
  induction entries as [|[name nd] entries IH]; intros acc Hall; [by eexists|].
  cbn [export_geodatabase.manifest_loop].
  assert (exists acc1, export_geodatabase.manifest_step OUTPUT_DIR acc (name, nd)
                       = inr acc1) as [acc1 ->].
  { unfold export_geodatabase.manifest_step. destruct nd as [text|ch]; [by eexists|].
    destruct (startswith "res" name) eqn:Hres; [|by eexists].
    destruct (Hall name ch (or_introl eq_refl) Hres) as [r ->]. cbn [rbind].
    destruct (ch !! export_geodatabase.csv_name r); by eexists. }
  cbn [rbind]. apply IH. intros n ch Hin. apply (Hall n ch). by right.
Qed.

(** X11: [generate_manifest] converts the name of every directory that
    starts with "res".  When one such directory has a suffix that [int]
    rejects, as [results] or [res] itself, the call raises [ValueError]
    and neither writes the manifest nor prints.  When every such suffix
    is an integer of at most 4300 characters, which [int] converts
    under the interpreter's default setting, the loop completes, and
    the manifest is written and announced unless [manifest.json] is a
    directory, in which case the call raises [IsADirectoryError]. *)
Theorem generate_manifest_outcome OUTPUT_DIR now w :
  (forall name ch,
     fs w !! name = Some (Dir ch) -> startswith "res" name = true ->
     int_of_str (drop_str 3 name) = inl ValueError ->
     export_geodatabase.generate_manifest OUTPUT_DIR now w = (inl ValueError, w))
  /\ ((forall name ch,
         fs w !! name = Some (Dir ch) -> startswith "res" name = true ->
         (String.length (drop_str 3 name) <= 4300)%nat /\
         exists r, int_of_str (drop_str 3 name) = inr r) ->
      exists resolutions,
        export_geodatabase.manifest_loop OUTPUT_DIR []
          (export_geodatabase.iterdir (fs w)) = inr resolutions /\
        let m := export_geodatabase.Manifest now export_geodatabase.GDB_PATH
                   resolutions in
        export_geodatabase.generate_manifest OUTPUT_DIR now w
        = match fs w !! "manifest.json" with
          | Some (Dir _) => (inl IsADirectoryError, w)
          | _ => (inr m,
                  World (<["manifest.json" :=
                             File (dumps_indent 2 (export_geodatabase.manifest_json m))]>
                           (fs w))
                        (stdout w ++ [str1 LF +:+ "Manifest written to "
                                      +:+ OUTPUT_DIR +:+ "/manifest.json"]))
          end).
Proof.
  split.
  - intros name ch Hdir Hres Hint. unfold export_geodatabase.generate_manifest.
    unfold bind at 1, get_fs. unfold bind at 1, lift.
    by rewrite (manifest_loop_raises OUTPUT_DIR _ [] name ch
                  (proj2 (iterdir_In _ _ _) Hdir) Hres Hint).
  - intros Hall.
    destruct (manifest_loop_returns OUTPUT_DIR (export_geodatabase.iterdir (fs w)) [])
      as [resolutions Hloop].
    { intros name ch Hin Hres.
      by destruct (Hall name ch (proj1 (iterdir_In _ _ _) Hin) Hres) as [_ Hint]. }
    exists resolutions. split; [done|]. intros m.
    unfold export_geodatabase.generate_manifest.
    unfold bind at 1, get_fs. unfold bind at 1, lift. rewrite Hloop.
    unfold bind at 1, write_file. unfold bind at 1, get_fs.
    destruct w as [f out]. cbn [fs stdout].
    destruct (f !! "manifest.json") as [[text|ch]|]; reflexivity.
Qed.

Lemma generate_manifest_outcome_witness :
  export_geodatabase.generate_manifest "data/exports" "2024-01-01T00:00:00"
    (World {[ "results" := Dir ∅ ]} [])
  = (inl ValueError, World {[ "results" := Dir ∅ ]} []).
Proof.
  apply (proj1 (generate_manifest_outcome "data/exports" "2024-01-01T00:00:00"
                  (World {[ "results" := Dir ∅ ]} [])) "results" ∅);
    vm_compute; reflexivity.
Defined.

(** ** Land cover: where the two backends agree and where they differ *)

Lemma row_loop_no_h3 {A} (majority : A -> pyval) rows : forall recs,
  row_loop recs (map (fun row => (PyNone, majority row)) rows) = inr recs.
Proof. induction rows as [|row rows IH]; intros recs; [done|]. cbn. apply IH. Qed.

Lemma row_loop_no_majority {A} (h3_index : A -> pyval) rows : forall recs,
  row_loop recs (map (fun row => (h3_index row, PyNone)) rows)
  = inr (recs ++ map (fun h => Record_ h 0 "unknown")
                     (List.filter truthy (map h3_index rows))).
Proof.
  induction rows as [|row rows IH]; intros recs.
  - cbn. by rewrite app_nil_r.
  - cbn [map row_loop List.filter]. unfold append_row.
    destruct (truthy (h3_index row)); cbn [rbind get_biome_info code_of truthy].
    + rewrite IH. cbn [map]. by rewrite <- app_assoc.
    + apply IH.
Qed.

Lemma row_loop_runs rows : forall recs,
  (forall h m, In (h, m) rows -> match m with PyStr _ => False | _ => True end) ->
  exists recs', row_loop recs rows = inr recs'.
Proof.
  induction rows as [|[h m] rows IH]; intros recs Hrows; [by eexists|].
  cbn [row_loop]. unfold append_row, get_biome_info, code_of.
  assert (match m with PyStr _ => False | _ => True end) as Hm
    by (apply (Hrows h m); by left).
  assert (exists c, (if truthy m then int m else inr 0%Z) = inr c) as [c ->].
  { destruct m as [|z|s]; [by eexists| |done]. cbn [truthy int]. destruct (negb _); by eexists. }
  cbn [rbind]. destruct (truthy h); cbn [rbind]; apply IH; intros h' m' Hin;
    apply (Hrows h' m'); by right.
Qed.

(** Where no row with a true [h3_index] holds NaN as its majority, the
    loop over the frame is the loop over the cells. *)
Lemma row_loop_frame_scalar t rows : forall recs,
  (forall row, In row rows ->
     truthy (cell (tbl_fields t) row "h3_index") = true ->
     numeric_column t "MAJORITY" = true ->
     cell (tbl_fields t) row "MAJORITY" <> PyNone) ->
  row_loop_frame recs (map (fun row => (cell (tbl_fields t) row "h3_index",
                                        row_get t row "MAJORITY")) rows)
  = row_loop recs (map (fun row => (cell (tbl_fields t) row "h3_index",
                                    cell (tbl_fields t) row "MAJORITY")) rows).
Proof.
  induction rows as [|row rows IH]; intros recs Hrows; [done|].
  cbn [map row_loop_frame row_loop].
  assert (append_row_frame recs (cell (tbl_fields t) row "h3_index")
                           (row_get t row "MAJORITY")
          = append_row recs (cell (tbl_fields t) row "h3_index")
                       (cell (tbl_fields t) row "MAJORITY")) as ->.
  { pose proof (Hrows row (or_introl eq_refl)) as Hrow.
    unfold append_row_frame, row_get.
    destruct (cell (tbl_fields t) row "MAJORITY") as [|z|m]; [|done..].
    destruct (numeric_column t "MAJORITY"); [|done].
    unfold append_row.
    destruct (truthy (cell (tbl_fields t) row "h3_index")); [|done].
    by destruct Hrow. }
  destruct (append_row _ _ _) as [e|recs1]; [done|]. cbn [rbind].
  apply IH. intros row' Hin. apply Hrows. by right.
Qed.

Lemma numeric_column_no_text t f row :
  numeric_column t f = true -> In row (tbl_rows t) ->
  match cell (tbl_fields t) row f with PyStr _ => False | _ => True end.
Proof.
  unfold numeric_column. intros [_ Hall]%andb_true_iff Hrow.
  rewrite forallb_forall in Hall. specialize (Hall row Hrow).
  by destruct (cell (tbl_fields t) row f).
Qed.

(** X12: the two table exporters of the land-cover script give the same
    outcome for a table that has both columns and no number in
    [h3_index], unless the frame that geopandas builds holds NaN as the
    [MAJORITY] of a row with a true [h3_index], which is a null among
    the numbers of that column.  They differ elsewhere:
    on such a null the arcpy exporter gives a record of code 0 and
    biome "unknown", while the geopandas exporter raises [ValueError];
    for a table that does not exist, and for a table without an
    [h3_index] or a [MAJORITY] column, the arcpy exporter raises
    [RuntimeError], while the geopandas exporter returns no record for a
    missing table (with a warning) or a missing [h3_index] column, and
    for a missing [MAJORITY] column one record of code 0 and biome
    "unknown" per row with a true [h3_index], the column holding no
    number. *)
Theorem landcover_backends_compared gdb table_name w :
  (forall t, find_layer gdb table_name = Some t ->
     mem "h3_index" (tbl_fields t) = true -> mem "MAJORITY" (tbl_fields t) = true ->
     text_h3_index t = true ->
     (forall row, In row (tbl_rows t) ->
        truthy (cell (tbl_fields t) row "h3_index") = true ->
        numeric_column t "MAJORITY" = true ->
        cell (tbl_fields t) row "MAJORITY" <> PyNone) ->
     export_table_geopandas gdb table_name None w
     = lift (export_table_arcpy gdb table_name None) w)
  /\ (find_layer gdb table_name = None ->
      export_table_arcpy gdb table_name None = inl RuntimeError /\
      export_table_geopandas gdb table_name None w
      = (inr [], World (fs w)
                   (stdout w ++ ["  Warning: " +:+ table_name
                                 +:+ " not found in geodatabase"])))
  /\ (forall t, find_layer gdb table_name = Some t ->
        mem "h3_index" (tbl_fields t) = false ->
        export_table_arcpy gdb table_name None = inl RuntimeError /\
        export_table_geopandas gdb table_name None w = (inr [], w))
  /\ (forall t, find_layer gdb table_name = Some t ->
        mem "MAJORITY" (tbl_fields t) = false ->
        text_h3_index t = true ->
        export_table_arcpy gdb table_name None = inl RuntimeError /\
        export_table_geopandas gdb table_name None w
        = (inr (map (fun h => Record_ h 0 "unknown")
                    (List.filter truthy
                       (map (fun row => cell (tbl_fields t) row "h3_index")
                            (tbl_rows t)))), w))
  /\ (forall t row, find_layer gdb table_name = Some t ->
        mem "h3_index" (tbl_fields t) = true -> mem "MAJORITY" (tbl_fields t) = true ->
        numeric_column t "MAJORITY" = true ->
        In row (tbl_rows t) ->
        truthy (cell (tbl_fields t) row "h3_index") = true ->
        cell (tbl_fields t) row "MAJORITY" = PyNone ->
        (exists recs,
           export_table_arcpy gdb table_name None = inr recs /\
           In (Record_ (cell (tbl_fields t) row "h3_index") 0 "unknown") recs) /\
        export_table_geopandas gdb table_name None w = (inl ValueError, w)).
Proof.
  assert (forall t, find_layer gdb table_name = Some t ->
            export_table_geopandas gdb table_name None w
            = (row_loop_frame []
                 (map (fun row => (cell (tbl_fields t) row "h3_index",
                                   row_get t row "MAJORITY"))
                      (tbl_rows t)), w)) as Hgeo.
  { intros t Ht. unfold export_table_geopandas.
    rewrite (find_layer_mem _ _ _ Ht). cbn [negb]. unfold read_layer. rewrite Ht.
    by rewrite bind_lift. }
  assert (forall t, find_layer gdb table_name = Some t ->
            mem "h3_index" (tbl_fields t) = true ->
            mem "MAJORITY" (tbl_fields t) = true ->
            export_table_arcpy gdb table_name None
            = row_loop [] (map (fun row => (cell (tbl_fields t) row "h3_index",
                                            cell (tbl_fields t) row "MAJORITY"))
                               (tbl_rows t))) as Harc.
  { intros t Ht Hh3 Hmaj. unfold export_table_arcpy, SearchCursor. rewrite Ht.
    cbn [forallb]. rewrite Hh3, Hmaj. cbn [andb rbind]. by rewrite map_map. }
  split; [|split; [|split; [|split]]].
  - intros t Ht Hh3 Hmaj _ Hrows. rewrite (Hgeo t Ht).
    unfold lift. rewrite (Harc t Ht Hh3 Hmaj).
    by rewrite (row_loop_frame_scalar t (tbl_rows t) [] Hrows).
  - intros Hnone. split.
    + unfold export_table_arcpy, SearchCursor. by rewrite Hnone.
    + unfold export_table_geopandas. by rewrite (find_layer_none _ _ Hnone).
  - intros t Ht Hh3. split.
    + unfold export_table_arcpy, SearchCursor. rewrite Ht. cbn [forallb].
      by rewrite Hh3.
    + rewrite (Hgeo t Ht).
      rewrite row_loop_frame_scalar.
      * unfold cell at 1. rewrite (index_not_mem _ _ Hh3).
        by rewrite row_loop_no_h3.
      * intros row _ Htrue. unfold cell in Htrue.
        by rewrite (index_not_mem _ _ Hh3) in Htrue.
  - intros t Ht Hmaj _. split.
    + unfold export_table_arcpy, SearchCursor. rewrite Ht. cbn [forallb].
      rewrite Hmaj. by rewrite andb_false_r.
    + rewrite (Hgeo t Ht).
      rewrite row_loop_frame_scalar.
      * unfold cell at 2. rewrite (index_not_mem _ _ Hmaj).
        by rewrite (row_loop_no_majority
                      (fun row => cell (tbl_fields t) row "h3_index")).
      * intros row Hrow _ Hnum.
        assert (existsb (fun row => match cell (tbl_fields t) row "MAJORITY" with
                                    | PyInt _ => true
                                    | _ => false
                                    end) (tbl_rows t) = false) as Hnone.
        { apply not_true_iff_false. intros (r & _ & Hr)%existsb_exists.
          unfold cell in Hr. by rewrite (index_not_mem _ _ Hmaj) in Hr. }
        unfold numeric_column in Hnum. by rewrite Hnone in Hnum.
  - intros t row Ht Hh3 Hmaj Hnum Hrow Htrue Hnull. split.
    + rewrite (Harc t Ht Hh3 Hmaj).
      destruct (row_loop_runs
                  (map (fun row => (cell (tbl_fields t) row "h3_index",
                                    cell (tbl_fields t) row "MAJORITY")) (tbl_rows t)) [])
        as [recs Hloop].
      { intros h m (row' & [= <- <-] & Hrow')%in_map_iff.
        by apply numeric_column_no_text. }
      exists recs. split; [exact Hloop|].
      apply row_loop_rows in Hloop as (new & -> & Hnew). cbn [app].
      destruct (Forall2_In_l _ _ _ row Hnew) as (r & Hr & Hh & Hcode & Hbiome).
      { apply filter_In. by split. }
      rewrite Hnull in Hcode. cbn in Hcode. injection Hcode as Hcode.
      destruct r as [h c b]. cbn [h3 code biome] in *. subst h c b. exact Hr.
    + rewrite (Hgeo t Ht).
      rewrite (row_loop_frame_nan _ [] (cell (tbl_fields t) row "h3_index"));
        [done| |done].
      apply in_map_iff. exists row. split; [|done]. f_equal.
      unfold row_get. by rewrite Hnull, Hnum.
Qed.

Lemma landcover_backends_compared_witness :
  (export_table_arcpy Examples.gdb_bad_res3 "ZStatsAsTable_h3_res3_part01" None
   = inl RuntimeError /\
   export_table_geopandas Examples.gdb_bad_res3 "ZStatsAsTable_h3_res3_part01" None
     Examples.empty_world
   = (inr [Record_ (PyStr "830000fffffffff") 0 "unknown"], Examples.empty_world)) /\
  ((exists recs,
      export_table_arcpy Examples.gdb_majorities "ZStatsTable_h3_res5_part001" None
      = inr recs /\
      In (Record_ (PyStr "85283447fffffff") 0 "unknown") recs) /\
   export_table_geopandas Examples.gdb_majorities "ZStatsTable_h3_res5_part001" None
     Examples.empty_world
   = (inl ValueError, Examples.empty_world)).
Proof.
  split.
  - apply (proj1 (proj2 (proj2 (proj2 (landcover_backends_compared Examples.gdb_bad_res3
                                  "ZStatsAsTable_h3_res3_part01" Examples.empty_world))))
             (Table "ZStatsAsTable_h3_res3_part01" ["h3_index"]
                [[PyStr "830000fffffffff"]]));
      vm_compute; reflexivity.
  - apply (proj2 (proj2 (proj2 (proj2 (landcover_backends_compared Examples.gdb_majorities
                                  "ZStatsTable_h3_res5_part001" Examples.empty_world))))
             (Table "ZStatsTable_h3_res5_part001" ["h3_index"; "MAJORITY"]
                [[PyStr "85283473fffffff"; PyInt 111];
                 [PyStr "85283447fffffff"; PyNone];
                 [PyStr "8528340bfffffff"; PyInt 999];
                 [PyStr "85283443fffffff"; PyInt (-1)]])
             [PyStr "85283447fffffff"; PyNone]);
      try (vm_compute; reflexivity).
    right. by left.
Defined.

(** ** Statistics: when a run under arcpy completes *)

Section completes_facts.
Context (I : gmap string node -> Prop).

Lemma completes_ret {A} (a : A) : completes I (ret a).
Proof. intros w Hw. by exists a, w. Qed.

Lemma completes_print line : completes I (print line).
Proof. intros w Hw. by eexists tt, _. Qed.

Lemma completes_bind {A B} (m : M A) (k : A -> M B) :
  completes I m -> (forall a, completes I (k a)) -> completes I (bind m k).
Proof.
  intros Hm Hk w Hw. destruct (Hm w Hw) as (a & w1 & Hrun & Hw1).
  destruct (Hk a w1 Hw1) as (b & w2 & Hrun2 & Hw2).
  exists b, w2. split; [|done]. by rewrite (bind_run_inr _ _ _ _ _ Hrun).
Qed.

Lemma completes_for_each {A} (body : A -> M unit) l :
  (forall x, In x l -> completes I (body x)) -> completes I (for_each l body).
Proof.
  induction l as [|x l IH]; intros Hbody; cbn [for_each].
  - apply completes_ret.
  - apply completes_bind; [apply Hbody; by left|intros _; apply IH].
    intros y Hy. apply Hbody. by right.
Qed.

Lemma completes_for_fold {A S} (body : S -> A -> M S) l :
  (forall x s, In x l -> completes I (body s x)) ->
  forall s, completes I (for_fold l body s).
Proof.
  induction l as [|x l IH]; intros Hbody s; cbn [for_fold].
  - apply completes_ret.
  - apply completes_bind; [apply Hbody; by left|intros s'; apply IH].
    intros y s0 Hy. apply Hbody. by right.
Qed.

(** An invariant that does not look into the directories is kept by a
    write into a directory that exists. *)
Lemma completes_write_file_in dir name text :
  (forall f ch ch', f !! dir = Some (Dir ch) -> I f -> I (<[dir := Dir ch']> f)) ->
  (forall f, I f -> exists ch, f !! dir = Some (Dir ch)) ->
  completes I (write_file_in dir name text).
Proof.
  intros Hstable Hdir w Hw. destruct (Hdir _ Hw) as (ch & Hch).
  exists tt, (World (<[dir := Dir (<[name := text]> ch)]> (fs w)) (stdout w)).
  split.
  - unfold write_file_in, bind, get_fs, put_fs. by rewrite Hch.
  - cbn [fs]. by eapply Hstable.
Qed.

Lemma completes_read_table_arcpy gdb all_records table_name part t :
  find_layer gdb table_name = Some t ->
  completes I (export_geodatabase.read_table_arcpy gdb all_records table_name part).
Proof.
  intros Ht w Hw. unfold export_geodatabase.read_table_arcpy, ListFields.
  rewrite Ht, bind_lift. cbn beta zeta. unfold SearchCursor.
  rewrite Ht, forallb_mem_self, bind_lift.
  eexists _, _. split; [reflexivity|]. exact Hw.
Qed.

End completes_facts.

Lemma find_layer_listed gdb name :
  In name (ListTables gdb) -> exists t, find_layer gdb name = Some t.
Proof.
  unfold ListTables, find_layer, layers. intros (t & Hname & Hin)%in_map_iff.
  destruct (List.find _ _) as [t'|] eqn:Hfind; [by eexists|].
  pose proof (find_none _ _ Hfind t (in_or_app _ _ _ (or_introl Hin))) as Hne.
  cbn beta in Hne. rewrite Hname, String.eqb_refl in Hne. discriminate.
Qed.

Lemma dict_In_get {K V} `{EqDecision K} (d : Dict.dict K V) k v :
  NoDup (map fst d) -> In (k, v) d -> Dict.get d k = Some v.
Proof.
  induction d as [|[k' v'] d IH]; [intros _ []|].
  cbn [map fst Dict.get]. intros [Hk' Hd]%NoDup_cons Hin.
  destruct (decide (k = k')) as [->|Hne].
  - destruct Hin as [[= ->]|Hin]; [done|].
    destruct Hk'. apply list_elem_of_In, in_map_iff. by exists (k', v).
  - destruct Hin as [[= -> ->]|Hin]; [done|by apply IH].
Qed.

Lemma group_members zstats_tables res l :
  In (res, l) (export_geodatabase.group_by_resolution zstats_tables) ->
  forall table part, In (table, part) l -> In (table, res, part) zstats_tables.
Proof.
  intros Hin table part Htp.
  apply (dict_In_get _ _ _ (group_by_resolution_NoDup zstats_tables)) in Hin.
  rewrite group_by_resolution_get in Hin.
  assert (l = tables_of_resolution zstats_tables res) as ->
    by (destruct (tables_of_resolution zstats_tables res); congruence).
  unfold tables_of_resolution in Htp.
  apply in_map_iff in Htp as ([[t r] p] & [= <- <-] & Hf).
  apply filter_In in Hf as [Hf Hres]. cbn [fst snd] in Hres.
  by apply Z.eqb_eq in Hres as <-.
Qed.

Lemma group_listed zstats_tables table res part :
  In (table, res, part) zstats_tables ->
  exists l, In (res, l) (export_geodatabase.group_by_resolution zstats_tables).
Proof.
  intros Hin. pose proof (group_by_resolution_get zstats_tables res) as Hget.
  assert (In (table, part) (tables_of_resolution zstats_tables res)) as Hm.
  { unfold tables_of_resolution. apply in_map_iff. exists (table, res, part).
    split; [done|]. apply filter_In. split; [done|]. cbn [fst snd]. apply Z.eqb_refl. }
  destruct (tables_of_resolution zstats_tables res) as [|x l]; [destruct Hm|].
  exists (x :: l). by apply dict_get_In.
Qed.

Lemma filter_zstats_names tables : forall zstats_tables table res part,
  export_geodatabase.filter_zstats tables = inr zstats_tables ->
  In (table, res, part) zstats_tables -> In table tables.
Proof.
  induction tables as [|t tables IH]; intros zs table res part Hrun Hin;
    cbn [export_geodatabase.filter_zstats] in Hrun.
  - injection Hrun as <-. destruct Hin.
  - destruct (export_geodatabase.match_TABLE_PATTERN t) as [[g1 g2]|].
    + apply rbind_inr in Hrun as (r & _ & Hrun).
      apply rbind_inr in Hrun as (p & _ & Hrun).
      apply rbind_inr in Hrun as (rest & Hrest & Hrun). injection Hrun as <-.
      destruct Hin as [[= <- <- <-]|Hin]; [by left|right; by eapply IH].
    + right. by eapply IH.
Qed.

Lemma for_each_print_run {A} (g : A -> string) l : forall f out,
  for_each l (fun x => print (g x)) (World f out) = (inr tt, World f (out ++ map g l)).
Proof.
  induction l as [|x l IH]; intros f out; cbn [for_each map].
  - by rewrite app_nil_r.
  - rewrite bind_print, IH. by rewrite <- app_assoc.
Qed.

Lemma for_each_preserves {A} (J : gmap string node -> Prop) (body : A -> M unit) l :
  (forall x wa wb, In x l -> body x wa = (inr tt, wb) -> J (fs wa) -> J (fs wb)) ->
  forall w w', for_each l body w = (inr tt, w') -> J (fs w) -> J (fs w').
Proof.
  induction l as [|x l IH]; intros Hbody w w' Hrun Hw; cbn [for_each] in Hrun.
  - by injection Hrun as <-.
  - apply bind_inr in Hrun as ([] & w1 & Hx & Hrun).
    apply (IH (fun y wa wb Hy => Hbody y wa wb (or_intror Hy)) w1 w' Hrun).
    by apply (Hbody x w w1); [left| |].
Qed.

Lemma for_each_establishes {A} (J : gmap string node -> Prop) (body : A -> M unit)
    x0 l :
  (forall x wa wb, In x l -> body x wa = (inr tt, wb) -> J (fs wa) -> J (fs wb)) ->
  (forall wa wb, body x0 wa = (inr tt, wb) -> J (fs wb)) ->
  In x0 l ->
  forall w w', for_each l body w = (inr tt, w') -> J (fs w').
Proof.
  induction l as [|x l IH]; intros Hbody Hx0 Hin w w' Hrun; [destruct Hin|].
  cbn [for_each] in Hrun. apply bind_inr in Hrun as ([] & w1 & Hx & Hrun).
  destruct Hin as [->|Hin].
  - apply (for_each_preserves J body l
             (fun y wa wb Hy => Hbody y wa wb (or_intror Hy)) w1 w' Hrun).
    by apply (Hx0 w w1).
  - by apply (IH (fun y wa wb Hy => Hbody y wa wb (or_intror Hy)) Hx0 Hin w1 w').
Qed.

Lemma export_group_arcpy_files OUTPUT_DIR gdb resolution tables_list w w' :
  export_geodatabase.export_group_arcpy OUTPUT_DIR gdb resolution tables_list w
    = (inr tt, w') ->
  has_files resolution (fs w').
Proof.
  intros Hrun. unfold export_geodatabase.export_group_arcpy in Hrun.
  apply bind_inr in Hrun as ([] & w1 & _ & Hrun).
  apply bind_inr in Hrun as (all_records & w2 & _ & Hrun).
  apply bind_inr in Hrun as ([] & w3 & Hcsv & Hrun).
  apply write_file_in_inv in Hcsv as (ch & Hdir & ->).
  apply bind_inr in Hrun as ([] & w4 & Hp2 & Hrun). apply print_inv in Hp2.
  apply bind_inr in Hrun as ([] & w5 & Hjson & Hrun).
  apply write_file_in_inv in Hjson as (ch' & Hdir' & ->).
  apply print_inv in Hrun. subst w' w4. cbn [fs] in *.
  rewrite lookup_insert_eq in Hdir'. injection Hdir' as <-.
  eexists _, _, _. split; [apply lookup_insert_eq|]. split.
  - rewrite lookup_insert_ne by (intros Heq; by apply (csv_json_ne resolution)).
    apply lookup_insert_eq.
  - apply lookup_insert_eq.
Qed.

Lemma export_with_arcpy_files OUTPUT_DIR imp gdb zstats_tables w w1 :
  export_geodatabase.export_with_arcpy OUTPUT_DIR imp gdb w = (inr true, w1) ->
  export_geodatabase.filter_zstats (ListTables gdb) = inr zstats_tables ->
  forall table res part, In (table, res, part) zstats_tables -> has_files res (fs w1).
Proof.
  unfold export_geodatabase.export_with_arcpy. intros Hrun Hzs table res part Hin.
  destruct (negb (export_geodatabase.arcpy imp)).
  { apply bind_inr in Hrun as ([] & w0 & _ & Hrun). discriminate. }
  destruct (ListTables gdb) as [|t0 tables] eqn:Htables.
  { apply bind_inr in Hrun as ([] & w0 & _ & Hrun). discriminate. }
  apply bind_inr in Hrun as (zs & w0 & Hz & Hrun). apply lift_inr in Hz as [Hz ->].
  rewrite Hzs in Hz. injection Hz as <-.
  apply bind_inr in Hrun as ([] & w2 & _ & Hrun).
  apply bind_inr in Hrun as ([] & w3 & Hloop & Hrun). injection Hrun as <-.
  destruct (group_listed _ _ _ _ Hin) as (l & Hgroup).
  apply (for_each_establishes (has_files res)
           (fun g => export_geodatabase.export_group_arcpy OUTPUT_DIR gdb (fst g) (snd g))
           (res, l)
           (sorted_by fst (export_geodatabase.group_by_resolution zstats_tables)))
    with (w := w2) (w' := w3); [| | |exact Hloop].
  - intros [r l'] wa wb _ Hbody Hfiles. cbn [fst snd] in Hbody.
    destruct (decide (r = res)) as [->|Hne].
    + by apply export_group_arcpy_files in Hbody.
    + apply export_group_arcpy_touches in Hbody.
      destruct (Hbody (export_geodatabase.res_dir_name res)) as [E|[Heq _]].
      * unfold has_files. by rewrite E.
      * by apply res_dir_name_inj in Heq.
  - intros wa wb Hbody. cbn [fst snd] in Hbody.
    by apply export_group_arcpy_files in Hbody.
  - by apply (Permutation_in _ (Permutation_sym (sorted_by_perm fst _))).
Qed.

Lemma export_ready_stable res f ch ch' :
  f !! export_geodatabase.res_dir_name res = Some (Dir ch) ->
  export_ready f ->
  export_ready (<[export_geodatabase.res_dir_name res := Dir ch']> f).
Proof.
  intros Hdir (Hdirs & Hparse & Hmanifest). split; [|split].
  - intros n Hn. destruct (decide (export_geodatabase.res_dir_name res = n)) as [<-|Hne].
    + rewrite lookup_insert_eq. by eexists.
    + rewrite lookup_insert_ne by done. by apply Hdirs.
  - intros name c Hc Hstart.
    destruct (decide (export_geodatabase.res_dir_name res = name)) as [<-|Hne].
    + by apply (Hparse _ ch).
    + rewrite lookup_insert_ne in Hc by done. by apply (Hparse _ c).
  - intros c Hc.
    destruct (decide (export_geodatabase.res_dir_name res = "manifest.json"))
      as [Heq|Hne].
    + rewrite Heq in Hdir. by destruct (Hmanifest ch).
    + rewrite lookup_insert_ne in Hc by done. by destruct (Hmanifest c).
Qed.

Lemma res_dir_name_made res :
  (5 <= res <= 9)%Z ->
  In (export_geodatabase.res_dir_name res)
     (map export_geodatabase.res_dir_name [5; 6; 7; 8; 9]%Z).
Proof. intros Hres. apply in_map. cbn [In]. lia. Qed.

Lemma completes_export_group_arcpy OUTPUT_DIR gdb resolution tables_list :
  (forall tp, In tp tables_list -> exists t, find_layer gdb (fst tp) = Some t) ->
  (5 <= resolution <= 9)%Z ->
  completes export_ready
    (export_geodatabase.export_group_arcpy OUTPUT_DIR gdb resolution tables_list).
Proof.
  intros Htables Hres. unfold export_geodatabase.export_group_arcpy.
  assert (forall name text,
            completes export_ready
              (write_file_in (export_geodatabase.res_dir_name resolution) name text))
    as Hwrite.
  { intros name text. apply completes_write_file_in.
    - intros f ch ch'. apply export_ready_stable.
    - intros f (Hdirs & _). by apply Hdirs, res_dir_name_made. }
  apply completes_bind; [apply completes_print|intros _].
  apply completes_bind.
  { apply completes_for_fold. intros tp s Hin.
    destruct (Htables tp) as (t & Ht).
    - by apply (Permutation_in _ (sorted_by_perm snd _)).
    - by eapply completes_read_table_arcpy. }
  intros all_records.
  apply completes_bind; [apply Hwrite|intros _].
  apply completes_bind; [apply completes_print|intros _].
  apply completes_bind; [apply Hwrite|intros _].
  apply completes_print.
Qed.

Lemma export_with_arcpy_runs OUTPUT_DIR imp gdb zstats_tables w :
  export_geodatabase.arcpy imp = true ->
  ListTables gdb <> [] ->
  export_geodatabase.filter_zstats (ListTables gdb) = inr zstats_tables ->
  (forall table res part, In (table, res, part) zstats_tables -> (5 <= res <= 9)%Z) ->
  export_ready (fs w) ->
  exists w', export_geodatabase.export_with_arcpy OUTPUT_DIR imp gdb w = (inr true, w')
             /\ export_ready (fs w').
Proof.
  intros Harcpy Hlisted Hzs Hrange Hready.
  assert (forall table res part, In (table, res, part) zstats_tables ->
            exists t, find_layer gdb table = Some t) as Hfind.
  { intros table res part Hin.
    by apply find_layer_listed, (filter_zstats_names _ _ _ _ _ Hzs Hin). }
  unfold export_geodatabase.export_with_arcpy. rewrite Harcpy. cbn [negb].
  destruct (ListTables gdb) as [|t0 tables]; [done|].
  rewrite Hzs, bind_lift. destruct w as [f out]. rewrite bind_print.
  destruct (completes_for_each export_ready
              (fun g => export_geodatabase.export_group_arcpy OUTPUT_DIR gdb (fst g) (snd g))
              (sorted_by fst (export_geodatabase.group_by_resolution zstats_tables)))
    with (w := World f (out ++ ["Found " +:+ export_geodatabase.len zstats_tables
                                +:+ " zonal statistics tables"]))
    as ([] & w' & Hrun & Hready'); [|exact Hready|].
  - intros [res l] Hg%(Permutation_in _ (sorted_by_perm fst _)). cbn [fst snd].
    apply completes_export_group_arcpy.
    + intros [table part] Htp. cbn [fst].
      by apply (Hfind table res part), (group_members _ _ _ Hg).
    + destruct (group_by_resolution_keys _ _ _ Hg) as (table & part & Hin).
      by apply (Hrange table res part).
  - exists w'. split; [|done]. by rewrite (bind_run_inr _ _ _ _ _ Hrun).
Qed.

Lemma setup_output_dirs_runs OUTPUT_DIR w :
  no_file_at (fs w) (map export_geodatabase.res_dir_name [5; 6; 7; 8; 9]%Z) ->
  (forall name ch, fs w !! name = Some (Dir ch) -> startswith "res" name = true ->
                   exists r, int_of_str (drop_str 3 name) = inr r) ->
  (forall ch, fs w !! "manifest.json" <> Some (Dir ch)) ->
  exists w1, export_geodatabase.setup_output_dirs OUTPUT_DIR w = (inr tt, w1)
             /\ export_ready (fs w1).
Proof.
  intros Hnofile Hparse Hmanifest.
  unfold export_geodatabase.setup_output_dirs, makedirs_exist_ok. rewrite bind_ret.
  destruct (for_each [5; 6; 7; 8; 9]%Z
              (fun res => mkdir_exist_ok (export_geodatabase.res_dir_name res)) w)
    as [r w1] eqn:Hloop.
  pose proof (for_each_mkdir_any export_geodatabase.res_dir_name _ _ _ _ Hloop)
    as (_ & _ & Hcase).
  assert (agree_outside
            (fun n => In n (map export_geodatabase.res_dir_name [5; 6; 7; 8; 9]%Z))
            (fs w) (fs w1)) as Hagree.
  { eapply (keeps_for_each (agree_outside _) (agree_outside_refl _)
              (agree_outside_trans _)); [|exact Hloop].
    intros res Hres. apply keeps_mkdir_exist_ok. by apply in_map. }
  destruct Hcase as [[-> Hdirs]|[-> (x & text & Hx & Hfile)]].
  2:{ destruct (Hnofile (export_geodatabase.res_dir_name x) text); [by apply in_map|done]. }
  eexists. split; [by rewrite (bind_run_inr _ _ _ _ _ Hloop)|].
  cbn [print fs]. split; [|split].
  - intros n (res & <- & Hres)%in_map_iff. by apply Hdirs.
  - intros name ch Hdir Hstart.
    destruct (in_dec String.string_dec name
                (map export_geodatabase.res_dir_name [5; 6; 7; 8; 9]%Z))
      as [(res & <- & _)%in_map_iff|Hnot].
    + exists res. apply res_dir_name_parses.
    + rewrite (Hagree name Hnot) in Hdir. by apply (Hparse name ch).
  - intros ch Hdir. rewrite Hagree in Hdir; [by destruct (Hmanifest ch)|].
    intros (res & Heq & _)%in_map_iff.
    apply (f_equal (startswith "res")) in Heq.
    rewrite (proj1 (res_dir_name_parses res)) in Heq. discriminate.
Qed.

Lemma generate_manifest_returns OUTPUT_DIR now f out :
  (forall name ch, f !! name = Some (Dir ch) -> startswith "res" name = true ->
                   exists r, int_of_str (drop_str 3 name) = inr r) ->
  (forall ch, f !! "manifest.json" <> Some (Dir ch)) ->
  exists m,
    export_geodatabase.generate_manifest OUTPUT_DIR now (World f out)
    = (inr m,
       World (<["manifest.json" :=
                  File (dumps_indent 2 (export_geodatabase.manifest_json m))]> f)
             (out ++ [str1 LF +:+ "Manifest written to "
                      +:+ OUTPUT_DIR +:+ "/manifest.json"])).
Proof.
  intros Hparse Hmanifest.
  destruct (manifest_loop_returns OUTPUT_DIR (export_geodatabase.iterdir f) [])
    as [resolutions Hloop].
  { intros name ch Hin. apply (Hparse name ch). by apply iterdir_In. }
  exists (export_geodatabase.Manifest now export_geodatabase.GDB_PATH resolutions).
  unfold export_geodatabase.generate_manifest.
  unfold bind at 1, get_fs. unfold bind at 1, lift. cbn [fs]. rewrite Hloop.
  unfold bind at 1, write_file. unfold bind at 1, get_fs. cbn [fs].
  destruct (f !! "manifest.json") as [[text|ch]|] eqn:Hm; [reflexivity| |reflexivity].
  by destruct (Hmanifest ch).
Qed.

(** X13: given that the output directory exists or can be made, a run
    of the statistics exporter under arcpy completes when the
    geodatabase lists a table, every matching table has a resolution
    from 5 to 9, none of [res5] to [res9] is a regular file, the name of
    every directory that starts with "res" goes on with an integer of
    at most 4300 characters, which [int] converts under the
    interpreter's default setting, and [manifest.json] is not a
    directory.  The run returns normally, the manifest is written, and
    the directory of every resolution that has a matching table holds
    its CSV and its JSON file. *)
Theorem statistics_arcpy_run_completes OUTPUT_DIR now imp gdb zstats_tables w :
  export_geodatabase.arcpy imp = true ->
  ListTables gdb <> [] ->
  export_geodatabase.filter_zstats (ListTables gdb) = inr zstats_tables ->
  (forall table res part, In (table, res, part) zstats_tables -> (5 <= res <= 9)%Z) ->
  no_file_at (fs w) (map export_geodatabase.res_dir_name [5; 6; 7; 8; 9]%Z) ->
  (forall name ch, fs w !! name = Some (Dir ch) -> startswith "res" name = true ->
                   (String.length (drop_str 3 name) <= 4300)%nat /\
                   exists r, int_of_str (drop_str 3 name) = inr r) ->
  (forall ch, fs w !! "manifest.json" <> Some (Dir ch)) ->
  exists w',
    export_geodatabase.main OUTPUT_DIR now imp gdb w = (inr tt, w') /\
    (exists text, fs w' !! "manifest.json" = Some (File text)) /\
    forall table res part, In (table, res, part) zstats_tables -> has_files res (fs w').
Proof.
  intros Harcpy Hlisted Hzs Hrange Hnofile Hbounded Hmanifest.
  assert (forall name ch, fs w !! name = Some (Dir ch) -> startswith "res" name = true ->
                          exists r, int_of_str (drop_str 3 name) = inr r) as Hparse.
  { intros name ch Hdir Hres. by destruct (Hbounded name ch Hdir Hres) as [_ Hint]. }
  clear Hbounded.
  destruct w as [f out]. cbn [fs] in Hnofile, Hparse, Hmanifest.
  unfold export_geodatabase.main. rewrite !bind_print.
  match goal with
  | |- context [bind (export_geodatabase.setup_output_dirs _) _ ?w0] =>
      destruct (setup_output_dirs_runs OUTPUT_DIR w0 Hnofile Hparse Hmanifest)
        as (w1 & Hrun1 & Hready1)
  end.
  rewrite (bind_run_inr _ _ _ _ _ Hrun1).
  destruct (export_with_arcpy_runs OUTPUT_DIR imp gdb zstats_tables w1
              Harcpy Hlisted Hzs Hrange Hready1) as (w2 & Hrun2 & Hready2).
  rewrite (bind_run_inr _ _ _ _ _ Hrun2). cbn [negb]. rewrite bind_ret.
  pose proof (export_with_arcpy_files _ _ _ _ _ _ Hrun2 Hzs) as Hfiles.
  destruct w2 as [f2 out2]. cbn [fs] in Hready2, Hfiles.
  destruct Hready2 as (_ & Hparse2 & Hmanifest2).
  destruct (generate_manifest_returns OUTPUT_DIR now f2 out2 Hparse2 Hmanifest2)
    as (m & Hrun3).
  rewrite (bind_run_inr _ _ _ _ _ Hrun3), !bind_print.
  rewrite (bind_run_inr _ _ _ _ _ (for_each_print_run _ _ _ _)).
  eexists. split; [reflexivity|]. cbn [print fs]. split.
  - eexists. apply lookup_insert_eq.
  - intros table res part Hin.
    destruct (Hfiles table res part Hin) as (ch & csv & json & Hdir & Hcsv & Hjson).
    exists ch, csv, json. split; [|done].
    rewrite lookup_insert_ne; [done|]. intros Heq.
    apply (f_equal (startswith "res")) in Heq.
    rewrite (proj1 (res_dir_name_parses res)) in Heq. discriminate.
Qed.

Lemma statistics_arcpy_run_completes_witness :
  exists w',
    export_geodatabase.main "data/exports" "2024-01-01T00:00:00"
      (export_geodatabase.Imports true false false) Examples.gdb_parts
      Examples.empty_world = (inr tt, w') /\
    (exists text, fs w' !! "manifest.json" = Some (File text)) /\
    forall table res part,
      In (table, res, part) [("ZStatsTable_h3_res5_part002", 5, 2);
                             ("ZStatsTable_h3_res5_part001", 5, 1)]%Z ->
      has_files res (fs w').
Proof.
  apply (statistics_arcpy_run_completes "data/exports" "2024-01-01T00:00:00"
           (export_geodatabase.Imports true false false) Examples.gdb_parts
           [("ZStatsTable_h3_res5_part002", 5, 2);
            ("ZStatsTable_h3_res5_part001", 5, 1)]%Z Examples.empty_world).
  - reflexivity.
  - vm_compute. discriminate.
  - vm_compute. reflexivity.
  - intros table res part [[= <- <- <-]|[[= <- <- <-]|[]]]; lia.
  - intros n text _ Hfile. vm_compute in Hfile. discriminate.
  - intros name ch Hdir. vm_compute in Hdir. discriminate.
  - intros ch Hdir. vm_compute in Hdir. discriminate.
Defined.

(** ** Land cover: when a run completes *)

Lemma completes_write_file names name text :
  In name names -> completes (no_dir_at names) (write_file name text).
Proof.
  intros Hname w Hw.
  exists tt, (World (<[name := File text]> (fs w)) (stdout w)). split.
  - unfold write_file, bind, get_fs, put_fs.
    destruct (fs w !! name) as [[t|ch]|] eqn:Hn; [done| |done].
    by destruct (Hw name ch).
  - intros n ch Hn. cbn [fs]. destruct (decide (name = n)) as [<-|Hne].
    + by rewrite lookup_insert_eq.
    + rewrite lookup_insert_ne by done. by apply Hw.
Qed.

Lemma find_tables_found (USE_ARCPY : bool) gdb pattern name :
  In name (find_tables USE_ARCPY gdb pattern) ->
  exists t, find_layer gdb name = Some t /\ In t (layers gdb).
Proof.
  intros Hin.
  assert (In name (listlayers gdb)) as Hlisted.
  { unfold find_tables, ListTables_matching, ListFeatureClasses_matching in Hin.
    unfold listlayers, layers. rewrite map_app. destruct USE_ARCPY.
    - apply in_app_or in Hin as [Hin|Hin]; apply list_elem_of_In, list_elem_of_filter in Hin
        as [_ Hin]; apply list_elem_of_In in Hin; apply in_or_app; [by left|by right].
    - apply list_elem_of_In, list_elem_of_filter in Hin as [_ Hin].
      apply list_elem_of_In in Hin. unfold listlayers, layers in Hin.
      by rewrite map_app in Hin. }
  unfold find_layer. destruct (List.find _ _) as [t|] eqn:Hfind.
  - exists t. split; [done|]. by destruct (find_some _ _ Hfind).
  - apply mem_In in Hlisted. by rewrite (find_layer_none _ _ Hfind) in Hlisted.
Qed.

Lemma completes_export_table I (USE_ARCPY : bool) gdb table_name t :
  find_layer gdb table_name = Some t -> table_ok t = true ->
  completes I (if USE_ARCPY then lift (export_table_arcpy gdb table_name None)
               else export_table_geopandas gdb table_name None).
Proof.
  intros Ht Hok. unfold table_ok in Hok.
  apply andb_true_iff in Hok as [Hcols Hrows].
  apply andb_true_iff in Hcols as [Hcols _].
  apply andb_true_iff in Hcols as [Hh3 Hmaj].
  destruct (row_loop_runs
              (map (fun row => (cell (tbl_fields t) row "h3_index",
                                cell (tbl_fields t) row "MAJORITY")) (tbl_rows t)) [])
    as [recs Hloop].
  { intros h m (row & [= <- <-] & Hrow)%in_map_iff.
    rewrite forallb_forall in Hrows. specialize (Hrows row Hrow).
    by destruct (cell (tbl_fields t) row "MAJORITY"). }
  intros w Hw. exists recs, w. split; [|done]. destruct USE_ARCPY.
  - unfold lift, export_table_arcpy, SearchCursor. rewrite Ht. cbn [forallb].
    rewrite Hh3, Hmaj. cbn [andb rbind]. rewrite map_map. cbn [map nth].
    by rewrite Hloop.
  - unfold export_table_geopandas. rewrite (find_layer_mem _ _ _ Ht). cbn [negb].
    unfold read_layer. rewrite Ht, bind_lift.
    rewrite row_loop_frame_scalar; [by rewrite Hloop|].
    intros row Hrow _ Hnum Hnull.
    rewrite forallb_forall in Hrows. specialize (Hrows row Hrow).
    by rewrite Hnull, Hnum in Hrows.
Qed.

Lemma completes_export_resolution (USE_ARCPY : bool) gdb output_dir resolution pattern :
  Forall (fun t => table_ok t = true) (layers gdb) ->
  In (jsonl_name resolution) landcover_outputs ->
  In (summary_name resolution) landcover_outputs ->
  completes (no_dir_at landcover_outputs)
            (export_resolution USE_ARCPY gdb output_dir resolution pattern).
Proof.
  intros Hok Hjsonl Hsummary. unfold export_resolution.
  apply completes_bind; [apply completes_print|intros _].
  apply completes_bind; [apply completes_print|intros _].
  assert (completes (no_dir_at landcover_outputs)
            (table_loop USE_ARCPY gdb (find_tables USE_ARCPY gdb pattern))) as Hloop.
  { unfold table_loop.
    apply completes_bind; [|intros st; apply completes_ret].
    apply completes_for_fold. intros table_name [i all_records] Hin.
    destruct (find_tables_found _ _ _ _ Hin) as (t & Ht & Hlayer).
    rewrite Forall_forall in Hok. unfold process_table.
    apply completes_bind; [apply completes_print|intros _].
    apply completes_bind; [|intros records].
    { apply (completes_export_table _ _ _ _ t Ht). by apply Hok, list_elem_of_In. }
    apply completes_bind; [apply completes_print|intros _]. apply completes_ret. }
  destruct (find_tables USE_ARCPY gdb pattern) as [|t0 tables].
  { apply completes_bind; [apply completes_print|intros _]. apply completes_ret. }
  apply completes_bind; [exact Hloop|intros all_records].
  apply completes_bind; [by apply completes_write_file|intros _].
  apply completes_bind; [apply completes_print|intros _].
  apply completes_bind; [by apply completes_write_file|intros _].
  apply completes_ret.
Qed.

Lemma export_resolution_files (USE_ARCPY : bool) gdb output_dir resolution pattern
    w a w' :
  export_resolution USE_ARCPY gdb output_dir resolution pattern w = (inr a, w') ->
  find_tables USE_ARCPY gdb pattern <> [] ->
  has_landcover_files resolution (fs w').
Proof.
  intros Hrun Hfound.
  assert (exists recs, a = Some recs) as [recs ->].
  { unfold export_resolution in Hrun.
    apply bind_inr in Hrun as ([] & w1 & _ & Hrun).
    apply bind_inr in Hrun as ([] & w2 & _ & Hrun).
    destruct (find_tables USE_ARCPY gdb pattern) as [|t0 tables]; [done|].
    apply bind_inr in Hrun as (recs & w3 & _ & Hrun).
    apply bind_inr in Hrun as ([] & w4 & _ & Hrun).
    apply bind_inr in Hrun as ([] & w5 & _ & Hrun).
    apply bind_inr in Hrun as ([] & w6 & _ & Hrun).
    injection Hrun as <- _. by eexists. }
  apply export_resolution_inv in Hrun as (Hjsonl & Hsummary & _).
  by eexists _, _.
Qed.

Lemma has_landcover_files_agree names resolution f f' :
  agree_outside (fun n => In n names) f f' ->
  ~ In (jsonl_name resolution) names -> ~ In (summary_name resolution) names ->
  has_landcover_files resolution f -> has_landcover_files resolution f'.
Proof.
  intros Hagree Hj Hs (jsonl & summary & Hjsonl & Hsummary).
  exists jsonl, summary. by rewrite (Hagree _ Hj), (Hagree _ Hs).
Qed.

(** X14: given that the output directory exists or can be made, a run
    of the land-cover script completes when one backend can be
    imported, two arguments are given, every table and feature class of
    the geodatabase has the columns [h3_index] and [MAJORITY], with no
    number in [h3_index], no string in [MAJORITY] and no null in a
    [MAJORITY] column that holds numbers, and none of the seven output
    names is a directory.  The run returns normally, [biome_colors.json] holds the
    class table and the colour map, and for each of the three patterns
    that finds a table the JSON-lines file and the summary file of its
    resolution are there at the end. *)
Theorem landcover_run_completes imp argv gdb w :
  export_landcover.arcpy imp = true
  \/ export_landcover.geopandas imp && export_landcover.fiona imp = true ->
  (3 <= length argv)%nat ->
  Forall (fun t => table_ok t = true) (layers gdb) ->
  no_dir_at landcover_outputs (fs w) ->
  exists w',
    script imp argv gdb w = (inr tt, w') /\
    fs w' !! "biome_colors.json" = Some (File (dumps_indent 2 biome_colors_json)) /\
    forall resolution pattern,
      In (resolution, pattern) [(3, "ZStatsAsTable_h3_res3_part*");
                                (5, "ZStatsTable_h3_res5_part*");
                                (7, "*h3_res7_chunk*")]%Z ->
      find_tables (export_landcover.arcpy imp) gdb pattern <> [] ->
      has_landcover_files resolution (fs w').
Proof.
  intros Hbackend Hargv Hok Hnodir. destruct w as [f out].
  assert (exists out1, import_backend imp (World f out)
                       = (inr (export_landcover.arcpy imp), World f out1))
    as [out1 Himport].
  { unfold import_backend. destruct (export_landcover.arcpy imp); [by eexists|].
    destruct Hbackend as [? | ->]; [done|]. by eexists. }
  unfold script. rewrite (bind_run_inr _ _ _ _ _ Himport), main_groups by done.
  cbn zeta. set (USE_ARCPY := export_landcover.arcpy imp).
  assert (forall resolution, In resolution [3; 5; 7]%Z ->
            In (jsonl_name resolution) landcover_outputs
            /\ In (summary_name resolution) landcover_outputs) as Hnames.
  { intros resolution Hres. unfold landcover_outputs. cbn [In] in Hres |- *.
    destruct Hres as [<-|[<-|[<-|[]]]]; tauto. }
  match goal with
  | |- context [bind (export_resolution _ _ _ 3 _) _ ?w0] =>
      destruct (completes_export_resolution USE_ARCPY gdb (nth 2 argv "") 3
                  "ZStatsAsTable_h3_res3_part*" Hok
                  (proj1 (Hnames 3%Z ltac:(cbn; tauto)))
                  (proj2 (Hnames 3%Z ltac:(cbn; tauto))) w0 Hnodir)
        as (a1 & w1 & Hrun1 & Hnodir1)
  end.
  rewrite (bind_run_inr _ _ _ _ _ Hrun1).
  destruct (completes_export_resolution USE_ARCPY gdb (nth 2 argv "") 5
              "ZStatsTable_h3_res5_part*" Hok
              (proj1 (Hnames 5%Z ltac:(cbn; tauto)))
              (proj2 (Hnames 5%Z ltac:(cbn; tauto))) w1 Hnodir1)
    as (a2 & w2 & Hrun2 & Hnodir2).
  rewrite (bind_run_inr _ _ _ _ _ Hrun2).
  destruct (completes_export_resolution USE_ARCPY gdb (nth 2 argv "") 7
              "*h3_res7_chunk*" Hok
              (proj1 (Hnames 7%Z ltac:(cbn; tauto)))
              (proj2 (Hnames 7%Z ltac:(cbn; tauto))) w2 Hnodir2)
    as (a3 & w3 & Hrun3 & Hnodir3).
  rewrite (bind_run_inr _ _ _ _ _ Hrun3).
  destruct (completes_write_file landcover_outputs "biome_colors.json"
              (dumps_indent 2 biome_colors_json)
              ltac:(unfold landcover_outputs; cbn [In]; tauto) w3 Hnodir3)
    as ([] & w4 & Hrun4 & _).
  rewrite (bind_run_inr _ _ _ _ _ Hrun4).
  apply write_file_inv in Hrun4 as ->. rewrite !bind_print.
  eexists. split; [reflexivity|]. cbn [print fs].
  split; [apply lookup_insert_eq|].
  pose proof (keeps_export_resolution
                (fun n => In n [jsonl_name 5; summary_name 5]) USE_ARCPY gdb
                (nth 2 argv "") 5 "ZStatsTable_h3_res5_part*"
                (or_introl eq_refl) (or_intror (or_introl eq_refl)) w1 _ w2 Hrun2)
    as Hframe5.
  pose proof (keeps_export_resolution
                (fun n => In n [jsonl_name 7; summary_name 7]) USE_ARCPY gdb
                (nth 2 argv "") 7 "*h3_res7_chunk*"
                (or_introl eq_refl) (or_intror (or_introl eq_refl)) w2 _ w3 Hrun3)
    as Hframe7.
  assert (agree_outside (fun n => In n ["biome_colors.json"]) (fs w3)
            (<["biome_colors.json" := File (dumps_indent 2 biome_colors_json)]> (fs w3)))
    as Hframe.
  { intros n Hn. apply lookup_insert_ne. intros <-. apply Hn. by left. }
  assert (forall (a b : string) l, a <> b -> ~ In a l -> ~ In a (b :: l)) as Hcons
    by (intros a b l Hne Hl [->|Hin]; tauto).
  intros resolution pattern Hin Hfound.
  destruct Hin as [[= <- <-]|[[= <- <-]|[[= <- <-]|[]]]].
  - apply (has_landcover_files_agree _ 3 _ _ Hframe);
      [repeat apply Hcons; try (vm_compute; discriminate); by intros []..|].
    apply (has_landcover_files_agree _ 3 _ _ Hframe7);
      [repeat apply Hcons; try (vm_compute; discriminate); by intros []..|].
    apply (has_landcover_files_agree _ 3 _ _ Hframe5);
      [repeat apply Hcons; try (vm_compute; discriminate); by intros []..|].
    by apply (export_resolution_files _ _ _ _ _ _ _ _ Hrun1).
  - apply (has_landcover_files_agree _ 5 _ _ Hframe);
      [repeat apply Hcons; try (vm_compute; discriminate); by intros []..|].
    apply (has_landcover_files_agree _ 5 _ _ Hframe7);
      [repeat apply Hcons; try (vm_compute; discriminate); by intros []..|].
    by apply (export_resolution_files _ _ _ _ _ _ _ _ Hrun2).
  - apply (has_landcover_files_agree _ 7 _ _ Hframe);
      [repeat apply Hcons; try (vm_compute; discriminate); by intros []..|].
    by apply (export_resolution_files _ _ _ _ _ _ _ _ Hrun3).
Qed.

Lemma landcover_run_completes_witness :
  exists w',
    script (export_landcover.Imports false true true)
      ["export_landcover.py"; "Biome.gdb"; "out"] Examples.gdb_parts
      Examples.empty_world = (inr tt, w') /\
    fs w' !! "biome_colors.json" = Some (File (dumps_indent 2 biome_colors_json)) /\
    forall resolution pattern,
      In (resolution, pattern) [(3, "ZStatsAsTable_h3_res3_part*");
                                (5, "ZStatsTable_h3_res5_part*");
                                (7, "*h3_res7_chunk*")]%Z ->
      find_tables false Examples.gdb_parts pattern <> [] ->
      has_landcover_files resolution (fs w').
Proof.
  apply (landcover_run_completes (export_landcover.Imports false true true)
           ["export_landcover.py"; "Biome.gdb"; "out"] Examples.gdb_parts
           Examples.empty_world).
  - right. reflexivity.
  - cbn [length]. lia.
  - repeat constructor.
  - intros n ch _ Hdir. vm_compute in Hdir. discriminate.
Defined.

(** ** Statistics: a resolution without directory *)

Lemma keeps_setup_output_dirs (P : string -> Prop) OUTPUT_DIR :
  (forall res, In res [5; 6; 7; 8; 9]%Z -> P (export_geodatabase.res_dir_name res)) ->
  keeps (agree_outside P) (export_geodatabase.setup_output_dirs OUTPUT_DIR).
Proof.
  intros HP. unfold export_geodatabase.setup_output_dirs, makedirs_exist_ok.
  apply keeps_bind; [apply agree_outside_trans|keeps_auto|intros _].
  apply keeps_bind; [apply agree_outside_trans| |intros _; keeps_auto].
  apply keeps_for_each; [apply agree_outside_refl|apply agree_outside_trans|].
  intros res Hres. by apply keeps_mkdir_exist_ok, HP.
Qed.

Lemma keeps_export_with_arcpy (P : string -> Prop) OUTPUT_DIR imp gdb :
  (forall res, P (export_geodatabase.res_dir_name res)) ->
  keeps (agree_outside P) (export_geodatabase.export_with_arcpy OUTPUT_DIR imp gdb).
Proof.
  intros HP. unfold export_geodatabase.export_with_arcpy.
  destruct (negb _); [keeps_auto|].
  destruct (ListTables gdb); [keeps_auto|].
  apply keeps_bind; [apply agree_outside_trans|keeps_auto|intros zs].
  apply keeps_bind; [apply agree_outside_trans|keeps_auto|intros _].
  apply keeps_bind; [apply agree_outside_trans| |intros _; keeps_auto].
  apply keeps_for_each; [apply agree_outside_refl|apply agree_outside_trans|].
  intros g _. by apply keeps_export_group_arcpy.
Qed.

Lemma export_with_arcpy_true OUTPUT_DIR imp gdb w b w' :
  export_geodatabase.arcpy imp = true -> ListTables gdb <> [] ->
  export_geodatabase.export_with_arcpy OUTPUT_DIR imp gdb w = (inr b, w') ->
  b = true.
Proof.
  intros Harcpy Hlisted. unfold export_geodatabase.export_with_arcpy.
  rewrite Harcpy. cbn [negb]. destruct (ListTables gdb) as [|t0 tables]; [done|].
  intros Hrun.
  apply bind_inr in Hrun as (zs & w0 & _ & Hrun).
  apply bind_inr in Hrun as ([] & w2 & _ & Hrun).
  apply bind_inr in Hrun as ([] & w3 & _ & Hrun). by injection Hrun as <- _.
Qed.

(** X15: the pattern accepts any resolution, but directories are made
    for 5 to 9 only.  When a matching table has a resolution outside 5
    to 9 and the output directory holds no directory for it, a run under
    arcpy ends with an exception, raised before the manifest is
    generated: [manifest.json] is left as it was. *)
Theorem statistics_resolution_without_directory OUTPUT_DIR now imp gdb zstats_tables
    w table res part :
  export_geodatabase.arcpy imp = true ->
  export_geodatabase.filter_zstats (ListTables gdb) = inr zstats_tables ->
  In (table, res, part) zstats_tables ->
  ~ (5 <= res <= 9)%Z ->
  (forall ch, fs w !! export_geodatabase.res_dir_name res <> Some (Dir ch)) ->
  exists e w',
    export_geodatabase.main OUTPUT_DIR now imp gdb w = (inl e, w') /\
    fs w' !! "manifest.json" = fs w !! "manifest.json".
Proof.
  intros Harcpy Hzs Hin Hres Hnodir.
  assert (ListTables gdb <> []) as Hlisted.
  { intros Hnil. rewrite Hnil in Hzs. injection Hzs as <-. destruct Hin. }
  set (P := fun n : string => startswith "res" n = true).
  assert (forall r, P (export_geodatabase.res_dir_name r)) as HP by done.
  assert (~ P "manifest.json") as Hmanifest by (unfold P; cbn; discriminate).
  destruct w as [f out]. cbn [fs] in *.
  unfold export_geodatabase.main. rewrite !bind_print.
  match goal with
  | |- context [bind (export_geodatabase.setup_output_dirs _) _ ?w0] =>
      destruct (export_geodatabase.setup_output_dirs OUTPUT_DIR w0)
        as [[e|[]] w1] eqn:Hrun1;
      [rewrite (bind_run_inl _ _ _ _ _ Hrun1)|rewrite (bind_run_inr _ _ _ _ _ Hrun1)];
      pose proof (keeps_setup_output_dirs P OUTPUT_DIR (fun r _ => HP r) _ _ _ Hrun1)
        as Hframe1;
      pose proof (keeps_setup_output_dirs
                    (fun n => In n (map export_geodatabase.res_dir_name
                                      [5; 6; 7; 8; 9]%Z))
                    OUTPUT_DIR (fun r Hr => in_map _ _ _ Hr) _ _ _ Hrun1) as Hmade
  end; cbn [fs] in Hframe1, Hmade.
  { exists e, w1. split; [done|]. by apply Hframe1. }
  destruct (export_geodatabase.export_with_arcpy OUTPUT_DIR imp gdb w1)
    as [[e|b] w2] eqn:Hrun2;
    pose proof (keeps_export_with_arcpy P OUTPUT_DIR imp gdb HP _ _ _ Hrun2) as Hframe2.
  { rewrite (bind_run_inl _ _ _ _ _ Hrun2). exists e, w2. split; [done|].
    by rewrite (Hframe2 _ Hmanifest), (Hframe1 _ Hmanifest). }
  exfalso.
  pose proof (export_with_arcpy_true _ _ _ _ _ _ Harcpy Hlisted Hrun2) as ->.
  destruct (export_with_arcpy_files _ _ _ _ _ _ Hrun2 Hzs table res part Hin)
    as (ch & _ & _ & Hdir & _).
  apply export_with_arcpy_touches in Hrun2 as (zs' & _ & Htouch).
  assert (exists ch1, fs w1 !! export_geodatabase.res_dir_name res = Some (Dir ch1))
    as [ch1 Hdir1].
  { destruct (Htouch (export_geodatabase.res_dir_name res))
      as [E|(_ & ch1 & ch2 & Hbefore & _)]; [|by eexists].
    exists ch. by rewrite <- E. }
  rewrite Hmade in Hdir1; [by destruct (Hnodir ch1)|].
  intros (r0 & Heq & Hr0)%in_map_iff. apply res_dir_name_inj in Heq as ->.
  cbn [In] in Hr0. lia.
Qed.

Lemma statistics_resolution_without_directory_witness :
  exists e w',
    export_geodatabase.main "data/exports" "2024-01-01T00:00:00"
      (export_geodatabase.Imports true false false) Examples.gdb_res4_res5
      Examples.empty_world = (inl e, w') /\
    fs w' !! "manifest.json" = fs Examples.empty_world !! "manifest.json".
Proof.
  apply (statistics_resolution_without_directory "data/exports" "2024-01-01T00:00:00"
           (export_geodatabase.Imports true false false) Examples.gdb_res4_res5
           [("ZStatsTable_h3_res5_part1", 5, 1); ("ZStatsTable_h3_res4_part1", 4, 1)]%Z
           Examples.empty_world "ZStatsTable_h3_res4_part1" 4%Z 1%Z).
  - reflexivity.
  - vm_compute. reflexivity.
  - right. left. reflexivity.
  - lia.
  - intros ch Hdir. vm_compute in Hdir. discriminate.
Defined.

(** ** Statistics: when the fallback is taken *)

Lemma bind_ext {A B} (m : M A) (k1 k2 : A -> M B) w :
  (forall a w1, m w = (inr a, w1) -> k1 a w1 = k2 a w1) ->
  bind m k1 w = bind m k2 w.
Proof. intros Hk. unfold bind. destruct (m w) as [[e|a] w1]; [done|by apply Hk]. Qed.

(** X16: the fiona fallback is taken only when [export_with_arcpy]
    returns false.  When arcpy can be imported and lists a table, the
    run is the same whether or not fiona and pandas can be imported,
    also when the arcpy export raises. *)
Theorem statistics_fallback_not_taken OUTPUT_DIR now imp imp' gdb w :
  export_geodatabase.arcpy imp = true -> export_geodatabase.arcpy imp' = true ->
  ListTables gdb <> [] ->
  export_geodatabase.main OUTPUT_DIR now imp gdb w
  = export_geodatabase.main OUTPUT_DIR now imp' gdb w.
Proof.
  intros Harcpy Harcpy' Hlisted. unfold export_geodatabase.main.
  assert (export_geodatabase.export_with_arcpy OUTPUT_DIR imp gdb
          = export_geodatabase.export_with_arcpy OUTPUT_DIR imp' gdb) as ->
    by (unfold export_geodatabase.export_with_arcpy; by rewrite Harcpy, Harcpy').
  do 7 (apply bind_ext; intros [] ? _).
  apply bind_ext. intros success world2 Hrun.
  by apply (export_with_arcpy_true _ _ _ _ _ _ Harcpy' Hlisted) in Hrun as ->.
Qed.

Lemma statistics_fallback_not_taken_witness :
  export_geodatabase.main "data/exports" "2024-01-01T00:00:00"
    (export_geodatabase.Imports true false false) Examples.gdb_res4_res5
    Examples.empty_world
  = export_geodatabase.main "data/exports" "2024-01-01T00:00:00"
      (export_geodatabase.Imports true true true) Examples.gdb_res4_res5
      Examples.empty_world.
Proof.
  apply statistics_fallback_not_taken; [reflexivity|reflexivity|].
  vm_compute. discriminate.
Defined.

(** ** Land cover: the summary counts the rows that have an index *)



(** ** Instances of the statements above *)

Lemma filter_zstats_total_witness :
  exists zstats_tables,
    export_geodatabase.filter_zstats
      ["ZStatsTable_h3_res5_part001"; "Countries"; "ZStatsTable_h3_res12_part7_old"]
    = inr zstats_tables /\
    map (fun x => fst (fst x)) zstats_tables
    = List.filter matches_TABLE_PATTERN
        ["ZStatsTable_h3_res5_part001"; "Countries"; "ZStatsTable_h3_res12_part7_old"] /\
    forall table res part, In (table, res, part) zstats_tables ->
      startswith "ZStatsTable_h3_res" table = true /\ (0 <= res)%Z /\ (0 <= part)%Z.
Proof.
  apply (filter_zstats_total
           ["ZStatsTable_h3_res5_part001"; "Countries"; "ZStatsTable_h3_res12_part7_old"]).
Defined.

Lemma get_biome_info_lookup_witness :
  Dict.get LANDCOVER_CLASSES 111%Z
  = Some (Dict.get_default LANDCOVER_CLASSES 111%Z class_0)
  /\ get_biome_info (PyInt 111)
     = inr (Dict.get_default LANDCOVER_CLASSES 111%Z class_0)
  /\ (Z.abs 111 < 10 ^ 4300)%Z
  /\ get_biome_info (PyStr (str_of_int 111)) = get_biome_info (PyInt 111).
Proof.
  split; [vm_compute; reflexivity|].
  split; [apply (proj1 get_biome_info_lookup 111%Z); vm_compute; reflexivity|].
  assert (Z.abs 111 < 10 ^ 4300)%Z as Hbound by (vm_compute; reflexivity).
  split; [exact Hbound|].
  exact (proj2 (proj2 (proj2 get_biome_info_lookup)) 111%Z Hbound).
Defined.
